(** * ADPFManager: thermal status and performance-hint coordination

    A shallow embedding of [adpf_manager.h] / [adpf_manager.cpp].

    The class talks to the platform through three interfaces: the NDK
    thermal and performance-hint functions, JNI calls on Java service
    objects, and the application's thermal listener.  Every such call is
    recorded, in order, in a trace; what the platform answers is taken from
    an oracle, so that every theorem quantified over the oracle holds for
    every platform behaviour.

    The three [#if __ANDROID_API__] variants of the class are kept in one
    definition each, selected by the build the code is compiled for. *)

From Stdlib Require Import ZArith List Bool Lia String.
Import ListNotations.
Open Scope Z_scope.

(** ** Data model *)

(** Pointers, [jobject]s and [jmethodID]s: [None] is [nullptr] (or [0]). *)
Definition handle := positive.
Definition ptr := option handle.

Definition is_null (p : ptr) : bool :=
  match p with None => true | Some _ => false end.

(** A C [float], kept as its IEEE-754 binary32 bit pattern: the class only
    stores and returns the headroom, it never computes with it. *)
Definition float32 := Z.
Definition float_zero : float32 := 0.

(** The preprocessor symbols the class is compiled under.
    [__ANDROID_API__] is the NDK's minimum API level of the build.
    [__ANDROID_API] (no trailing underscores) is tested by the destructor;
    no header of the NDK defines it, and an identifier that is not defined
    evaluates to 0 inside [#if]. *)
Record Build := { __ANDROID_API__ : Z; __ANDROID_API : Z }.

Definition ndk_build (api : Z) : Build :=
  {| __ANDROID_API__ := api; __ANDROID_API := 0 |}.

(** The part of [android_app] the class reads: [activity->javaGameActivity]. *)
Record android_app := { javaGameActivity : ptr }.

(** Dereferencing a null [app_] is undefined in C++; the model hands a null
    object to the JNI call made with it. *)
Definition activity_of (app : option android_app) : ptr :=
  match app with Some a => javaGameActivity a | None => None end.

(** Arguments of a Java method invoked through JNI.  An [int[]] argument is
    recorded by reference and by the contents marshalled into it. *)
Inductive jvalue :=
| JObject (o : ptr)
| JInt (n : Z)
| JLong (n : Z)
| JIntArray (ref : ptr) (contents : list Z).

(** Calls that cross the boundary of the class, as they appear in the source.
    Logging ([ALOGI], [ALOGE]) is not recorded. *)
Inductive Call :=
(* <android/thermal.h> *)
| AThermal_acquireManager
| AThermal_releaseManager (manager : ptr)
| AThermal_getThermalHeadroom (manager : ptr) (seconds : Z)
(* <android/performance_hint.h> *)
| APerformanceHint_getManager
| APerformanceHint_createSession (manager : ptr) (tids : list Z) (target : Z)
| APerformanceHint_closeSession (session : ptr)
| APerformanceHint_reportActualWorkDuration (session : ptr) (ns : Z)
| APerformanceHint_updateTargetWorkDuration (session : ptr) (ns : Z)
| APerformanceHint_setThreads (session : ptr) (tids : list Z)
(* JNIEnv *)
| FindClass (name : string)
| GetStaticFieldID (cls : ptr) (name sig : string)
| GetStaticObjectField (cls fid : ptr)
| GetMethodID (cls : ptr) (name sig : string)
| GetObjectClass (obj : ptr)
| NewGlobalRef (obj : ptr)
| DeleteGlobalRef (obj : ptr)
| DeleteLocalRef (obj : ptr)
| NewIntArray (size : Z)
| SetIntArrayRegion (array : ptr) (start len : Z) (buf : list Z)
| CallObjectMethod (obj mid : ptr) (args : list jvalue)
| CallLongMethod (obj mid : ptr) (args : list jvalue)
| CallFloatMethod (obj mid : ptr) (args : list jvalue)
| CallVoidMethod (obj mid : ptr) (args : list jvalue)
| ExceptionCheck
| ExceptionDescribe
| ExceptionClear
(* the application's thermalStateChangeListener *)
| thermalStateChangeListener (listener : handle) (prev cur : Z).

(** What the platform answers.  Each answer may depend on the whole history
    of calls, the call being answered last. *)
Record Platform := {
  android_get_device_api_level : Z;
  gettid : Z;
  returns_ptr : list Call -> ptr;
  returns_long : list Call -> Z;
  returns_float : list Call -> float32;
  (* whether the Java method invoked by the last call raises *)
  throws : list Call -> bool
}.

(** Everything outside the object.  [steady_clock] is what
    [std::chrono::high_resolution_clock::now()] returns next, in nanoseconds:
    [perf_start_] is declared a [time_point<steady_clock>] and is assigned
    [high_resolution_clock::now()], so in this build the two clocks are one,
    and that clock never goes back.  The environment moves it forward with
    [elapse].  Readings stay far below 2^63, so the differences the class
    takes are exact.  [exception_pending] is the JNI environment's pending
    exception.  [headroom_refreshes] is a ghost counter of the entries into
    [UpdateThermalStatusHeadRoom]. *)
Record World := {
  trace : list Call;
  exception_pending : bool;
  steady_clock : Z;
  headroom_refreshes : nat
}.

(** The members of [class ADPFManager].  The members of both
    [#if __ANDROID_API__ >= 33] variants are present; a build uses its own.
    [thermalListener] is the class's static member. *)
Record ADPFManager := {
  thermal_manager_ : ptr;
  thermal_status_ : Z;
  thermal_headroom_ : float32;
  last_clock_ : Z;
  app_ : option android_app;
  obj_power_service_ : ptr;
  get_thermal_headroom_ : ptr;
  perf_start_ : Z;
  thread_ids_ : list Z;
  hint_manager_ : ptr;
  hint_session_ : ptr;
  last_target_ : Z;
  preferred_update_rate_ : Z;
  obj_perfhint_service_ : ptr;
  obj_perfhint_session_ : ptr;
  create_hint_session_ : ptr;
  set_threads_ : ptr;
  report_actual_work_duration_ : ptr;
  update_target_work_duration_ : ptr;
  thermalListener : option handle
}.

(** Member assignment, one function per member the code assigns.
    ([last_target_] has none: no statement of the class assigns it.) *)
Definition set_thermal_manager_ (v : ptr) (m : ADPFManager) : ADPFManager :=
  {| thermal_manager_ := v; thermal_status_ := thermal_status_ m;
     thermal_headroom_ := thermal_headroom_ m; last_clock_ := last_clock_ m;
     app_ := app_ m; obj_power_service_ := obj_power_service_ m;
     get_thermal_headroom_ := get_thermal_headroom_ m;
     perf_start_ := perf_start_ m; thread_ids_ := thread_ids_ m;
     hint_manager_ := hint_manager_ m; hint_session_ := hint_session_ m;
     last_target_ := last_target_ m;
     preferred_update_rate_ := preferred_update_rate_ m;
     obj_perfhint_service_ := obj_perfhint_service_ m;
     obj_perfhint_session_ := obj_perfhint_session_ m;
     create_hint_session_ := create_hint_session_ m;
     set_threads_ := set_threads_ m;
     report_actual_work_duration_ := report_actual_work_duration_ m;
     update_target_work_duration_ := update_target_work_duration_ m;
     thermalListener := thermalListener m |}.

Definition set_thermal_status_ (v : Z) (m : ADPFManager) : ADPFManager :=
  {| thermal_manager_ := thermal_manager_ m; thermal_status_ := v;
     thermal_headroom_ := thermal_headroom_ m; last_clock_ := last_clock_ m;
     app_ := app_ m; obj_power_service_ := obj_power_service_ m;
     get_thermal_headroom_ := get_thermal_headroom_ m;
     perf_start_ := perf_start_ m; thread_ids_ := thread_ids_ m;
     hint_manager_ := hint_manager_ m; hint_session_ := hint_session_ m;
     last_target_ := last_target_ m;
     preferred_update_rate_ := preferred_update_rate_ m;
     obj_perfhint_service_ := obj_perfhint_service_ m;
     obj_perfhint_session_ := obj_perfhint_session_ m;
     create_hint_session_ := create_hint_session_ m;
     set_threads_ := set_threads_ m;
     report_actual_work_duration_ := report_actual_work_duration_ m;
     update_target_work_duration_ := update_target_work_duration_ m;
     thermalListener := thermalListener m |}.

Definition set_thermal_headroom_ (v : float32) (m : ADPFManager) : ADPFManager :=
  {| thermal_manager_ := thermal_manager_ m;
     thermal_status_ := thermal_status_ m; thermal_headroom_ := v;
     last_clock_ := last_clock_ m; app_ := app_ m;
     obj_power_service_ := obj_power_service_ m;
     get_thermal_headroom_ := get_thermal_headroom_ m;
     perf_start_ := perf_start_ m; thread_ids_ := thread_ids_ m;
     hint_manager_ := hint_manager_ m; hint_session_ := hint_session_ m;
     last_target_ := last_target_ m;
     preferred_update_rate_ := preferred_update_rate_ m;
     obj_perfhint_service_ := obj_perfhint_service_ m;
     obj_perfhint_session_ := obj_perfhint_session_ m;
     create_hint_session_ := create_hint_session_ m;
     set_threads_ := set_threads_ m;
     report_actual_work_duration_ := report_actual_work_duration_ m;
     update_target_work_duration_ := update_target_work_duration_ m;
     thermalListener := thermalListener m |}.

Definition set_last_clock_ (v : Z) (m : ADPFManager) : ADPFManager :=
  {| thermal_manager_ := thermal_manager_ m;
     thermal_status_ := thermal_status_ m;
     thermal_headroom_ := thermal_headroom_ m; last_clock_ := v;
     app_ := app_ m; obj_power_service_ := obj_power_service_ m;
     get_thermal_headroom_ := get_thermal_headroom_ m;
     perf_start_ := perf_start_ m; thread_ids_ := thread_ids_ m;
     hint_manager_ := hint_manager_ m; hint_session_ := hint_session_ m;
     last_target_ := last_target_ m;
     preferred_update_rate_ := preferred_update_rate_ m;
     obj_perfhint_service_ := obj_perfhint_service_ m;
     obj_perfhint_session_ := obj_perfhint_session_ m;
     create_hint_session_ := create_hint_session_ m;
     set_threads_ := set_threads_ m;
     report_actual_work_duration_ := report_actual_work_duration_ m;
     update_target_work_duration_ := update_target_work_duration_ m;
     thermalListener := thermalListener m |}.

Definition set_app_ (v : option android_app) (m : ADPFManager) : ADPFManager :=
  {| thermal_manager_ := thermal_manager_ m;
     thermal_status_ := thermal_status_ m;
     thermal_headroom_ := thermal_headroom_ m; last_clock_ := last_clock_ m;
     app_ := v; obj_power_service_ := obj_power_service_ m;
     get_thermal_headroom_ := get_thermal_headroom_ m;
     perf_start_ := perf_start_ m; thread_ids_ := thread_ids_ m;
     hint_manager_ := hint_manager_ m; hint_session_ := hint_session_ m;
     last_target_ := last_target_ m;
     preferred_update_rate_ := preferred_update_rate_ m;
     obj_perfhint_service_ := obj_perfhint_service_ m;
     obj_perfhint_session_ := obj_perfhint_session_ m;
     create_hint_session_ := create_hint_session_ m;
     set_threads_ := set_threads_ m;
     report_actual_work_duration_ := report_actual_work_duration_ m;
     update_target_work_duration_ := update_target_work_duration_ m;
     thermalListener := thermalListener m |}.

Definition set_obj_power_service_ (v : ptr) (m : ADPFManager) : ADPFManager :=
  {| thermal_manager_ := thermal_manager_ m;
     thermal_status_ := thermal_status_ m;
     thermal_headroom_ := thermal_headroom_ m; last_clock_ := last_clock_ m;
     app_ := app_ m; obj_power_service_ := v;
     get_thermal_headroom_ := get_thermal_headroom_ m;
     perf_start_ := perf_start_ m; thread_ids_ := thread_ids_ m;
     hint_manager_ := hint_manager_ m; hint_session_ := hint_session_ m;
     last_target_ := last_target_ m;
     preferred_update_rate_ := preferred_update_rate_ m;
     obj_perfhint_service_ := obj_perfhint_service_ m;
     obj_perfhint_session_ := obj_perfhint_session_ m;
     create_hint_session_ := create_hint_session_ m;
     set_threads_ := set_threads_ m;
     report_actual_work_duration_ := report_actual_work_duration_ m;
     update_target_work_duration_ := update_target_work_duration_ m;
     thermalListener := thermalListener m |}.

Definition set_get_thermal_headroom_ (v : ptr) (m : ADPFManager) : ADPFManager :=
  {| thermal_manager_ := thermal_manager_ m;
     thermal_status_ := thermal_status_ m;
     thermal_headroom_ := thermal_headroom_ m; last_clock_ := last_clock_ m;
     app_ := app_ m; obj_power_service_ := obj_power_service_ m;
     get_thermal_headroom_ := v; perf_start_ := perf_start_ m;
     thread_ids_ := thread_ids_ m; hint_manager_ := hint_manager_ m;
     hint_session_ := hint_session_ m; last_target_ := last_target_ m;
     preferred_update_rate_ := preferred_update_rate_ m;
     obj_perfhint_service_ := obj_perfhint_service_ m;
     obj_perfhint_session_ := obj_perfhint_session_ m;
     create_hint_session_ := create_hint_session_ m;
     set_threads_ := set_threads_ m;
     report_actual_work_duration_ := report_actual_work_duration_ m;
     update_target_work_duration_ := update_target_work_duration_ m;
     thermalListener := thermalListener m |}.

Definition set_perf_start_ (v : Z) (m : ADPFManager) : ADPFManager :=
  {| thermal_manager_ := thermal_manager_ m;
     thermal_status_ := thermal_status_ m;
     thermal_headroom_ := thermal_headroom_ m; last_clock_ := last_clock_ m;
     app_ := app_ m; obj_power_service_ := obj_power_service_ m;
     get_thermal_headroom_ := get_thermal_headroom_ m; perf_start_ := v;
     thread_ids_ := thread_ids_ m; hint_manager_ := hint_manager_ m;
     hint_session_ := hint_session_ m; last_target_ := last_target_ m;
     preferred_update_rate_ := preferred_update_rate_ m;
     obj_perfhint_service_ := obj_perfhint_service_ m;
     obj_perfhint_session_ := obj_perfhint_session_ m;
     create_hint_session_ := create_hint_session_ m;
     set_threads_ := set_threads_ m;
     report_actual_work_duration_ := report_actual_work_duration_ m;
     update_target_work_duration_ := update_target_work_duration_ m;
     thermalListener := thermalListener m |}.

Definition set_thread_ids_ (v : list Z) (m : ADPFManager) : ADPFManager :=
  {| thermal_manager_ := thermal_manager_ m;
     thermal_status_ := thermal_status_ m;
     thermal_headroom_ := thermal_headroom_ m; last_clock_ := last_clock_ m;
     app_ := app_ m; obj_power_service_ := obj_power_service_ m;
     get_thermal_headroom_ := get_thermal_headroom_ m;
     perf_start_ := perf_start_ m; thread_ids_ := v;
     hint_manager_ := hint_manager_ m; hint_session_ := hint_session_ m;
     last_target_ := last_target_ m;
     preferred_update_rate_ := preferred_update_rate_ m;
     obj_perfhint_service_ := obj_perfhint_service_ m;
     obj_perfhint_session_ := obj_perfhint_session_ m;
     create_hint_session_ := create_hint_session_ m;
     set_threads_ := set_threads_ m;
     report_actual_work_duration_ := report_actual_work_duration_ m;
     update_target_work_duration_ := update_target_work_duration_ m;
     thermalListener := thermalListener m |}.

Definition set_hint_manager_ (v : ptr) (m : ADPFManager) : ADPFManager :=
  {| thermal_manager_ := thermal_manager_ m;
     thermal_status_ := thermal_status_ m;
     thermal_headroom_ := thermal_headroom_ m; last_clock_ := last_clock_ m;
     app_ := app_ m; obj_power_service_ := obj_power_service_ m;
     get_thermal_headroom_ := get_thermal_headroom_ m;
     perf_start_ := perf_start_ m; thread_ids_ := thread_ids_ m;
     hint_manager_ := v; hint_session_ := hint_session_ m;
     last_target_ := last_target_ m;
     preferred_update_rate_ := preferred_update_rate_ m;
     obj_perfhint_service_ := obj_perfhint_service_ m;
     obj_perfhint_session_ := obj_perfhint_session_ m;
     create_hint_session_ := create_hint_session_ m;
     set_threads_ := set_threads_ m;
     report_actual_work_duration_ := report_actual_work_duration_ m;
     update_target_work_duration_ := update_target_work_duration_ m;
     thermalListener := thermalListener m |}.

Definition set_hint_session_ (v : ptr) (m : ADPFManager) : ADPFManager :=
  {| thermal_manager_ := thermal_manager_ m;
     thermal_status_ := thermal_status_ m;
     thermal_headroom_ := thermal_headroom_ m; last_clock_ := last_clock_ m;
     app_ := app_ m; obj_power_service_ := obj_power_service_ m;
     get_thermal_headroom_ := get_thermal_headroom_ m;
     perf_start_ := perf_start_ m; thread_ids_ := thread_ids_ m;
     hint_manager_ := hint_manager_ m; hint_session_ := v;
     last_target_ := last_target_ m;
     preferred_update_rate_ := preferred_update_rate_ m;
     obj_perfhint_service_ := obj_perfhint_service_ m;
     obj_perfhint_session_ := obj_perfhint_session_ m;
     create_hint_session_ := create_hint_session_ m;
     set_threads_ := set_threads_ m;
     report_actual_work_duration_ := report_actual_work_duration_ m;
     update_target_work_duration_ := update_target_work_duration_ m;
     thermalListener := thermalListener m |}.

Definition set_preferred_update_rate_ (v : Z) (m : ADPFManager) : ADPFManager :=
  {| thermal_manager_ := thermal_manager_ m;
     thermal_status_ := thermal_status_ m;
     thermal_headroom_ := thermal_headroom_ m; last_clock_ := last_clock_ m;
     app_ := app_ m; obj_power_service_ := obj_power_service_ m;
     get_thermal_headroom_ := get_thermal_headroom_ m;
     perf_start_ := perf_start_ m; thread_ids_ := thread_ids_ m;
     hint_manager_ := hint_manager_ m; hint_session_ := hint_session_ m;
     last_target_ := last_target_ m; preferred_update_rate_ := v;
     obj_perfhint_service_ := obj_perfhint_service_ m;
     obj_perfhint_session_ := obj_perfhint_session_ m;
     create_hint_session_ := create_hint_session_ m;
     set_threads_ := set_threads_ m;
     report_actual_work_duration_ := report_actual_work_duration_ m;
     update_target_work_duration_ := update_target_work_duration_ m;
     thermalListener := thermalListener m |}.

Definition set_obj_perfhint_service_ (v : ptr) (m : ADPFManager) : ADPFManager :=
  {| thermal_manager_ := thermal_manager_ m;
     thermal_status_ := thermal_status_ m;
     thermal_headroom_ := thermal_headroom_ m; last_clock_ := last_clock_ m;
     app_ := app_ m; obj_power_service_ := obj_power_service_ m;
     get_thermal_headroom_ := get_thermal_headroom_ m;
     perf_start_ := perf_start_ m; thread_ids_ := thread_ids_ m;
     hint_manager_ := hint_manager_ m; hint_session_ := hint_session_ m;
     last_target_ := last_target_ m;
     preferred_update_rate_ := preferred_update_rate_ m;
     obj_perfhint_service_ := v;
     obj_perfhint_session_ := obj_perfhint_session_ m;
     create_hint_session_ := create_hint_session_ m;
     set_threads_ := set_threads_ m;
     report_actual_work_duration_ := report_actual_work_duration_ m;
     update_target_work_duration_ := update_target_work_duration_ m;
     thermalListener := thermalListener m |}.

Definition set_obj_perfhint_session_ (v : ptr) (m : ADPFManager) : ADPFManager :=
  {| thermal_manager_ := thermal_manager_ m;
     thermal_status_ := thermal_status_ m;
     thermal_headroom_ := thermal_headroom_ m; last_clock_ := last_clock_ m;
     app_ := app_ m; obj_power_service_ := obj_power_service_ m;
     get_thermal_headroom_ := get_thermal_headroom_ m;
     perf_start_ := perf_start_ m; thread_ids_ := thread_ids_ m;
     hint_manager_ := hint_manager_ m; hint_session_ := hint_session_ m;
     last_target_ := last_target_ m;
     preferred_update_rate_ := preferred_update_rate_ m;
     obj_perfhint_service_ := obj_perfhint_service_ m;
     obj_perfhint_session_ := v;
     create_hint_session_ := create_hint_session_ m;
     set_threads_ := set_threads_ m;
     report_actual_work_duration_ := report_actual_work_duration_ m;
     update_target_work_duration_ := update_target_work_duration_ m;
     thermalListener := thermalListener m |}.

Definition set_create_hint_session_ (v : ptr) (m : ADPFManager) : ADPFManager :=
  {| thermal_manager_ := thermal_manager_ m;
     thermal_status_ := thermal_status_ m;
     thermal_headroom_ := thermal_headroom_ m; last_clock_ := last_clock_ m;
     app_ := app_ m; obj_power_service_ := obj_power_service_ m;
     get_thermal_headroom_ := get_thermal_headroom_ m;
     perf_start_ := perf_start_ m; thread_ids_ := thread_ids_ m;
     hint_manager_ := hint_manager_ m; hint_session_ := hint_session_ m;
     last_target_ := last_target_ m;
     preferred_update_rate_ := preferred_update_rate_ m;
     obj_perfhint_service_ := obj_perfhint_service_ m;
     obj_perfhint_session_ := obj_perfhint_session_ m;
     create_hint_session_ := v; set_threads_ := set_threads_ m;
     report_actual_work_duration_ := report_actual_work_duration_ m;
     update_target_work_duration_ := update_target_work_duration_ m;
     thermalListener := thermalListener m |}.

Definition set_set_threads_ (v : ptr) (m : ADPFManager) : ADPFManager :=
  {| thermal_manager_ := thermal_manager_ m;
     thermal_status_ := thermal_status_ m;
     thermal_headroom_ := thermal_headroom_ m; last_clock_ := last_clock_ m;
     app_ := app_ m; obj_power_service_ := obj_power_service_ m;
     get_thermal_headroom_ := get_thermal_headroom_ m;
     perf_start_ := perf_start_ m; thread_ids_ := thread_ids_ m;
     hint_manager_ := hint_manager_ m; hint_session_ := hint_session_ m;
     last_target_ := last_target_ m;
     preferred_update_rate_ := preferred_update_rate_ m;
     obj_perfhint_service_ := obj_perfhint_service_ m;
     obj_perfhint_session_ := obj_perfhint_session_ m;
     create_hint_session_ := create_hint_session_ m; set_threads_ := v;
     report_actual_work_duration_ := report_actual_work_duration_ m;
     update_target_work_duration_ := update_target_work_duration_ m;
     thermalListener := thermalListener m |}.

Definition set_report_actual_work_duration_ (v : ptr) (m : ADPFManager) : ADPFManager :=
  {| thermal_manager_ := thermal_manager_ m;
     thermal_status_ := thermal_status_ m;
     thermal_headroom_ := thermal_headroom_ m; last_clock_ := last_clock_ m;
     app_ := app_ m; obj_power_service_ := obj_power_service_ m;
     get_thermal_headroom_ := get_thermal_headroom_ m;
     perf_start_ := perf_start_ m; thread_ids_ := thread_ids_ m;
     hint_manager_ := hint_manager_ m; hint_session_ := hint_session_ m;
     last_target_ := last_target_ m;
     preferred_update_rate_ := preferred_update_rate_ m;
     obj_perfhint_service_ := obj_perfhint_service_ m;
     obj_perfhint_session_ := obj_perfhint_session_ m;
     create_hint_session_ := create_hint_session_ m;
     set_threads_ := set_threads_ m; report_actual_work_duration_ := v;
     update_target_work_duration_ := update_target_work_duration_ m;
     thermalListener := thermalListener m |}.

Definition set_update_target_work_duration_ (v : ptr) (m : ADPFManager) : ADPFManager :=
  {| thermal_manager_ := thermal_manager_ m;
     thermal_status_ := thermal_status_ m;
     thermal_headroom_ := thermal_headroom_ m; last_clock_ := last_clock_ m;
     app_ := app_ m; obj_power_service_ := obj_power_service_ m;
     get_thermal_headroom_ := get_thermal_headroom_ m;
     perf_start_ := perf_start_ m; thread_ids_ := thread_ids_ m;
     hint_manager_ := hint_manager_ m; hint_session_ := hint_session_ m;
     last_target_ := last_target_ m;
     preferred_update_rate_ := preferred_update_rate_ m;
     obj_perfhint_service_ := obj_perfhint_service_ m;
     obj_perfhint_session_ := obj_perfhint_session_ m;
     create_hint_session_ := create_hint_session_ m;
     set_threads_ := set_threads_ m;
     report_actual_work_duration_ := report_actual_work_duration_ m;
     update_target_work_duration_ := v;
     thermalListener := thermalListener m |}.

Definition set_thermalListener (v : option handle) (m : ADPFManager) : ADPFManager :=
  {| thermal_manager_ := thermal_manager_ m;
     thermal_status_ := thermal_status_ m;
     thermal_headroom_ := thermal_headroom_ m; last_clock_ := last_clock_ m;
     app_ := app_ m; obj_power_service_ := obj_power_service_ m;
     get_thermal_headroom_ := get_thermal_headroom_ m;
     perf_start_ := perf_start_ m; thread_ids_ := thread_ids_ m;
     hint_manager_ := hint_manager_ m; hint_session_ := hint_session_ m;
     last_target_ := last_target_ m;
     preferred_update_rate_ := preferred_update_rate_ m;
     obj_perfhint_service_ := obj_perfhint_service_ m;
     obj_perfhint_session_ := obj_perfhint_session_ m;
     create_hint_session_ := create_hint_session_ m;
     set_threads_ := set_threads_ m;
     report_actual_work_duration_ := report_actual_work_duration_ m;
     update_target_work_duration_ := update_target_work_duration_ m;
     thermalListener := v |}.
(** ** The monad of member functions: the object and the world are threaded *)

Definition M (A : Type) : Type := ADPFManager * World -> A * (ADPFManager * World).

Definition ret {A} (a : A) : M A := fun s => (a, s).

Definition bind {A B} (m : M A) (k : A -> M B) : M B :=
  fun s => let (a, s') := m s in k a s'.

Declare Scope adpf_scope.
Delimit Scope adpf_scope with adpf.
Notation "x <- m ;; k" := (bind m (fun x => k))
  (at level 61, m at next level, right associativity) : adpf_scope.
Notation "m ;; k" := (bind m (fun _ => k))
  (at level 61, right associativity) : adpf_scope.
Open Scope adpf_scope.

Definition when (c : bool) (m : M unit) : M unit := if c then m else ret tt.

(** The object itself, and assignment to its members. *)
Definition this : M ADPFManager := fun s => (fst s, s).

Definition assign (f : ADPFManager -> ADPFManager) : M unit :=
  fun s => (tt, (f (fst s), snd s)).

Definition record (c : Call) (w : World) : World :=
  {| trace := trace w ++ [c]; exception_pending := exception_pending w;
     steady_clock := steady_clock w; headroom_refreshes := headroom_refreshes w |}.

Definition set_exception_pending (b : bool) (w : World) : World :=
  {| trace := trace w; exception_pending := b;
     steady_clock := steady_clock w; headroom_refreshes := headroom_refreshes w |}.

(** [std::chrono::high_resolution_clock::now()] *)
Definition now : M Z := fun s => (steady_clock (snd s), s).

(** Time passing between two calls into the object: the clock is steady, so
    it only moves forward. *)
Definition later (d : N) (w : World) : World :=
  {| trace := trace w; exception_pending := exception_pending w;
     steady_clock := steady_clock w + Z.of_N d;
     headroom_refreshes := headroom_refreshes w |}.

Definition elapse (d : N) : M unit := fun s => (tt, (fst s, later d (snd s))).

Definition ghost_refresh : M unit :=
  fun s => (tt, (fst s,
    {| trace := trace (snd s); exception_pending := exception_pending (snd s);
       steady_clock := steady_clock (snd s);
       headroom_refreshes := S (headroom_refreshes (snd s)) |})).

Section Methods.

Variable B : Build.
Variable P : Platform.

(** *** Calls into the platform *)

Definition call (c : Call) : M unit :=
  fun s => (tt, (fst s, record c (snd s))).

Definition call_ptr (c : Call) : M ptr :=
  fun s => let w := record c (snd s) in (returns_ptr P (trace w), (fst s, w)).

Definition call_float (c : Call) : M float32 :=
  fun s => let w := record c (snd s) in (returns_float P (trace w), (fst s, w)).

(** [Call<Type>Method]: the Java method may raise, which leaves an exception
    pending in the environment. *)
Definition raise_if_thrown (w : World) : World :=
  set_exception_pending (exception_pending w || throws P (trace w)) w.

Definition invoke (c : Call) : M unit :=
  fun s => (tt, (fst s, raise_if_thrown (record c (snd s)))).

Definition invoke_ptr (c : Call) : M ptr :=
  fun s => let w := record c (snd s) in
           (returns_ptr P (trace w), (fst s, raise_if_thrown w)).

Definition invoke_long (c : Call) : M Z :=
  fun s => let w := record c (snd s) in
           (returns_long P (trace w), (fst s, raise_if_thrown w)).

Definition invoke_float (c : Call) : M float32 :=
  fun s => let w := record c (snd s) in
           (returns_float P (trace w), (fst s, raise_if_thrown w)).

Definition env_ExceptionCheck : M bool :=
  fun s => let w := record ExceptionCheck (snd s) in
           (exception_pending w, (fst s, w)).

Definition env_ExceptionDescribe : M unit := call ExceptionDescribe.

Definition env_ExceptionClear : M unit :=
  fun s => (tt, (fst s, set_exception_pending false (record ExceptionClear (snd s)))).

(** *** Constants *)

(** [static constexpr auto kThermalHeadroomUpdateThreshold = std::chrono::seconds(1)] *)
Definition kThermalHeadroomUpdateThreshold : Z := 1.

(** The same duration in the clock's unit, as the comparison in [Monitor]
    converts it. *)
Definition nanoseconds_of_seconds (s : Z) : Z := s * 1000000000.

Definition DEFAULT_TARGET_NS : Z := 16666666.

(** *** Construction and destruction *)

(** The private constructor.  [create_hint_session_] is not initialised by
    it: [garbage] is whatever the member holds.  The static
    [thermalListener] starts as [NULL]. *)
Definition ADPFManager_new (garbage : ptr) (w : World) : ADPFManager :=
  {| thermal_manager_ := None;
     thermal_status_ := 0;
     thermal_headroom_ := float_zero;
     last_clock_ := steady_clock w;
     app_ := None;
     obj_power_service_ := None;
     get_thermal_headroom_ := None;
     perf_start_ := 0;
     thread_ids_ := [];
     hint_manager_ := None;
     hint_session_ := None;
     last_target_ := 16666666;
     preferred_update_rate_ := 0;
     obj_perfhint_service_ := None;
     obj_perfhint_session_ := None;
     create_hint_session_ := garbage;
     set_threads_ := None;
     report_actual_work_duration_ := None;
     update_target_work_duration_ := None;
     thermalListener := None |}.

(** [~ADPFManager()] *)
Definition ADPFManager_delete : M unit :=
  self <- this ;;
  when (negb (match app_ self with None => true | Some _ => false end)) (
    when (negb (is_null (obj_power_service_ self)))
      (call (DeleteGlobalRef (obj_power_service_ self))) ;;
    when (30 <=? __ANDROID_API B)
      (when (negb (is_null (thermal_manager_ self)))
         (call (AThermal_releaseManager (thermal_manager_ self)))) ;;
    if 33 <=? __ANDROID_API__ B then
      when (negb (is_null (hint_session_ self)))
        (call (APerformanceHint_closeSession (hint_session_ self)))
    else
      when (negb (is_null (obj_perfhint_service_ self)))
        (call (DeleteGlobalRef (obj_perfhint_service_ self))) ;;
      when (negb (is_null (obj_perfhint_session_ self)))
        (call (DeleteGlobalRef (obj_perfhint_session_ self)))).

(** *** Thermal status *)

Definition GetThermalStatus (m : ADPFManager) : Z := thermal_status_ m.
Definition GetThermalHeadroom (m : ADPFManager) : float32 := thermal_headroom_ m.
Definition GetThermalManager (m : ADPFManager) : ptr := thermal_manager_ m.

Definition SetThermalStatus (i : Z) : M unit :=
  self <- this ;;
  let prev_status_ := thermal_status_ self in
  let current_status_ := i in
  assign (set_thermal_status_ i) ;;
  self <- this ;;
  match thermalListener self with
  | Some listener => call (thermalStateChangeListener listener prev_status_ current_status_)
  | None => ret tt
  end.

Definition SetThermalListener (listener : option handle) : M unit :=
  assign (set_thermalListener listener).

(** [bool ADPFManager::InitializePowerManager()] *)
Definition InitializePowerManager : M bool :=
  if (30 <=? __ANDROID_API__ B) && (31 <=? android_get_device_api_level P) then
    m <- call_ptr AThermal_acquireManager ;;
    assign (set_thermal_manager_ m) ;;
    ret true
  else
    context <- call_ptr (FindClass "android/content/Context") ;;
    fid <- call_ptr (GetStaticFieldID context "POWER_SERVICE" "Ljava/lang/String;") ;;
    str_svc <- call_ptr (GetStaticObjectField context fid) ;;
    mid_getss <- call_ptr (GetMethodID context "getSystemService"
                             "(Ljava/lang/String;)Ljava/lang/Object;") ;;
    self <- this ;;
    obj_power_service <- invoke_ptr
      (CallObjectMethod (activity_of (app_ self)) mid_getss [JObject str_svc]) ;;
    g <- call_ptr (NewGlobalRef obj_power_service) ;;
    assign (set_obj_power_service_ g) ;;
    cls_power_service <- call_ptr (GetObjectClass g) ;;
    mid <- call_ptr (GetMethodID cls_power_service "getThermalHeadroom" "(I)F") ;;
    assign (set_get_thermal_headroom_ mid) ;;
    call (DeleteLocalRef cls_power_service) ;;
    call (DeleteLocalRef obj_power_service) ;;
    call (DeleteLocalRef str_svc) ;;
    call (DeleteLocalRef context) ;;
    self <- this ;;
    if is_null (get_thermal_headroom_ self) then ret false else ret true.

(** [float ADPFManager::UpdateThermalStatusHeadRoom()] *)
Definition UpdateThermalStatusHeadRoom : M float32 :=
  ghost_refresh ;;
  if (31 <=? __ANDROID_API__ B) && (31 <=? android_get_device_api_level P) then
    let seconds := kThermalHeadroomUpdateThreshold in
    self <- this ;;
    h <- call_float (AThermal_getThermalHeadroom (thermal_manager_ self) seconds) ;;
    assign (set_thermal_headroom_ h) ;;
    ret h
  else
    self <- this ;;
    if match app_ self with None => true | Some _ => false end
       || is_null (get_thermal_headroom_ self)
    then ret float_zero
    else
      h <- invoke_float (CallFloatMethod (obj_power_service_ self)
                           (get_thermal_headroom_ self)
                           [JInt kThermalHeadroomUpdateThreshold]) ;;
      assign (set_thermal_headroom_ h) ;;
      ret h.

(** [void ADPFManager::Monitor()] *)
Definition Monitor : M unit :=
  current_clock <- now ;;
  self <- this ;;
  let past := current_clock - last_clock_ self in
  if nanoseconds_of_seconds kThermalHeadroomUpdateThreshold <=? past then
    UpdateThermalStatusHeadRoom ;;
    assign (set_last_clock_ current_clock)
  else ret tt.

(** *** Performance hint session *)

(** [bool ADPFManager::InitializePerformanceHintManager()] *)
Definition InitializePerformanceHintManager : M bool :=
  if 33 <=? __ANDROID_API__ B then
    self <- this ;;
    when (is_null (hint_manager_ self))
      (m <- call_ptr APerformanceHint_getManager ;;
       assign (set_hint_manager_ m)) ;;
    self <- this ;;
    when (is_null (hint_session_ self) && negb (is_null (hint_manager_ self)))
      (let tid := gettid P in
       assign (fun m => set_thread_ids_ (thread_ids_ m ++ [tid]) m) ;;
       let tids := [tid] in
       s <- call_ptr (APerformanceHint_createSession (hint_manager_ self) tids
                        (last_target_ self)) ;;
       assign (set_hint_session_ s)) ;;
    ret true
  else
    context <- call_ptr (FindClass "android/content/Context") ;;
    fid <- call_ptr (GetStaticFieldID context "PERFORMANCE_HINT_SERVICE"
                       "Ljava/lang/String;") ;;
    str_svc <- call_ptr (GetStaticObjectField context fid) ;;
    mid_getss <- call_ptr (GetMethodID context "getSystemService"
                             "(Ljava/lang/String;)Ljava/lang/Object;") ;;
    self <- this ;;
    obj_perfhint_service <- invoke_ptr
      (CallObjectMethod (activity_of (app_ self)) mid_getss [JObject str_svc]) ;;
    g <- call_ptr (NewGlobalRef obj_perfhint_service) ;;
    assign (set_obj_perfhint_service_ g) ;;
    cls_perfhint_service <- call_ptr (GetObjectClass g) ;;
    create <- call_ptr (GetMethodID cls_perfhint_service "createHintSession"
                          "([IJ)Landroid/os/PerformanceHintManager$Session;") ;;
    assign (set_create_hint_session_ create) ;;
    mid_preferedupdaterate <- call_ptr
      (GetMethodID cls_perfhint_service "getPreferredUpdateRateNanos" "()J") ;;
    array <- call_ptr (NewIntArray 1) ;;
    let tid := gettid P in
    call (SetIntArrayRegion array 0 1 [tid]) ;;
    obj_hintsession <- invoke_ptr
      (CallObjectMethod g create [JIntArray array [tid]; JLong DEFAULT_TARGET_NS]) ;;
    (if is_null obj_hintsession then ret tt
     else
       gs <- call_ptr (NewGlobalRef obj_hintsession) ;;
       assign (set_obj_perfhint_session_ gs) ;;
       rate <- invoke_long (CallLongMethod g mid_preferedupdaterate []) ;;
       assign (set_preferred_update_rate_ rate) ;;
       cls_perfhint_session <- call_ptr (GetObjectClass gs) ;;
       r <- call_ptr (GetMethodID cls_perfhint_session "reportActualWorkDuration" "(J)V") ;;
       assign (set_report_actual_work_duration_ r) ;;
       u <- call_ptr (GetMethodID cls_perfhint_session "updateTargetWorkDuration" "(J)V") ;;
       assign (set_update_target_work_duration_ u) ;;
       t <- call_ptr (GetMethodID cls_perfhint_session "setThreads" "([I)V") ;;
       assign (set_set_threads_ t)) ;;
    call (DeleteLocalRef obj_hintsession) ;;
    call (DeleteLocalRef array) ;;
    call (DeleteLocalRef cls_perfhint_service) ;;
    call (DeleteLocalRef obj_perfhint_service) ;;
    call (DeleteLocalRef str_svc) ;;
    call (DeleteLocalRef context) ;;
    self <- this ;;
    if is_null (report_actual_work_duration_ self)
       || is_null (update_target_work_duration_ self)
    then ret false else ret true.

(** [void ADPFManager::SetApplication(android_app *app)] *)
Definition SetApplication (app : option android_app) : M unit :=
  assign (set_app_ app) ;;
  InitializePowerManager ;;
  InitializePerformanceHintManager ;;
  ret tt.

Definition BeginPerfHintSession : M unit :=
  t <- now ;;
  assign (set_perf_start_ t).

Definition EndPerfHintSession (target_duration_ns : Z) : M unit :=
  if 33 <=? __ANDROID_API__ B then
    perf_end <- now ;;
    self <- this ;;
    let dur := perf_end - perf_start_ self in
    let actual_duration_ns := dur in
    call (APerformanceHint_reportActualWorkDuration (hint_session_ self)
            actual_duration_ns) ;;
    call (APerformanceHint_updateTargetWorkDuration (hint_session_ self)
            target_duration_ns)
  else
    self <- this ;;
    when (negb (is_null (obj_perfhint_session_ self)))
      (perf_end <- now ;;
       let duration := perf_end - perf_start_ self in
       let duration_ns := duration in
       invoke (CallVoidMethod (obj_perfhint_session_ self)
                 (report_actual_work_duration_ self) [JLong duration_ns]) ;;
       invoke (CallVoidMethod (obj_perfhint_session_ self)
                 (update_target_work_duration_ self) [JLong target_duration_ns])).

(** [void ADPFManager::RegisterThreadIdsToHintSession()] *)
Definition RegisterThreadIdsToHintSession : M unit :=
  if 34 <=? __ANDROID_API__ B then
    self <- this ;;
    let data := thread_ids_ self in
    call (APerformanceHint_setThreads (hint_session_ self) data)
  else if 33 <=? __ANDROID_API__ B then
    self <- this ;;
    let data := thread_ids_ self in
    when (negb (is_null (hint_session_ self)))
      (call (APerformanceHint_closeSession (hint_session_ self))) ;;
    s <- call_ptr (APerformanceHint_createSession (hint_manager_ self) data
                     (last_target_ self)) ;;
    assign (set_hint_session_ s)
  else
    self <- this ;;
    let size := Z.of_nat (List.length (thread_ids_ self)) in
    array <- call_ptr (NewIntArray size) ;;
    let data := thread_ids_ self in
    call (SetIntArrayRegion array 0 size data) ;;
    if is_null (set_threads_ self) then
      when (negb (is_null (obj_perfhint_session_ self)))
        (call (DeleteGlobalRef (obj_perfhint_session_ self))) ;;
      obj_hintsession <- invoke_ptr
        (CallObjectMethod (obj_perfhint_service_ self) (create_hint_session_ self)
           [JIntArray array data; JLong DEFAULT_TARGET_NS]) ;;
      g <- call_ptr (NewGlobalRef obj_hintsession) ;;
      assign (set_obj_perfhint_session_ g)
    else
      invoke (CallVoidMethod (obj_perfhint_session_ self) (set_threads_ self)
                [JIntArray array data]) ;;
      check <- env_ExceptionCheck ;;
      when check (env_ExceptionDescribe ;; env_ExceptionClear).

(** [std::remove] followed by [erase]: every element equal to [tid] goes,
    the others keep their order. *)
Definition erase_remove (tid : Z) (v : list Z) : list Z :=
  filter (fun t => negb (t =? tid)) v.

Definition AddThreadIdToHintSession (tid : Z) : M unit :=
  assign (fun m => set_thread_ids_ (thread_ids_ m ++ [tid]) m) ;;
  RegisterThreadIdsToHintSession.

Definition RemoveThreadIdFromHintSession (tid : Z) : M unit :=
  assign (fun m => set_thread_ids_ (erase_remove tid (thread_ids_ m)) m) ;;
  RegisterThreadIdsToHintSession.

(** [nativeThermalStatusChanged] and [thermal_callback]: both forward to
    [SetThermalStatus] of the singleton. *)
Definition nativeThermalStatusChanged (thermalState : Z) : M unit :=
  SetThermalStatus thermalState.

Definition thermal_callback (status : Z) : M unit :=
  SetThermalStatus status.

End Methods.

(** ** Observations on runs *)

(** The object and the world a member function leaves behind. *)
Definition exec {A} (f : M A) (s : ADPFManager * World) : ADPFManager * World :=
  snd (f s).

(** A world in which nothing has happened yet. *)
Definition quiet_world (clock : Z) : World :=
  {| trace := []; exception_pending := false; steady_clock := clock;
     headroom_refreshes := 0 |}.

(** One [SetThermalStatus] call per element, in order. *)
Fixpoint SetThermalStatus_each (levels : list Z) : M unit :=
  match levels with
  | [] => ret tt
  | i :: rest => SetThermalStatus i ;; SetThermalStatus_each rest
  end.

(** The listener calls a sequence of status updates owes: one per update,
    pairing each level with the level cached before it. *)
Fixpoint notifications (listener : handle) (prev : Z) (levels : list Z) : list Call :=
  match levels with
  | [] => []
  | i :: rest => thermalStateChangeListener listener prev i :: notifications listener i rest
  end.

Definition listener_calls (l : option handle) (prev : Z) (levels : list Z) : list Call :=
  match l with
  | Some listener => notifications listener prev levels
  | None => []
  end.


(** A run of [Monitor] calls: one call now, then one call after each of the
    delays in turn; [1 + length delays] calls in a window as long as the
    delays together. *)
Fixpoint Monitor_after (B : Build) (P : Platform) (delays : list N) : M unit :=
  match delays with
  | [] => ret tt
  | d :: rest => elapse d ;; Monitor B P ;; Monitor_after B P rest
  end.

Definition Monitor_burst (B : Build) (P : Platform) (delays : list N) : M unit :=
  Monitor B P ;; Monitor_after B P delays.

Definition window (delays : list N) : Z :=
  fold_right (fun d acc => Z.of_N d + acc) 0 delays.

(** The calls that ask the platform for the thermal headroom. *)
Definition is_headroom_query (c : Call) : bool :=
  match c with
  | AThermal_getThermalHeadroom _ _ => true
  | CallFloatMethod _ _ _ => true
  | _ => false
  end.

Definition headroom_queries (t : list Call) : nat :=
  List.length (filter is_headroom_query t).

Arguments headroom_queries : simpl never.

(** Whether [UpdateThermalStatusHeadRoom] reaches the platform: the NDK path
    always does, the JNI path only with an application and a resolved
    [getThermalHeadroom] method. *)
Definition headroom_source_present (B : Build) (P : Platform) (m : ADPFManager) : bool :=
  ((31 <=? __ANDROID_API__ B) && (31 <=? android_get_device_api_level P))
  || negb (match app_ m with None => true | Some _ => false end
           || is_null (get_thermal_headroom_ m)).

(** The thread-id list a call hands to the platform, if it hands one. *)
Definition first_int_array (args : list jvalue) : option (list Z) :=
  match args with
  | JIntArray _ contents :: _ => Some contents
  | _ => None
  end.

Definition synced_tids (c : Call) : option (list Z) :=
  match c with
  | APerformanceHint_setThreads _ tids => Some tids
  | APerformanceHint_createSession _ tids _ => Some tids
  | CallVoidMethod _ _ args => first_int_array args
  | CallObjectMethod _ _ args => first_int_array args
  | _ => None
  end.

(** The list handed over by the latest such call of a trace. *)
Definition last_synced (t : list Call) : option (list Z) :=
  fold_left (fun acc c => match synced_tids c with Some l => Some l | None => acc end)
            t None.

Definition same_set (l l' : list Z) : Prop := forall t, In t l <-> In t l'.

(** The session of the build's tier, and the two calls [EndPerfHintSession]
    makes on it. *)
Definition session_of (B : Build) (m : ADPFManager) : ptr :=
  if 33 <=? __ANDROID_API__ B then hint_session_ m else obj_perfhint_session_ m.

Definition report_actual (B : Build) (m : ADPFManager) (ns : Z) : Call :=
  if 33 <=? __ANDROID_API__ B
  then APerformanceHint_reportActualWorkDuration (hint_session_ m) ns
  else CallVoidMethod (obj_perfhint_session_ m) (report_actual_work_duration_ m)
         [JLong ns].

Definition update_target (B : Build) (m : ADPFManager) (ns : Z) : Call :=
  if 33 <=? __ANDROID_API__ B
  then APerformanceHint_updateTargetWorkDuration (hint_session_ m) ns
  else CallVoidMethod (obj_perfhint_session_ m) (update_target_work_duration_ m)
         [JLong ns].

Definition is_thermal_release (c : Call) : bool :=
  match c with AThermal_releaseManager _ => true | _ => false end.

(** A synchronisation of the thread ids [tids] through the Java
    [setThreads] method, from world [w] to the state [s']: the ids are
    marshalled into a new array and passed to [setThreads] on the session;
    the exception check follows; when an exception is pending after the
    call (it raised, or one was pending before) the exception is described
    and cleared; no exception is pending at the end. *)
Definition setThreads_caught (P : Platform) (tids : list Z) (m : ADPFManager)
    (w : World) (s' : ADPFManager * World) : Prop :=
  let n := Z.of_nat (List.length tids) in
  let array := returns_ptr P (trace w ++ [NewIntArray n]) in
  let upto := trace w ++ [NewIntArray n; SetIntArrayRegion array 0 n tids;
                          CallVoidMethod (obj_perfhint_session_ m) (set_threads_ m)
                            [JIntArray array tids]] in
  let raised := exception_pending w || throws P upto in
  thread_ids_ (fst s') = tids
  /\ trace (snd s')
     = upto ++ ExceptionCheck
               :: (if raised then [ExceptionDescribe; ExceptionClear] else [])
  /\ exception_pending (snd s') = false.

(** The statement that, on the session-recreation tier, adding a thread
    after [EndPerfHintSession target] closes the session and creates one
    with the updated thread ids and that [target]. *)
Definition add_recreates_with_last_target (P : Platform) (target tid : Z)
    (s : ADPFManager * World) : Prop :=
  let B := ndk_build 33 in
  let s1 := exec (EndPerfHintSession B P target) s in
  let s2 := exec (AddThreadIdToHintSession B P tid) s1 in
  trace (snd s2)
  = trace (snd s1)
    ++ [APerformanceHint_closeSession (hint_session_ (fst s));
        APerformanceHint_createSession (hint_manager_ (fst s))
          (thread_ids_ (fst s) ++ [tid]) target].

(** The statement that adding a thread id and removing it again ends with
    the platform holding the thread ids it started from, as a set. *)
Definition add_remove_restores (B : Build) (P : Platform) (x : Z)
    (s : ADPFManager * World) : Prop :=
  let s' := exec (AddThreadIdToHintSession B P x ;;
                  RemoveThreadIdFromHintSession B P x) s in
  exists synced, last_synced (trace (snd s')) = Some synced
                 /\ same_set synced (thread_ids_ (fst s)).

(** ** Concrete platforms and objects, for examples *)

(** A platform of the given API level that answers every call: each handle
    it returns is fresh (numbered by the length of the history), no Java
    method raises, the calling thread is thread 100. *)
Definition answering_platform (level : Z) : Platform :=
  {| android_get_device_api_level := level;
     gettid := 100;
     returns_ptr := fun history => Some (Pos.of_nat (List.length history));
     returns_long := fun _ => 8333333;
     returns_float := fun _ => 1062836634;
     throws := fun _ => false |}.

(** The same platform without a performance-hint manager:
    [APerformanceHint_getManager] returns a null pointer. *)
Definition platform_without_hint_manager (level : Z) : Platform :=
  {| android_get_device_api_level := level;
     gettid := 100;
     returns_ptr := fun history =>
       match last history ExceptionCheck with
       | APerformanceHint_getManager => None
       | _ => Some (Pos.of_nat (List.length history))
       end;
     returns_long := fun _ => 8333333;
     returns_float := fun _ => 1062836634;
     throws := fun _ => false |}.

(** A platform on which every Java method raises. *)
Definition raising_platform (level : Z) : Platform :=
  {| android_get_device_api_level := level;
     gettid := 100;
     returns_ptr := fun history => Some (Pos.of_nat (List.length history));
     returns_long := fun _ => 8333333;
     returns_float := fun _ => 1062836634;
     throws := fun _ => true |}.

Definition the_app : option android_app := Some {| javaGameActivity := Some 1%positive |}.

(** The singleton as [getInstance] constructs it at clock [t], and as
    [SetApplication] leaves it. *)
Definition fresh (t : Z) : ADPFManager * World :=
  (ADPFManager_new None (quiet_world t), quiet_world t).

Definition started (B : Build) (P : Platform) (t : Z) : ADPFManager * World :=
  exec (SetApplication B P the_app) (fresh t).

Definition started_object (B : Build) (P : Platform) (t : Z) : ADPFManager :=
  fst (started B P t).

Definition started_world (B : Build) (P : Platform) (t : Z) : World :=
  snd (started B P t).

(** ** Registration of the NDK thermal callback *)

(** The two calls [nativeRegisterThermalStatusListener] and
    [nativeUnregisterThermalStatusListener] can make.  Both always pass
    [thermal_callback] and a null [data]; only the manager varies.  The
    functions read the singleton and change nothing in it, so they are
    modelled as the list of calls they make on a given object. *)
Inductive ThermalListenerCall :=
| AThermal_registerThermalStatusListener (manager : ptr)
| AThermal_unregisterThermalStatusListener (manager : ptr).

Definition nativeRegisterThermalStatusListener (B : Build) (m : ADPFManager)
  : list ThermalListenerCall :=
  if 30 <=? __ANDROID_API__ B then
    let manager := GetThermalManager m in
    if negb (is_null manager)
    then [AThermal_registerThermalStatusListener manager]
    else []
  else [].

Definition nativeUnregisterThermalStatusListener (B : Build) (m : ADPFManager)
  : list ThermalListenerCall :=
  if 30 <=? __ANDROID_API__ B then
    let manager := GetThermalManager m in
    if negb (is_null manager)
    then [AThermal_unregisterThermalStatusListener manager]
    else []
  else [].

(** ** Sequences of thread-set operations *)

Inductive ThreadOp :=
| AddThread (tid : Z)
| RemoveThread (tid : Z).

Definition thread_op (B : Build) (P : Platform) (op : ThreadOp) : M unit :=
  match op with
  | AddThread tid => AddThreadIdToHintSession B P tid
  | RemoveThread tid => RemoveThreadIdFromHintSession B P tid
  end.

Fixpoint thread_ops (B : Build) (P : Platform) (ops : list ThreadOp) : M unit :=
  match ops with
  | [] => ret tt
  | op :: rest => thread_op B P op ;; thread_ops B P rest
  end.

(** What an operation does to a plain list of thread ids. *)
Definition apply_thread_op (tids : list Z) (op : ThreadOp) : list Z :=
  match op with
  | AddThread tid => tids ++ [tid]
  | RemoveThread tid => erase_remove tid tids
  end.

(** The lists after each operation of a sequence, in order. *)
Fixpoint lists_after (tids : list Z) (ops : list ThreadOp) : list (list Z) :=
  match ops with
  | [] => []
  | op :: rest => apply_thread_op tids op :: lists_after (apply_thread_op tids op) rest
  end.

(** ** Counting calls *)

Definition count_calls (p : Call -> bool) (t : list Call) : nat :=
  List.length (filter p t).

Arguments count_calls : simpl never.

Definition is_NewIntArray (c : Call) : bool :=
  match c with NewIntArray _ => true | _ => false end.

Definition is_DeleteLocalRef (c : Call) : bool :=
  match c with DeleteLocalRef _ => true | _ => false end.

Definition is_thermal_acquire (c : Call) : bool :=
  match c with AThermal_acquireManager => true | _ => false end.

(** A call that releases, closes or deletes a null handle. *)
Definition releases_null (c : Call) : bool :=
  match c with
  | AThermal_releaseManager None => true
  | APerformanceHint_closeSession None => true
  | DeleteGlobalRef None => true
  | DeleteLocalRef None => true
  | _ => false
  end.

(** Whether the call is a Java [createHintSession] invocation: the only
    [CallObjectMethod] of the class that passes an [int[]] and a [long]. *)
Definition is_createHintSession (c : Call) : bool :=
  match c with
  | CallObjectMethod _ _ [JIntArray _ _; JLong _] => true
  | _ => false
  end.

(** A platform that answers every call but refuses to create hint sessions:
    [createHintSession] returns null. *)
Definition platform_refusing_sessions (level : Z) : Platform :=
  {| android_get_device_api_level := level;
     gettid := 100;
     returns_ptr := fun history =>
       if is_createHintSession (last history ExceptionCheck) then None
       else Some (Pos.of_nat (List.length history));
     returns_long := fun _ => 8333333;
     returns_float := fun _ => 1062836634;
     throws := fun _ => false |}.

(** A platform whose [setThreads] method cannot be resolved, and whose
    Java methods all raise. *)
Definition platform_without_setThreads (level : Z) : Platform :=
  {| android_get_device_api_level := level;
     gettid := 100;
     returns_ptr := fun history =>
       match last history ExceptionCheck with
       | GetMethodID _ "setThreads" _ => None
       | _ => Some (Pos.of_nat (List.length history))
       end;
     returns_long := fun _ => 8333333;
     returns_float := fun _ => 1062836634;
     throws := fun _ => true |}.

(** ** The two sides of the class *)

(** The members of the thermal side, and those of the performance-hint
    side. *)
Definition thermal_side (m : ADPFManager) :=
  (thermal_manager_ m, thermal_status_ m, thermal_headroom_ m, last_clock_ m,
   app_ m, obj_power_service_ m, get_thermal_headroom_ m, thermalListener m).

Definition hint_side (m : ADPFManager) :=
  (perf_start_ m, thread_ids_ m, hint_manager_ m, hint_session_ m, last_target_ m,
   preferred_update_rate_ m, obj_perfhint_service_ m, obj_perfhint_session_ m,
   create_hint_session_ m, set_threads_ m, report_actual_work_duration_ m,
   update_target_work_duration_ m).

(** The query [UpdateThermalStatusHeadRoom] sends when it reaches the
    platform. *)
Definition headroom_query (B : Build) (P : Platform) (m : ADPFManager) : Call :=
  if (31 <=? __ANDROID_API__ B) && (31 <=? android_get_device_api_level P)
  then AThermal_getThermalHeadroom (thermal_manager_ m) kThermalHeadroomUpdateThreshold
  else CallFloatMethod (obj_power_service_ m) (get_thermal_headroom_ m)
         [JInt kThermalHeadroomUpdateThreshold].

(** The lists handed to the platform by the calls of a trace, in order. *)
Fixpoint synced_lists (t : list Call) : list (list Z) :=
  match t with
  | [] => []
  | c :: rest =>
      match synced_tids c with
      | Some l => l :: synced_lists rest
      | None => synced_lists rest
      end
  end.

(** A platform on which [getThermalHeadroom] cannot be resolved. *)
Definition platform_without_headroom (level : Z) : Platform :=
  {| android_get_device_api_level := level;
     gettid := 100;
     returns_ptr := fun history =>
       match last history ExceptionCheck with
       | GetMethodID _ "getThermalHeadroom" _ => None
       | _ => Some (Pos.of_nat (List.length history))
       end;
     returns_long := fun _ => 8333333;
     returns_float := fun _ => 1062836634;
     throws := fun _ => false |}.

(** ** Sessions open on the platform *)

Fixpoint remove_one (s : handle) (open : list handle) : list handle :=
  match open with
  | [] => []
  | x :: rest => if Pos.eqb x s then rest else x :: remove_one s rest
  end.

(** The effect of one call on the NDK sessions that are open: a creation
    opens the session the platform returns for it (none when it returns
    null), a close of a session closes it.  The first component is the
    history, which decides the platform's answers. *)
Definition session_step (P : Platform) (st : list Call * list handle) (c : Call)
  : list Call * list handle :=
  let history := fst st ++ [c] in
  (history,
   match c with
   | APerformanceHint_createSession _ _ _ =>
       match returns_ptr P history with
       | Some s => s :: snd st
       | None => snd st
       end
   | APerformanceHint_closeSession (Some s) => remove_one s (snd st)
   | _ => snd st
   end).

(** The NDK sessions open after a trace that starts from nothing. *)
Definition sessions_open (P : Platform) (t : list Call) : list handle :=
  snd (fold_left (session_step P) t ([], [])).

Definition held (session : ptr) : list handle :=
  match session with Some s => [s] | None => [] end.

Definition is_session_call (c : Call) : bool :=
  match c with
  | APerformanceHint_createSession _ _ _ => true
  | APerformanceHint_closeSession _ => true
  | _ => false
  end.

(** ** JNI global references held on the platform *)

(** The effect of one call on the global references that exist:
    [NewGlobalRef] makes the reference the platform returns for it (none
    when it returns null), [DeleteGlobalRef] of a reference deletes it. *)
Definition global_ref_step (P : Platform) (st : list Call * list handle) (c : Call)
  : list Call * list handle :=
  let history := fst st ++ [c] in
  (history,
   match c with
   | NewGlobalRef _ =>
       match returns_ptr P history with
       | Some g => g :: snd st
       | None => snd st
       end
   | DeleteGlobalRef (Some g) => remove_one g (snd st)
   | _ => snd st
   end).

Definition global_refs_open (P : Platform) (t : list Call) : list handle :=
  snd (fold_left (global_ref_step P) t ([], [])).

Definition is_global_ref_call (c : Call) : bool :=
  match c with
  | NewGlobalRef _ => true
  | DeleteGlobalRef _ => true
  | _ => false
  end.

(** The global references the object holds. *)
Definition refs_held (m : ADPFManager) : list handle :=
  held (obj_perfhint_session_ m) ++ held (obj_perfhint_service_ m)
  ++ held (obj_power_service_ m).

(** ** A refresh, as the object and the platform see it *)

(** [s'] is what one refresh of the headroom, made at clock [at_clock] from
    the object [m] in the world [w], leaves behind: [last_clock_] is the
    clock of the refresh and no member but it and the cached headroom has
    changed; with a headroom source the platform has received exactly the
    query of the build's path and the cache holds its answer; without one
    nothing has been called and the cache is as it was. *)
Definition refreshed_at (B : Build) (P : Platform) (m : ADPFManager) (w : World)
    (at_clock : Z) (s' : ADPFManager * World) : Prop :=
  last_clock_ (fst s') = at_clock
  /\ fst s' = set_last_clock_ at_clock
                (set_thermal_headroom_ (thermal_headroom_ (fst s')) m)
  /\ headroom_refreshes (snd s') = S (headroom_refreshes w)
  /\ if headroom_source_present B P m
     then trace (snd s') = trace w ++ [headroom_query B P m]
          /\ GetThermalHeadroom (fst s') = returns_float P (trace (snd s'))
     else trace (snd s') = trace w
          /\ GetThermalHeadroom (fst s') = GetThermalHeadroom m.
(** ** Running member functions *)

Lemma exec_bind {A B} (f : M A) (k : A -> M B) (s : ADPFManager * World) :
  exec (bind f k) s = exec (k (fst (f s))) (exec f s).
Proof. unfold exec, bind. destruct (f s); reflexivity. Qed.

Lemma trace_record (c : Call) (w : World) : trace (record c w) = trace w ++ [c].
Proof. reflexivity. Qed.

(** ** Thermal status updates *)

Lemma SetThermalStatus_step (i : Z) (m : ADPFManager) (w : World) :
  exec (SetThermalStatus i) (m, w)
  = (set_thermal_status_ i m,
     match thermalListener m with
     | Some f => record (thermalStateChangeListener f (thermal_status_ m) i) w
     | None => w
     end).
Proof.
  unfold exec, SetThermalStatus, bind, this, assign; cbn.
  destruct (thermalListener m); reflexivity.
Qed.

Lemma last_cons (i : Z) (rest : list Z) :
  forall d, last (i :: rest) d = last rest i.
Proof.
  revert i. induction rest as [|j rest IH]; intros i d; [reflexivity|].
  change (last (i :: j :: rest) d) with (last (j :: rest) d).
  now rewrite !IH.
Qed.

Lemma notifications_length (f : handle) (levels : list Z) :
  forall prev, List.length (notifications f prev levels) = List.length levels.
Proof. induction levels as [|i rest IH]; intros prev; cbn; [|rewrite IH]; reflexivity. Qed.

(** C1. After any sequence of [SetThermalStatus] calls [GetThermalStatus]
    returns the level set last (the level cached before, for the empty
    sequence).  The calls the sequence adds to the trace are the listener's
    alone: with a listener registered, one call per update, carrying the
    level cached before that update and the level set by it, whether or not
    the two differ; with none registered, no call.  The registration itself
    is left as it was. *)
Theorem SetThermalStatus_sequence (levels : list Z) (m : ADPFManager) (w : World) :
  let s' := exec (SetThermalStatus_each levels) (m, w) in
  GetThermalStatus (fst s') = last levels (GetThermalStatus m)
  /\ trace (snd s')
     = trace w ++ listener_calls (thermalListener m) (GetThermalStatus m) levels
  /\ thermalListener (fst s') = thermalListener m
  /\ (forall f prev, List.length (notifications f prev levels) = List.length levels).
Proof.
  cbv zeta. unfold GetThermalStatus.
  revert m w. induction levels as [|i rest IH]; intros m w.
  - cbn. repeat split. destruct (thermalListener m); cbn; now rewrite app_nil_r.
  - cbn [SetThermalStatus_each]. rewrite exec_bind, SetThermalStatus_step.
    set (w1 := match thermalListener m with
               | Some f => record (thermalStateChangeListener f (thermal_status_ m) i) w
               | None => w end).
    destruct (IH (set_thermal_status_ i m) w1) as (H1 & H2 & H3 & _).
    cbn [thermal_status_ thermalListener set_thermal_status_] in H1, H2, H3.
    repeat split.
    + rewrite H1. symmetry. apply last_cons.
    + rewrite H2. subst w1. destruct (thermalListener m); cbn.
      * now rewrite <- app_assoc.
      * reflexivity.
    + exact H3.
    + intros f prev. apply notifications_length.
Qed.

(** ** Monitor: rate limiting and frame *)

(** The test [past >= kThermalHeadroomUpdateThreshold], decided. *)
Ltac due_or_not :=
  match goal with
  | |- context [?a <=? steady_clock ?w - last_clock_ ?m] =>
      destruct (Z.leb_spec a (steady_clock w - last_clock_ m))
  end.

Ltac threshold_lia :=
  unfold nanoseconds_of_seconds, kThermalHeadroomUpdateThreshold in *; lia.

Section MonitorFacts.

Variable B : Build.
Variable P : Platform.

Let T : Z := nanoseconds_of_seconds kThermalHeadroomUpdateThreshold.

Local Ltac threshold_lia' := unfold T in *; threshold_lia.

Lemma headroom_queries_app (t u : list Call) :
  headroom_queries (t ++ u) = (headroom_queries t + headroom_queries u)%nat.
Proof. unfold headroom_queries. now rewrite filter_app, length_app. Qed.

Lemma window_cons (d : N) (rest : list N) :
  window (d :: rest) = Z.of_N d + window rest.
Proof. reflexivity. Qed.

Lemma window_nonneg (delays : list N) : 0 <= window delays.
Proof.
  induction delays as [|d rest IH]; [cbn; lia | rewrite window_cons; lia].
Qed.

(** A call that is not due changes nothing at all. *)
Lemma Monitor_not_due (m : ADPFManager) (w : World) :
  steady_clock w - last_clock_ m < T ->
  Monitor B P (m, w) = (tt, (m, w)).
Proof.
  intros H. unfold Monitor, bind, now, this; cbn.
  due_or_not; [threshold_lia' | reflexivity].
Qed.

Lemma exec_Monitor_not_due (m : ADPFManager) (w : World) :
  steady_clock w - last_clock_ m < T ->
  exec (Monitor B P) (m, w) = (m, w).
Proof. intros H. unfold exec. now rewrite Monitor_not_due. Qed.

(** What a due call leaves behind. *)
Lemma Monitor_due (m : ADPFManager) (w : World) :
  T <= steady_clock w - last_clock_ m ->
  let s' := exec (Monitor B P) (m, w) in
  headroom_refreshes (snd s') = S (headroom_refreshes w)
  /\ last_clock_ (fst s') = steady_clock w
  /\ steady_clock (snd s') = steady_clock w
  /\ (headroom_queries (trace (snd s')) <= headroom_queries (trace w) + 1)%nat
  /\ (headroom_source_present B P m = true ->
      headroom_queries (trace (snd s')) = (headroom_queries (trace w) + 1)%nat).
Proof.
  intros H. cbv zeta.
  unfold exec, Monitor, UpdateThermalStatusHeadRoom, headroom_source_present,
    bind, now, this, assign, ghost_refresh, call_float, invoke_float; cbn.
  due_or_not; [| threshold_lia'].
  destruct ((31 <=? __ANDROID_API__ B) && (31 <=? android_get_device_api_level P));
    cbn.
  - rewrite headroom_queries_app; cbn. repeat split; auto.
  - destruct (app_ m); cbn.
    + destruct (get_thermal_headroom_ m); cbn.
      * rewrite headroom_queries_app; cbn. repeat split; auto.
      * repeat split; auto with arith. discriminate.
    + repeat split; auto with arith. discriminate.
Qed.

(** Once a refresh has happened, the calls of a window shorter than the
    threshold that follow it change nothing but the clock. *)
Lemma Monitor_after_quiet (delays : list N) :
  forall (m : ADPFManager) (w : World),
    steady_clock w - last_clock_ m + window delays < T ->
    let s' := exec (Monitor_after B P delays) (m, w) in
    fst s' = m
    /\ headroom_refreshes (snd s') = headroom_refreshes w
    /\ trace (snd s') = trace w
    /\ steady_clock (snd s') = steady_clock w + window delays.
Proof.
  induction delays as [|d rest IH]; intros m w H; cbv zeta.
  - cbn. repeat split; lia.
  - rewrite window_cons in H.
    cbn [Monitor_after]. rewrite exec_bind.
    change (exec (elapse d) (m, w)) with (m, later d w).
    set (w1 := later d w).
    assert (Hc : steady_clock w1 = steady_clock w + Z.of_N d) by reflexivity.
    pose proof (window_nonneg rest) as Hr.
    rewrite exec_bind.
    assert (Hq : steady_clock w1 - last_clock_ m < T) by lia.
    rewrite (exec_Monitor_not_due m w1 Hq).
    destruct (IH m w1) as (H1 & H2 & H3 & H4); [lia|].
    split; [exact H1|]. split; [exact H2|]. split; [exact H3|].
    rewrite H4, window_cons. lia.
Qed.

Lemma Monitor_after_bound (delays : list N) :
  forall (m : ADPFManager) (w : World),
    window delays < T ->
    let s' := exec (Monitor_after B P delays) (m, w) in
    (headroom_refreshes (snd s') <= headroom_refreshes w + 1)%nat
    /\ (headroom_queries (trace (snd s')) <= headroom_queries (trace w) + 1)%nat.
Proof.
  induction delays as [|d rest IH]; intros m w H; cbv zeta.
  - cbn. split; auto with arith.
  - rewrite window_cons in H.
    pose proof (window_nonneg rest) as Hr.
    cbn [Monitor_after]. rewrite exec_bind.
    change (exec (elapse d) (m, w)) with (m, later d w).
    set (w1 := later d w).
    assert (Hc : steady_clock w1 = steady_clock w + Z.of_N d) by reflexivity.
    rewrite exec_bind.
    destruct (Z.lt_ge_cases (steady_clock w1 - last_clock_ m) T) as [Hq|Hd].
    + rewrite (exec_Monitor_not_due m w1 Hq).
      apply (IH m w1). lia.
    + destruct (Monitor_due m w1 Hd) as (R1 & R2 & R3 & R4 & _).
      destruct (exec (Monitor B P) (m, w1)) as [m2 w2] eqn:E. cbn [fst snd] in *.
      destruct (Monitor_after_quiet rest m2 w2) as (_ & Q2 & Q3 & _); [lia|].
      rewrite Q2, Q3, R1.
      change (headroom_refreshes w1) with (headroom_refreshes w).
      change (trace w1) with (trace w) in R4. split; lia.
Qed.

End MonitorFacts.

Lemma exec_elapse (d : N) (m : ADPFManager) (w : World) :
  exec (elapse d) (m, w) = (m, later d w).
Proof. reflexivity. Qed.

(** What a due call leaves behind, in full. *)
Lemma Monitor_refreshes (B : Build) (P : Platform) (m : ADPFManager) (w : World) :
  nanoseconds_of_seconds kThermalHeadroomUpdateThreshold
  <= steady_clock w - last_clock_ m ->
  refreshed_at B P m w (steady_clock w) (exec (Monitor B P) (m, w))
  /\ steady_clock (snd (exec (Monitor B P) (m, w))) = steady_clock w.
Proof.
  intros Hd.
  unfold refreshed_at, headroom_source_present, headroom_query, GetThermalHeadroom.
  unfold exec, Monitor, UpdateThermalStatusHeadRoom,
    bind, now, this, assign, ghost_refresh, call_float, invoke_float; cbn.
  due_or_not; [| threshold_lia]. cbn.
  destruct ((31 <=? __ANDROID_API__ B) && (31 <=? android_get_device_api_level P));
    cbn.
  - destruct m; repeat split.
  - destruct (app_ m) eqn:Ea; cbn.
    + destruct (get_thermal_headroom_ m) eqn:Eg; cbn; destruct m; repeat split.
    + destruct m; repeat split.
Qed.

Lemma refreshed_at_later (B : Build) (P : Platform) (m : ADPFManager) (w : World)
    (d : N) (t : Z) (s' : ADPFManager * World) :
  refreshed_at B P m (later d w) t s' -> refreshed_at B P m w t s'.
Proof. intros H. exact H. Qed.

Lemma refreshed_at_same (B : Build) (P : Platform) (m : ADPFManager) (w : World)
    (t : Z) (s' s'' : ADPFManager * World) :
  fst s'' = fst s' ->
  trace (snd s'') = trace (snd s') ->
  headroom_refreshes (snd s'') = headroom_refreshes (snd s') ->
  refreshed_at B P m w t s' -> refreshed_at B P m w t s''.
Proof.
  unfold refreshed_at. intros E1 E2 E3 H. now rewrite E1, E2, E3.
Qed.

(** A run of calls in a window shorter than the threshold, none of them
    made yet: either none is due and nothing changes, or exactly one
    refreshes, at the clock of that call. *)
Lemma Monitor_after_outcome (B : Build) (P : Platform) (delays : list N) :
  forall (m : ADPFManager) (w : World),
    window delays < nanoseconds_of_seconds kThermalHeadroomUpdateThreshold ->
    let s' := exec (Monitor_after B P delays) (m, w) in
    steady_clock (snd s') = steady_clock w + window delays
    /\ ((fst s' = m /\ trace (snd s') = trace w
         /\ headroom_refreshes (snd s') = headroom_refreshes w)
        \/ exists k,
             (1 <= k <= List.length delays)%nat
             /\ nanoseconds_of_seconds kThermalHeadroomUpdateThreshold
                <= steady_clock w + window (firstn k delays) - last_clock_ m
             /\ refreshed_at B P m w
                  (steady_clock w + window (firstn k delays)) s').
Proof.
  induction delays as [|d rest IH]; intros m w Hwin; cbv zeta.
  - cbn. split; [lia|]. left. repeat split.
  - rewrite window_cons in Hwin. pose proof (window_nonneg rest) as Hr.
    cbn [Monitor_after]. rewrite exec_bind, exec_elapse, exec_bind.
    set (w1 := later d w).
    assert (Hc : steady_clock w1 = steady_clock w + Z.of_N d) by reflexivity.
    destruct (Z.lt_ge_cases (steady_clock w1 - last_clock_ m)
                (nanoseconds_of_seconds kThermalHeadroomUpdateThreshold)) as [Hq|Hd].
    + rewrite (exec_Monitor_not_due B P m w1 Hq).
      destruct (IH m w1) as (I1 & I2); [lia|].
      split; [rewrite I1, window_cons; lia|].
      destruct I2 as [(E1 & E2 & E3) | (k & Hk & Hdue & Hat)].
      * left. repeat split; assumption.
      * right. exists (S k). cbn [firstn List.length]. rewrite window_cons.
        split; [lia|]. split; [lia|].
        replace (steady_clock w + (Z.of_N d + window (firstn k rest)))
          with (steady_clock w1 + window (firstn k rest)) by lia.
        exact Hat.
    + destruct (Monitor_refreshes B P m w1 Hd) as (Hat & Hclock).
      pose proof Hat as (L1 & _).
      destruct (exec (Monitor B P) (m, w1)) as [m2 w2] eqn:E2.
      cbn [fst snd] in *.
      destruct (Monitor_after_quiet B P rest m2 w2) as (Q1 & Q2 & Q3 & Q4); [lia|].
      split; [rewrite Q4, window_cons; lia|].
      right. exists 1%nat. cbn [firstn List.length]. rewrite window_cons.
      change (window []) with 0.
      split; [lia|]. split; [lia|].
      replace (steady_clock w + (Z.of_N d + 0)) with (steady_clock w1) by lia.
      apply (refreshed_at_same B P m w (steady_clock w1) (m2, w2)); assumption.
Qed.

(** C4. A run of [Monitor] calls that fits in a window shorter than the
    one-second threshold refreshes the headroom at most once: either no
    call is due and the run changes nothing, or exactly one call
    refreshes, and then [last_clock_] is the clock of that very call (with
    a headroom source one query is sent and its answer cached).  A call
    that is not due is a no-op.  A call made once the threshold has elapsed
    since [last_clock_] refreshes exactly once more, [last_clock_] becomes
    the clock of that call, and the calls that follow it within less than
    the threshold refresh nothing. *)
Theorem Monitor_rate_limit (B : Build) (P : Platform) (delays : list N) (d : N)
    (m : ADPFManager) (w : World) :
  let threshold := nanoseconds_of_seconds kThermalHeadroomUpdateThreshold in
  let s1 := exec (Monitor_burst B P delays) (m, w) in
  let s2 := exec (elapse d ;; Monitor B P) s1 in
  window delays < threshold ->
  threshold <= steady_clock (snd s1) + Z.of_N d - last_clock_ (fst s1) ->
  (headroom_refreshes (snd s1) <= headroom_refreshes w + 1)%nat
  /\ (headroom_queries (trace (snd s1)) <= headroom_queries (trace w) + 1)%nat
  /\ (forall m' w', steady_clock w' - last_clock_ m' < threshold ->
                    Monitor B P (m', w') = (tt, (m', w')))
  /\ headroom_refreshes (snd s2) = S (headroom_refreshes (snd s1))
  /\ (headroom_queries (trace (snd s2)) <= headroom_queries (trace (snd s1)) + 1)%nat
  /\ (headroom_source_present B P (fst s1) = true ->
      headroom_queries (trace (snd s2))
      = (headroom_queries (trace (snd s1)) + 1)%nat)
  /\ steady_clock (snd s1) = steady_clock w + window delays
  /\ ((fst s1 = m /\ trace (snd s1) = trace w
       /\ headroom_refreshes (snd s1) = headroom_refreshes w)
      \/ exists k,
           (k <= List.length delays)%nat
           /\ threshold <= steady_clock w + window (firstn k delays) - last_clock_ m
           /\ refreshed_at B P m w (steady_clock w + window (firstn k delays)) s1)
  /\ refreshed_at B P (fst s1) (snd s1) (steady_clock (snd s1) + Z.of_N d) s2
  /\ steady_clock (snd s2) = steady_clock (snd s1) + Z.of_N d
  /\ (forall more, window more < threshold ->
        let s3 := exec (Monitor_after B P more) s2 in
        fst s3 = fst s2 /\ trace (snd s3) = trace (snd s2)
        /\ headroom_refreshes (snd s3) = headroom_refreshes (snd s2)).
Proof.
  intros threshold s1 s2 Hwin Hdue.
  assert (Hburst :
    (headroom_refreshes (snd s1) <= headroom_refreshes w + 1)%nat
    /\ (headroom_queries (trace (snd s1)) <= headroom_queries (trace w) + 1)%nat).
  { subst s1. unfold Monitor_burst. rewrite exec_bind.
    destruct (Z.lt_ge_cases (steady_clock w - last_clock_ m) threshold) as [Hq|Hd].
    - rewrite (exec_Monitor_not_due B P m w Hq).
      apply Monitor_after_bound. exact Hwin.
    - destruct (Monitor_due B P m w Hd) as (R1 & R2 & R3 & R4 & _).
      destruct (exec (Monitor B P) (m, w)) as [m1 w1]. cbn [fst snd] in *.
      destruct (Monitor_after_quiet B P delays m1 w1) as (_ & Q2 & Q3 & _).
      + fold threshold. lia.
      + rewrite Q2, Q3, R1. split; lia. }
  assert (Hout :
    steady_clock (snd s1) = steady_clock w + window delays
    /\ ((fst s1 = m /\ trace (snd s1) = trace w
         /\ headroom_refreshes (snd s1) = headroom_refreshes w)
        \/ exists k,
             (k <= List.length delays)%nat
             /\ threshold <= steady_clock w + window (firstn k delays) - last_clock_ m
             /\ refreshed_at B P m w (steady_clock w + window (firstn k delays)) s1)).
  { subst s1. unfold Monitor_burst. rewrite exec_bind.
    destruct (Z.lt_ge_cases (steady_clock w - last_clock_ m) threshold) as [Hq|Hd].
    - rewrite (exec_Monitor_not_due B P m w Hq).
      destruct (Monitor_after_outcome B P delays m w Hwin) as (O1 & O2).
      split; [exact O1|].
      destruct O2 as [O2 | (k & Hk & Hk2 & Hat)]; [left; exact O2|].
      right. exists k. split; [lia|]. split; assumption.
    - destruct (Monitor_refreshes B P m w Hd) as (Hat & Hclock).
      pose proof Hat as (L1 & _).
      destruct (exec (Monitor B P) (m, w)) as [m1 w1]. cbn [fst snd] in *.
      destruct (Monitor_after_quiet B P delays m1 w1) as (Q1 & Q2 & Q3 & Q4).
      + fold threshold. lia.
      + split; [rewrite Q4; lia|].
        right. exists 0%nat. cbn [firstn]. change (window []) with 0.
        split; [lia|]. split; [fold threshold in Hd; lia|].
        replace (steady_clock w + 0) with (steady_clock w) by lia.
        apply (refreshed_at_same B P m w (steady_clock w) (m1, w1)); assumption. }
  destruct Hburst as [Hb1 Hb2]. destruct Hout as [Ho1 Ho2].
  split; [exact Hb1|]. split; [exact Hb2|].
  split; [intros m' w' Hq; now apply Monitor_not_due|].
  subst s2. rewrite exec_bind.
  destruct s1 as [m1 w1]. rewrite exec_elapse. cbn [fst snd] in *.
  set (w2 := later d w1).
  destruct (Monitor_due B P m1 w2) as (R1 & R2 & R3 & R4 & R5);
    [fold threshold; exact Hdue|].
  destruct (Monitor_refreshes B P m1 w2) as (Hat & Hclock);
    [fold threshold; exact Hdue|].
  split; [exact R1|]. split; [exact R4|]. split; [exact R5|].
  split; [exact Ho1|]. split; [exact Ho2|].
  split; [exact Hat|]. split; [exact Hclock|].
  intros more Hmore. cbv zeta.
  destruct (exec (Monitor B P) (m1, w2)) as [m3 w3]. cbn [fst snd] in *.
  destruct (Monitor_after_quiet B P more m3 w3) as (Q1 & Q2 & Q3 & _).
  - fold threshold. change (steady_clock w2) with (steady_clock w1 + Z.of_N d) in *.
    lia.
  - repeat split; assumption.
Qed.

Lemma Monitor_rate_limit_witness :
  let B := ndk_build 33 in
  let P := answering_platform 33 in
  let m := started_object B P 0 in
  let w := later 2000000000 (started_world B P 0) in
  let s1 := exec (Monitor_burst B P [300000000%N; 300000000%N; 300000000%N]) (m, w) in
  let s2 := exec (elapse 1000000000 ;; Monitor B P) s1 in
  (headroom_refreshes (snd s1) <= headroom_refreshes w + 1)%nat
  /\ headroom_refreshes (snd s2) = S (headroom_refreshes (snd s1))
  /\ headroom_queries (trace (snd s2)) = (headroom_queries (trace (snd s1)) + 1)%nat
  /\ refreshed_at B P (fst s1) (snd s1) (steady_clock (snd s1) + 1000000000) s2.
Proof.
  cbv zeta.
  destruct (Monitor_rate_limit (ndk_build 33) (answering_platform 33)
              [300000000%N; 300000000%N; 300000000%N] 1000000000%N
              (started_object (ndk_build 33) (answering_platform 33) 0)
              (later 2000000000
                 (started_world (ndk_build 33) (answering_platform 33) 0)))
    as (H1 & _ & _ & H4 & _ & H6 & _ & _ & H9 & _).
  - vm_compute. reflexivity.
  - vm_compute. discriminate.
  - split; [exact H1|]. split; [exact H4|].
    split; [apply H6; vm_compute; reflexivity | exact H9].
Defined.

(** The same run, evaluated: the first call of the burst is due and
    refreshes, the three that follow within 0.9 s do not, the call one
    second later does. *)
Example Monitor_burst_evaluated :
  let B := ndk_build 33 in
  let P := answering_platform 33 in
  let s0 := (started_object B P 0, later 2000000000 (started_world B P 0)) in
  let s1 := exec (Monitor_burst B P [300000000%N; 300000000%N; 300000000%N]) s0 in
  let s2 := exec (elapse 1000000000%N ;; Monitor B P) s1 in
  headroom_refreshes (snd s1) = 1%nat
  /\ last_clock_ (fst s1) = 2000000000
  /\ headroom_refreshes (snd s2) = 2%nat
  /\ last_clock_ (fst s2) = 3900000000
  /\ skipn 3 (trace (snd s2))
     = [AThermal_getThermalHeadroom (Some 1%positive) 1;
        AThermal_getThermalHeadroom (Some 1%positive) 1].
Proof. vm_compute. repeat split. Qed.

(** C10. A [Monitor] call, due or not, leaves every member of the object
    as it was except [thermal_headroom_] and [last_clock_]: in particular
    the cached thermal status, the registered listener and the thread ids.
    The only calls it adds to the trace are headroom queries; the listener
    is not called. *)
Theorem Monitor_frame (B : Build) (P : Platform) (m : ADPFManager) (w : World) :
  let s' := exec (Monitor B P) (m, w) in
  fst s' = set_last_clock_ (last_clock_ (fst s'))
             (set_thermal_headroom_ (thermal_headroom_ (fst s')) m)
  /\ GetThermalStatus (fst s') = GetThermalStatus m
  /\ thermalListener (fst s') = thermalListener m
  /\ thread_ids_ (fst s') = thread_ids_ m
  /\ exists queries, trace (snd s') = trace w ++ queries
                     /\ forallb is_headroom_query queries = true.
Proof.
  cbv zeta.
  unfold exec, Monitor, UpdateThermalStatusHeadRoom,
    bind, now, this, assign, ghost_refresh, call_float, invoke_float; cbn.
  due_or_not; cbn.
  - destruct ((31 <=? __ANDROID_API__ B) && (31 <=? android_get_device_api_level P));
      cbn.
    + destruct m; repeat split. eexists; split; [reflexivity|reflexivity].
    + destruct (app_ m) eqn:Ea; cbn.
      * destruct (get_thermal_headroom_ m) eqn:Eg; cbn.
        -- destruct m; repeat split. eexists; split; [reflexivity|reflexivity].
        -- destruct m; repeat split.
           exists []; split; [now rewrite app_nil_r|reflexivity].
      * destruct m; repeat split.
        exists []; split; [now rewrite app_nil_r|reflexivity].
  - destruct m; repeat split.
    exists []; split; [now rewrite app_nil_r|reflexivity].
Qed.

(** ** Reporting the work duration *)

Lemma BeginPerfHintSession_step (m : ADPFManager) (w : World) :
  exec BeginPerfHintSession (m, w) = (set_perf_start_ (steady_clock w) m, w).
Proof. reflexivity. Qed.

(** On the direct tier the two calls are made whatever [hint_session_] holds. *)
Lemma EndPerfHintSession_direct (B : Build) (P : Platform) (target : Z)
    (m : ADPFManager) (w : World) :
  33 <= __ANDROID_API__ B ->
  exec (EndPerfHintSession B P target) (m, w)
  = (m, record (APerformanceHint_updateTargetWorkDuration (hint_session_ m) target)
          (record (APerformanceHint_reportActualWorkDuration (hint_session_ m)
                     (steady_clock w - perf_start_ m)) w)).
Proof.
  intros H. unfold exec, EndPerfHintSession.
  destruct (Z.leb_spec 33 (__ANDROID_API__ B)); [reflexivity | lia].
Qed.

(** On the reflective tier a missing session makes the call a no-op. *)
Lemma EndPerfHintSession_reflective_no_session (B : Build) (P : Platform)
    (target : Z) (m : ADPFManager) (w : World) :
  __ANDROID_API__ B < 33 ->
  obj_perfhint_session_ m = None ->
  EndPerfHintSession B P target (m, w) = (tt, (m, w)).
Proof.
  intros H E. unfold EndPerfHintSession.
  destruct (Z.leb_spec 33 (__ANDROID_API__ B)); [lia|].
  unfold bind, this, when; cbn. now rewrite E.
Qed.

Lemma EndPerfHintSession_reflective (B : Build) (P : Platform) (target : Z)
    (m : ADPFManager) (w : World) :
  __ANDROID_API__ B < 33 ->
  obj_perfhint_session_ m <> None ->
  trace (snd (exec (EndPerfHintSession B P target) (m, w)))
  = trace w ++ [CallVoidMethod (obj_perfhint_session_ m)
                  (report_actual_work_duration_ m)
                  [JLong (steady_clock w - perf_start_ m)];
                CallVoidMethod (obj_perfhint_session_ m)
                  (update_target_work_duration_ m) [JLong target]]
  /\ fst (exec (EndPerfHintSession B P target) (m, w)) = m
  /\ steady_clock (snd (exec (EndPerfHintSession B P target) (m, w)))
     = steady_clock w.
Proof.
  intros H E. unfold exec, EndPerfHintSession.
  destruct (Z.leb_spec 33 (__ANDROID_API__ B)); [lia|].
  unfold bind, this, when, now, invoke; cbn.
  destruct (obj_perfhint_session_ m) as [s|]; [|congruence]. cbn.
  rewrite <- app_assoc. repeat split.
Qed.

(** C7. [BeginPerfHintSession], then any amount of time, then
    [EndPerfHintSession target] on a live session: the start timestamp is
    the clock at [Begin]; the session is first told the time elapsed since
    that timestamp, which is not negative (the clock is steady), and then
    told the target, the very value passed; nothing else is called. *)
Theorem Begin_End_reports (B : Build) (P : Platform) (d : N) (target : Z)
    (m : ADPFManager) (w : World) :
  let s0 := exec BeginPerfHintSession (m, w) in
  let s' := exec (elapse d ;; EndPerfHintSession B P target) s0 in
  let elapsed := steady_clock (snd s') - perf_start_ (fst s0) in
  session_of B m <> None ->
  perf_start_ (fst s0) = steady_clock w
  /\ 0 <= elapsed
  /\ trace (snd s')
     = trace w ++ [report_actual B m elapsed; update_target B m target].
Proof.
  cbv zeta. intros Hlive.
  rewrite BeginPerfHintSession_step, exec_bind, exec_elapse. cbn [fst snd].
  set (m0 := set_perf_start_ (steady_clock w) m).
  set (w1 := later d w).
  unfold session_of, report_actual, update_target in *.
  destruct (Z.leb_spec 33 (__ANDROID_API__ B)) as [Hd|Hr].
  - rewrite (EndPerfHintSession_direct B P target m0 w1 Hd). cbn.
    rewrite <- app_assoc. repeat split. lia.
  - destruct (EndPerfHintSession_reflective B P target m0 w1 Hr Hlive)
      as (Ht & _ & Hc).
    rewrite Ht, Hc. cbn. repeat split. lia.
Qed.

Lemma Begin_End_reports_witness :
  let B := ndk_build 33 in
  let P := answering_platform 33 in
  let m := started_object B P 0 in
  let w := started_world B P 0 in
  let s0 := exec BeginPerfHintSession (m, w) in
  let s' := exec (elapse 12000000 ;; EndPerfHintSession B P 8333333) s0 in
  let elapsed := steady_clock (snd s') - perf_start_ (fst s0) in
  perf_start_ (fst s0) = steady_clock w
  /\ 0 <= elapsed
  /\ trace (snd s')
     = trace w ++ [report_actual B m elapsed; update_target B m 8333333].
Proof.
  cbv zeta.
  apply (Begin_End_reports (ndk_build 33) (answering_platform 33) 12000000%N
           8333333 (started_object (ndk_build 33) (answering_platform 33) 0)
           (started_world (ndk_build 33) (answering_platform 33) 0)).
  vm_compute. discriminate.
Defined.

Example Begin_End_evaluated :
  let B := ndk_build 33 in
  let P := answering_platform 33 in
  let s := exec (BeginPerfHintSession ;; elapse 12000000%N ;;
                 EndPerfHintSession B P 8333333) (started B P 0) in
  skipn 3 (trace (snd s))
  = [APerformanceHint_reportActualWorkDuration (Some 3%positive) 12000000;
     APerformanceHint_updateTargetWorkDuration (Some 3%positive) 8333333].
Proof. vm_compute. reflexivity. Qed.

(** C2. The claim fails on the direct tier.  Compiled for API 33 and started
    on a device that has no performance-hint manager, the object holds no
    session; [EndPerfHintSession] still calls
    [APerformanceHint_reportActualWorkDuration] and
    [APerformanceHint_updateTargetWorkDuration], each with a null session.
    (The reflective tier has the null test:
    [EndPerfHintSession_reflective_no_session].) *)
Theorem EndPerfHintSession_null_session_calls :
  let B := ndk_build 33 in
  let P := platform_without_hint_manager 33 in
  let s := started B P 0 in
  let s' := exec (EndPerfHintSession B P 16666666) s in
  hint_manager_ (fst s) = None
  /\ hint_session_ (fst s) = None
  /\ trace (snd s')
     = trace (snd s)
       ++ [APerformanceHint_reportActualWorkDuration None 0;
           APerformanceHint_updateTargetWorkDuration None 16666666].
Proof. vm_compute. repeat split. Qed.

(** ** Destruction *)

(** Compiled by the NDK ([__ANDROID_API] undefined, hence 0), the destructor
    never releases the thermal manager, whatever the object holds. *)
Lemma ADPFManager_delete_never_releases (api : Z) (m : ADPFManager) (w : World) :
  exists calls,
    trace (snd (exec (ADPFManager_delete (ndk_build api)) (m, w))) = trace w ++ calls
    /\ forallb (fun c => negb (is_thermal_release c)) calls = true.
Proof.
  unfold exec, ADPFManager_delete, bind, this, when, call; cbn.
  destruct (app_ m); cbn; [| exists []; now rewrite app_nil_r].
  destruct (33 <=? api);
    destruct (obj_power_service_ m), (hint_session_ m),
      (obj_perfhint_service_ m), (obj_perfhint_session_ m); cbn;
    repeat rewrite <- app_assoc; cbn [app];
    try (eexists; split; [reflexivity | reflexivity]);
    exists []; now rewrite app_nil_r.
Qed.

(** C6. The claim fails for the thermal manager.  Compiled for API 33 and
    started on an API 33 device, the object acquires a thermal manager
    handle; the destructor closes the hint session and makes no other call:
    [AThermal_releaseManager] is not called. *)
Theorem teardown_keeps_thermal_manager :
  let B := ndk_build 33 in
  let P := answering_platform 33 in
  let s := started B P 0 in
  let s' := exec (ADPFManager_delete B) s in
  trace (snd s)
  = [AThermal_acquireManager; APerformanceHint_getManager;
     APerformanceHint_createSession (Some 2%positive) [100] 16666666]
  /\ thermal_manager_ (fst s) = Some 1%positive
  /\ trace (snd s')
     = trace (snd s) ++ [APerformanceHint_closeSession (Some 3%positive)]
  /\ existsb is_thermal_release (trace (snd s')) = false.
Proof. vm_compute. repeat split. Qed.

(** ** Thread-set synchronisation *)

Lemma last_synced_from (u : list Call) :
  forall acc,
    fold_left (fun acc c => match synced_tids c with Some l => Some l | None => acc end)
      u acc
    = match last_synced u with Some l => Some l | None => acc end.
Proof.
  unfold last_synced.
  induction u as [|c u IH]; intros acc; cbn; [reflexivity|].
  rewrite IH. rewrite (IH (match synced_tids c with Some l => Some l | None => None end)).
  destruct (fold_left _ u None); [reflexivity|].
  destruct (synced_tids c); reflexivity.
Qed.

Lemma last_synced_app (t u : list Call) (l : list Z) :
  last_synced u = Some l -> last_synced (t ++ u) = Some l.
Proof.
  intros H. unfold last_synced at 1. rewrite fold_left_app, last_synced_from.
  now rewrite H.
Qed.

Lemma erase_remove_absent (x : Z) (v : list Z) :
  ~ In x v -> erase_remove x v = v.
Proof.
  unfold erase_remove.
  induction v as [|y v IH]; intros H; cbn; [reflexivity|].
  destruct (Z.eqb_spec y x) as [->|Hne]; cbn.
  - exfalso. apply H. now left.
  - rewrite IH; [reflexivity|]. intros Hin. apply H. now right.
Qed.

Lemma erase_remove_gone (x : Z) (v : list Z) : ~ In x (erase_remove x v).
Proof.
  unfold erase_remove. intros H. apply filter_In in H. destruct H as [_ H].
  now rewrite Z.eqb_refl in H.
Qed.

Lemma erase_remove_appended (x : Z) (v : list Z) :
  erase_remove x (v ++ [x]) = erase_remove x v.
Proof.
  unfold erase_remove. rewrite filter_app. cbn. rewrite Z.eqb_refl. cbn.
  apply app_nil_r.
Qed.

Ltac tier B :=
  destruct (Z.leb_spec 34 (__ANDROID_API__ B));
  destruct (Z.leb_spec 33 (__ANDROID_API__ B)); try lia.

Ltac new_calls :=
  repeat rewrite <- app_assoc; cbn [app];
  eexists; split; [reflexivity | cbn; reflexivity].

(** Every tier hands the whole of [thread_ids_] to the platform, and leaves
    the list as it is. *)
Lemma RegisterThreadIdsToHintSession_syncs (B : Build) (P : Platform)
    (m : ADPFManager) (w : World) :
  let s' := exec (RegisterThreadIdsToHintSession B P) (m, w) in
  thread_ids_ (fst s') = thread_ids_ m
  /\ exists calls, trace (snd s') = trace w ++ calls
                   /\ last_synced calls = Some (thread_ids_ m).
Proof.
  cbv zeta. unfold exec, RegisterThreadIdsToHintSession.
  tier B;
    unfold bind, this, when, assign, call, call_ptr, invoke, invoke_ptr,
      env_ExceptionCheck, env_ExceptionDescribe, env_ExceptionClear, call; cbn.
  - split; [reflexivity|]. new_calls.
  - destruct (hint_session_ m); cbn; (split; [reflexivity|]); new_calls.
  - destruct (set_threads_ m); cbn.
    + match goal with |- context [if ?c then _ else _] => destruct c end; cbn;
        (split; [reflexivity|]); new_calls.
    + destruct (obj_perfhint_session_ m); cbn; (split; [reflexivity|]); new_calls.
Qed.

Lemma exec_assign_then {A} (f : ADPFManager -> ADPFManager) (k : M A)
    (m : ADPFManager) (w : World) :
  exec (assign f ;; k) (m, w) = exec k (f m, w).
Proof. reflexivity. Qed.

Lemma AddThreadIdToHintSession_syncs (B : Build) (P : Platform) (tid : Z)
    (m : ADPFManager) (w : World) :
  let s' := exec (AddThreadIdToHintSession B P tid) (m, w) in
  thread_ids_ (fst s') = thread_ids_ m ++ [tid]
  /\ exists calls, trace (snd s') = trace w ++ calls
                   /\ last_synced calls = Some (thread_ids_ m ++ [tid]).
Proof.
  cbv zeta. unfold AddThreadIdToHintSession. rewrite exec_assign_then.
  destruct (RegisterThreadIdsToHintSession_syncs B P
              (set_thread_ids_ (thread_ids_ m ++ [tid]) m) w) as (H1 & H2).
  cbn [thread_ids_ set_thread_ids_] in H1, H2. split; assumption.
Qed.

Lemma RemoveThreadIdFromHintSession_syncs (B : Build) (P : Platform) (tid : Z)
    (m : ADPFManager) (w : World) :
  let s' := exec (RemoveThreadIdFromHintSession B P tid) (m, w) in
  thread_ids_ (fst s') = erase_remove tid (thread_ids_ m)
  /\ exists calls, trace (snd s') = trace w ++ calls
                   /\ last_synced calls = Some (erase_remove tid (thread_ids_ m)).
Proof.
  cbv zeta. unfold RemoveThreadIdFromHintSession. rewrite exec_assign_then.
  destruct (RegisterThreadIdsToHintSession_syncs B P
              (set_thread_ids_ (erase_remove tid (thread_ids_ m)) m) w) as (H1 & H2).
  cbn [thread_ids_ set_thread_ids_] in H1, H2. split; assumption.
Qed.

(** The session-recreation tier: the session is closed if there is one, and
    a session is created on the manager with the whole list and
    [last_target_]; the object keeps what the platform returned. *)
Lemma RegisterThreadIdsToHintSession_recreates (B : Build) (P : Platform)
    (m : ADPFManager) (w : World) :
  __ANDROID_API__ B = 33 ->
  let s' := exec (RegisterThreadIdsToHintSession B P) (m, w) in
  trace (snd s')
  = trace w
    ++ (if is_null (hint_session_ m) then []
        else [APerformanceHint_closeSession (hint_session_ m)])
    ++ [APerformanceHint_createSession (hint_manager_ m) (thread_ids_ m)
          (last_target_ m)]
  /\ fst s' = set_hint_session_ (returns_ptr P (trace (snd s'))) m.
Proof.
  intros H. cbv zeta. unfold exec, RegisterThreadIdsToHintSession.
  tier B.
  unfold bind, this, when, assign, call, call_ptr; cbn.
  destruct (hint_session_ m); cbn; repeat rewrite <- app_assoc; cbn [app];
    split; reflexivity.
Qed.

(** C9. [RemoveThreadIdFromHintSession] erases the id and then always
    hands the whole list to the platform, also when the id was not in the
    list and the list is therefore unchanged; on the session-recreation
    tier, with a session, removing an absent id closes the session and
    creates a new one with the unchanged list. *)
Theorem RemoveThreadIdFromHintSession_always_syncs (B : Build) (P : Platform)
    (tid : Z) (m : ADPFManager) (w : World) :
  let s' := exec (RemoveThreadIdFromHintSession B P tid) (m, w) in
  thread_ids_ (fst s') = erase_remove tid (thread_ids_ m)
  /\ (exists calls, trace (snd s') = trace w ++ calls
                    /\ last_synced calls = Some (thread_ids_ (fst s')))
  /\ (~ In tid (thread_ids_ m) -> thread_ids_ (fst s') = thread_ids_ m)
  /\ (__ANDROID_API__ B = 33 -> hint_session_ m <> None ->
      ~ In tid (thread_ids_ m) ->
      trace (snd s')
      = trace w ++ [APerformanceHint_closeSession (hint_session_ m);
                    APerformanceHint_createSession (hint_manager_ m)
                      (thread_ids_ m) (last_target_ m)]
      /\ hint_session_ (fst s') = returns_ptr P (trace (snd s'))).
Proof.
  cbv zeta.
  destruct (RemoveThreadIdFromHintSession_syncs B P tid m w) as (H1 & H2).
  split; [exact H1|]. split; [rewrite H1; exact H2|].
  split; [intros Hn; rewrite H1; now apply erase_remove_absent|].
  intros H33 Hlive Hn.
  unfold RemoveThreadIdFromHintSession. rewrite exec_assign_then.
  rewrite (erase_remove_absent tid (thread_ids_ m) Hn).
  destruct (RegisterThreadIdsToHintSession_recreates B P
              (set_thread_ids_ (thread_ids_ m) m) w H33) as (T1 & T2).
  cbn [thread_ids_ hint_session_ hint_manager_ last_target_ set_thread_ids_] in T1.
  destruct (hint_session_ m) as [s|] eqn:E; [|congruence]. cbn in T1.
  split; [exact T1|]. rewrite T2. reflexivity.
Qed.

Lemma RemoveThreadIdFromHintSession_always_syncs_witness :
  let B := ndk_build 33 in
  let P := answering_platform 33 in
  let m := started_object B P 0 in
  let w := started_world B P 0 in
  let s' := exec (RemoveThreadIdFromHintSession B P 555) (m, w) in
  thread_ids_ (fst s') = thread_ids_ m
  /\ trace (snd s')
     = trace w ++ [APerformanceHint_closeSession (hint_session_ m);
                   APerformanceHint_createSession (hint_manager_ m)
                     (thread_ids_ m) (last_target_ m)]
  /\ hint_session_ (fst s') = returns_ptr P (trace (snd s')).
Proof.
  cbv zeta.
  destruct (RemoveThreadIdFromHintSession_always_syncs (ndk_build 33)
              (answering_platform 33) 555
              (started_object (ndk_build 33) (answering_platform 33) 0)
              (started_world (ndk_build 33) (answering_platform 33) 0))
    as (_ & _ & H3 & H4).
  assert (Hn : ~ In 555 (thread_ids_
                           (started_object (ndk_build 33) (answering_platform 33) 0))).
  { vm_compute. intros [H|[]]. discriminate H. }
  split; [exact (H3 Hn)|].
  apply H4; [reflexivity | vm_compute; discriminate | exact Hn].
Defined.

Example remove_absent_evaluated :
  let B := ndk_build 33 in
  let P := answering_platform 33 in
  let s' := exec (RemoveThreadIdFromHintSession B P 555) (started B P 0) in
  thread_ids_ (fst s') = [100]
  /\ skipn 3 (trace (snd s'))
     = [APerformanceHint_closeSession (Some 3%positive);
        APerformanceHint_createSession (Some 2%positive) [100] 16666666]
  /\ hint_session_ (fst s') = Some 5%positive.
Proof. vm_compute. repeat split. Qed.

(** C5 as stated fails: the singleton started on an API 34 build already
    lists the calling thread, 100; adding 100 and removing it again erases
    both entries, and the platform is left with the empty list. *)
Lemma add_remove_restores_fails :
  ~ add_remove_restores (ndk_build 34) (answering_platform 34) 100
      (started (ndk_build 34) (answering_platform 34) 0).
Proof.
  intros (synced & H1 & H2).
  vm_compute in H1. injection H1 as <-.
  destruct (H2 100) as [_ H]. apply H. vm_compute. left. reflexivity.
Qed.

(** C5, amended. [AddThreadIdToHintSession] appends the id and
    [RemoveThreadIdFromHintSession] erases every occurrence of it; each
    then hands the whole list to the platform.  For a list that does not
    contain [x], adding [x] and then removing it leaves the list, and the
    list last handed to the platform, equal to the original (same elements,
    same order).  From the empty list, add 100, add 200, remove 100 hands
    over [200]. *)
Theorem add_then_remove_restores (B : Build) (P : Platform) (x : Z)
    (m : ADPFManager) (w : World) :
  let s1 := exec (AddThreadIdToHintSession B P x) (m, w) in
  let s2 := exec (RemoveThreadIdFromHintSession B P x) s1 in
  ~ In x (thread_ids_ m) ->
  (thread_ids_ (fst s1) = thread_ids_ m ++ [x]
   /\ last_synced (trace (snd s1)) = Some (thread_ids_ m ++ [x]))
  /\ (thread_ids_ (fst s2) = erase_remove x (thread_ids_ m ++ [x])
      /\ thread_ids_ (fst s2) = thread_ids_ m
      /\ last_synced (trace (snd s2)) = Some (thread_ids_ m)
      /\ add_remove_restores B P x (m, w))
  /\ (thread_ids_ m = [] ->
      last_synced
        (trace (snd (exec (AddThreadIdToHintSession B P 100 ;;
                           AddThreadIdToHintSession B P 200 ;;
                           RemoveThreadIdFromHintSession B P 100) (m, w))))
      = Some [200]).
Proof.
  cbv zeta. intros Hn.
  destruct (AddThreadIdToHintSession_syncs B P x m w) as (A1 & c1 & A2 & A3).
  destruct (exec (AddThreadIdToHintSession B P x) (m, w)) as [m1 w1] eqn:E1.
  cbn [fst snd] in *.
  destruct (RemoveThreadIdFromHintSession_syncs B P x m1 w1) as (R1 & c2 & R2 & R3).
  rewrite A1, erase_remove_appended, (erase_remove_absent x _ Hn) in R1, R3.
  assert (S2 : last_synced
                 (trace (snd (exec (RemoveThreadIdFromHintSession B P x) (m1, w1))))
               = Some (thread_ids_ m)).
  { rewrite R2. now apply last_synced_app. }
  split; [split; [exact A1 | rewrite A2; now apply last_synced_app]|].
  split.
  - split; [rewrite R1, erase_remove_appended; symmetry;
            now apply erase_remove_absent|].
    split; [exact R1|]. split; [exact S2|].
    unfold add_remove_restores. cbv zeta. rewrite exec_bind, E1.
    exists (thread_ids_ m). split; [exact S2 | intros t; reflexivity].
  - intros Hempty. rewrite !exec_bind.
    destruct (AddThreadIdToHintSession_syncs B P 100 m w) as (B1 & _).
    destruct (exec (AddThreadIdToHintSession B P 100) (m, w)) as [ma wa].
    destruct (AddThreadIdToHintSession_syncs B P 200 ma wa) as (B2 & _).
    destruct (exec (AddThreadIdToHintSession B P 200) (ma, wa)) as [mb wb].
    destruct (RemoveThreadIdFromHintSession_syncs B P 100 mb wb) as (B3 & c3 & B4 & B5).
    cbn [fst snd] in *.
    rewrite B4. apply last_synced_app. rewrite B5, B2, B1, Hempty. reflexivity.
Qed.

Lemma add_then_remove_restores_witness :
  let B := ndk_build 34 in
  let P := answering_platform 34 in
  let m := started_object B P 0 in
  let w := started_world B P 0 in
  let s1 := exec (AddThreadIdToHintSession B P 200) (m, w) in
  let s2 := exec (RemoveThreadIdFromHintSession B P 200) s1 in
  thread_ids_ (fst s2) = thread_ids_ m
  /\ last_synced (trace (snd s2)) = Some (thread_ids_ m)
  /\ add_remove_restores B P 200 (m, w).
Proof.
  cbv zeta.
  destruct (add_then_remove_restores (ndk_build 34) (answering_platform 34) 200
              (started_object (ndk_build 34) (answering_platform 34) 0)
              (started_world (ndk_build 34) (answering_platform 34) 0))
    as (_ & (_ & H2 & H3 & H4) & _).
  - vm_compute. intros [H|[]]. discriminate H.
  - split; [exact H2|]. split; [exact H3 | exact H4].
Defined.

Example add_add_remove_evaluated :
  let B := ndk_build 30 in
  let s := exec (AddThreadIdToHintSession B (answering_platform 30) 100 ;;
                 AddThreadIdToHintSession B (answering_platform 30) 200 ;;
                 RemoveThreadIdFromHintSession B (answering_platform 30) 100)
             (started B (answering_platform 30) 0) in
  thread_ids_ (fst s) = [200] /\ last_synced (trace (snd s)) = Some [200].
Proof. vm_compute. repeat split. Qed.

(** ** Session recreation *)

(** The target handed to every recreated session is the member
    [last_target_], which no member function assigns. *)
Lemma AddThreadIdToHintSession_target (B : Build) (P : Platform) (tid : Z)
    (m : ADPFManager) (w : World) :
  __ANDROID_API__ B = 33 ->
  let s' := exec (AddThreadIdToHintSession B P tid) (m, w) in
  last (trace (snd s')) ExceptionCheck
  = APerformanceHint_createSession (hint_manager_ m) (thread_ids_ m ++ [tid])
      (last_target_ m)
  /\ last_target_ (fst s') = last_target_ m.
Proof.
  intros H. cbv zeta.
  unfold AddThreadIdToHintSession. rewrite exec_assign_then.
  destruct (RegisterThreadIdsToHintSession_recreates B P
              (set_thread_ids_ (thread_ids_ m ++ [tid]) m) w H) as (T1 & T2).
  split; [rewrite T1 | rewrite T2; reflexivity].
  rewrite app_assoc. apply last_last.
Qed.

(** C3. The target passed to [EndPerfHintSession] is not the one the
    recreated session gets.  On a build for API 33, started with a session
    on thread 100: [EndPerfHintSession target] reports and updates the
    target of the session, and the [AddThreadIdToHintSession 200] that
    follows closes that session and creates one with the thread ids
    [100; 200] and the target 16666666, whatever [target] was;
    [last_target_] is still 16666666 afterwards.  With [target] 8333333 the
    creation with the last target used does not take place. *)
Theorem recreation_ignores_last_target (target : Z) :
  let B := ndk_build 33 in
  let P := answering_platform 33 in
  let s := started B P 0 in
  let s1 := exec (EndPerfHintSession B P target) s in
  let s2 := exec (AddThreadIdToHintSession B P 200) s1 in
  hint_manager_ (fst s) = Some 2%positive
  /\ hint_session_ (fst s) = Some 3%positive
  /\ thread_ids_ (fst s) = [100]
  /\ trace (snd s1)
     = trace (snd s)
       ++ [APerformanceHint_reportActualWorkDuration (Some 3%positive) 0;
           APerformanceHint_updateTargetWorkDuration (Some 3%positive) target]
  /\ trace (snd s2)
     = trace (snd s1)
       ++ [APerformanceHint_closeSession (Some 3%positive);
           APerformanceHint_createSession (Some 2%positive) [100; 200] 16666666]
  /\ last_target_ (fst s1) = 16666666
  /\ last_target_ (fst s2) = 16666666
  /\ ~ add_recreates_with_last_target P 8333333 200 s.
Proof.
  cbv zeta. repeat split; try (vm_compute; reflexivity).
  intros H. vm_compute in H. discriminate H.
Qed.

(** ** Exceptions of the reflective [setThreads] *)

Lemma RegisterThreadIdsToHintSession_catches (B : Build) (P : Platform)
    (m : ADPFManager) (w : World) :
  __ANDROID_API__ B < 33 ->
  set_threads_ m <> None ->
  setThreads_caught P (thread_ids_ m) m w
    (exec (RegisterThreadIdsToHintSession B P) (m, w)).
Proof.
  intros H Hs. unfold setThreads_caught, exec, RegisterThreadIdsToHintSession.
  tier B.
  unfold bind, this, when, assign, call, call_ptr, invoke, invoke_ptr,
    env_ExceptionCheck, env_ExceptionDescribe, env_ExceptionClear, call,
    raise_if_thrown, set_exception_pending, record; cbn.
  destruct (set_threads_ m) as [mid|]; [|congruence]. cbn.
  repeat rewrite <- app_assoc; cbn [app].
  match goal with |- context [if ?c then _ else _] => destruct c end; cbn;
    repeat rewrite <- app_assoc; cbn [app]; repeat split.
Qed.

(** C8. On the reflective tier with a resolved [setThreads] method, both
    [AddThreadIdToHintSession] and [RemoveThreadIdFromHintSession] follow the
    [setThreads] call with [ExceptionCheck]; when the call raised, the
    exception is described and cleared on the spot; in every case no
    exception is pending when the member function returns. *)
Theorem setThreads_exception_not_propagated (B : Build) (P : Platform) (tid : Z)
    (m : ADPFManager) (w : World) :
  __ANDROID_API__ B < 33 ->
  set_threads_ m <> None ->
  setThreads_caught P (thread_ids_ m ++ [tid]) m w
    (exec (AddThreadIdToHintSession B P tid) (m, w))
  /\ setThreads_caught P (erase_remove tid (thread_ids_ m)) m w
       (exec (RemoveThreadIdFromHintSession B P tid) (m, w)).
Proof.
  intros H Hs. split.
  - unfold AddThreadIdToHintSession. rewrite exec_assign_then.
    exact (RegisterThreadIdsToHintSession_catches B P
             (set_thread_ids_ (thread_ids_ m ++ [tid]) m) w H Hs).
  - unfold RemoveThreadIdFromHintSession. rewrite exec_assign_then.
    exact (RegisterThreadIdsToHintSession_catches B P
             (set_thread_ids_ (erase_remove tid (thread_ids_ m)) m) w H Hs).
Qed.

Lemma setThreads_exception_not_propagated_witness :
  let B := ndk_build 30 in
  let P := raising_platform 30 in
  let m := started_object B P 0 in
  let w := set_exception_pending false (started_world B P 0) in
  setThreads_caught P (thread_ids_ m ++ [200]) m w
    (exec (AddThreadIdToHintSession B P 200) (m, w))
  /\ setThreads_caught P (erase_remove 200 (thread_ids_ m)) m w
       (exec (RemoveThreadIdFromHintSession B P 200) (m, w)).
Proof.
  cbv zeta.
  apply (setThreads_exception_not_propagated (ndk_build 30)
           (raising_platform 30) 200
           (started_object (ndk_build 30) (raising_platform 30) 0)
           (set_exception_pending false
              (started_world (ndk_build 30) (raising_platform 30) 0))).
  - reflexivity.
  - vm_compute. discriminate.
Defined.

Example setThreads_raising_evaluated :
  let B := ndk_build 30 in
  let P := raising_platform 30 in
  let s := set_exception_pending false (snd (started B P 0)) in
  let s' := exec (AddThreadIdToHintSession B P 200) (fst (started B P 0), s) in
  skipn (List.length (trace s)) (trace (snd s'))
  = [NewIntArray 1;
     SetIntArrayRegion (Some 37%positive) 0 1 [200];
     CallVoidMethod (obj_perfhint_session_ (fst (started B P 0)))
       (set_threads_ (fst (started B P 0))) [JIntArray (Some 37%positive) [200]];
     ExceptionCheck; ExceptionDescribe; ExceptionClear]
  /\ exception_pending (snd s') = false.
Proof. vm_compute. repeat split. Qed.

(** * Further properties of the class *)

(** ** Replacing the thermal listener *)

Lemma SetThermalStatus_each_run (levels : list Z) :
  forall (m : ADPFManager) (w : World),
    let s' := exec (SetThermalStatus_each levels) (m, w) in
    thermalListener (fst s') = thermalListener m
    /\ trace (snd s')
       = trace w ++ listener_calls (thermalListener m) (thermal_status_ m) levels.
Proof.
  induction levels as [|i rest IH]; intros m w; cbv zeta.
  - cbn. split; [reflexivity|]. destruct (thermalListener m); cbn; now rewrite app_nil_r.
  - cbn [SetThermalStatus_each]. rewrite exec_bind, SetThermalStatus_step.
    set (w1 := match thermalListener m with
               | Some f => record (thermalStateChangeListener f (thermal_status_ m) i) w
               | None => w end).
    destruct (IH (set_thermal_status_ i m) w1) as (H1 & H2).
    cbn [thermal_status_ thermalListener set_thermal_status_] in H1, H2.
    split; [exact H1|]. rewrite H2. subst w1.
    destruct (thermalListener m); cbn; [now rewrite <- app_assoc | reflexivity].
Qed.

Lemma notifications_to (g : handle) (levels : list Z) :
  forall prev f p c,
    In (thermalStateChangeListener f p c) (notifications g prev levels) -> f = g.
Proof.
  induction levels as [|i rest IH]; intros prev f p c H; cbn in H; [contradiction|].
  destruct H as [H|H]; [now inversion H | exact (IH _ _ _ _ H)].
Qed.

(** X1. [SetThermalListener] makes no call and replaces the registration: every
    listener call of the status updates that follow goes to the listener
    registered last, one per update, and none is made after a registration
    of [NULL]; whatever was registered before receives nothing. *)
Theorem SetThermalListener_replaces (new : option handle) (levels : list Z)
    (m : ADPFManager) (w : World) :
  let s1 := exec (SetThermalListener new) (m, w) in
  let s' := exec (SetThermalStatus_each levels) s1 in
  snd s1 = w
  /\ trace (snd s')
     = trace w ++ listener_calls new (GetThermalStatus m) levels
  /\ (forall f p c,
        In (thermalStateChangeListener f p c)
           (listener_calls new (GetThermalStatus m) levels) ->
        new = Some f)
  /\ (new = None -> trace (snd s') = trace w).
Proof.
  cbv zeta. unfold GetThermalStatus.
  change (exec (SetThermalListener new) (m, w)) with (set_thermalListener new m, w).
  destruct (SetThermalStatus_each_run levels (set_thermalListener new m) w)
    as (_ & H2).
  cbn [thermalListener thermal_status_ set_thermalListener] in H2.
  split; [reflexivity|]. split; [exact H2|]. split.
  - intros f p c H. destruct new as [g|]; cbn in H; [|contradiction].
    now rewrite (notifications_to g levels _ _ _ _ H).
  - intros ->. rewrite H2. cbn. apply app_nil_r.
Qed.

(** ** Monitor over arbitrary runs *)

Section MonitorRuns.

Variable B : Build.
Variable P : Platform.

Lemma Monitor_after_rate (delays : list N) :
  forall (m : ADPFManager) (w : World),
    let s' := exec (Monitor_after B P delays) (m, w) in
    let refreshed := Z.of_nat (headroom_refreshes (snd s'))
                     - Z.of_nat (headroom_refreshes w) in
    let queried := Z.of_nat (headroom_queries (trace (snd s')))
                   - Z.of_nat (headroom_queries (trace w)) in
    1000000000 * refreshed
    <= Z.max 0 (steady_clock w - last_clock_ m + window delays)
    /\ queried <= refreshed.
Proof.
  induction delays as [|d rest IH]; intros m w; cbv zeta.
  - change (exec (Monitor_after B P []) (m, w)) with (m, w).
    change (window []) with 0. cbn [fst snd]. lia.
  - rewrite window_cons. pose proof (window_nonneg rest) as Hr.
    cbn [Monitor_after]. rewrite exec_bind, exec_elapse, exec_bind.
    set (w1 := later d w).
    assert (Hc : steady_clock w1 = steady_clock w + Z.of_N d) by reflexivity.
    destruct (Z.lt_ge_cases (steady_clock w1 - last_clock_ m)
                (nanoseconds_of_seconds kThermalHeadroomUpdateThreshold)) as [Hq|Hd].
    + rewrite (exec_Monitor_not_due B P m w1 Hq).
      specialize (IH m w1). cbv zeta in IH.
      change (headroom_refreshes w1) with (headroom_refreshes w) in IH.
      change (trace w1) with (trace w) in IH. lia.
    + destruct (Monitor_due B P m w1 Hd) as (R1 & R2 & R3 & R4 & _).
      destruct (exec (Monitor B P) (m, w1)) as [m2 w2]. cbn [fst snd] in *.
      specialize (IH m2 w2). cbv zeta in IH.
      change (headroom_refreshes w1) with (headroom_refreshes w) in R1.
      change (trace w1) with (trace w) in R4.
      unfold nanoseconds_of_seconds, kThermalHeadroomUpdateThreshold in Hd. lia.
Qed.

End MonitorRuns.

(** X2. Over any run of [Monitor] calls, however long and however spaced, the
    refreshes number at most one more than the whole seconds the run spans,
    and the headroom queries sent to the platform are no more than the
    refreshes. *)
Theorem Monitor_burst_rate (B : Build) (P : Platform) (delays : list N)
    (m : ADPFManager) (w : World) :
  let s' := exec (Monitor_burst B P delays) (m, w) in
  let refreshed := Z.of_nat (headroom_refreshes (snd s'))
                   - Z.of_nat (headroom_refreshes w) in
  let queried := Z.of_nat (headroom_queries (trace (snd s')))
                 - Z.of_nat (headroom_queries (trace w)) in
  refreshed
  <= 1 + window delays / nanoseconds_of_seconds kThermalHeadroomUpdateThreshold
  /\ queried <= refreshed.
Proof.
  cbv zeta. unfold Monitor_burst. rewrite exec_bind.
  pose proof (window_nonneg delays) as Hw.
  assert (Hdiv : forall k, 1000000000 * k <= 1000000000 + window delays ->
                           k <= 1 + window delays / 1000000000).
  { intros k Hk.
    assert (k - 1 <= window delays / 1000000000); [|lia].
    apply Z.div_le_lower_bound; lia. }
  change (nanoseconds_of_seconds kThermalHeadroomUpdateThreshold) with 1000000000.
  destruct (Z.lt_ge_cases (steady_clock w - last_clock_ m) 1000000000) as [Hq|Hd].
  - rewrite (exec_Monitor_not_due B P m w Hq).
    destruct (Monitor_after_rate B P delays m w) as (H1 & H2).
    split; [apply Hdiv; lia | exact H2].
  - destruct (Monitor_due B P m w Hd) as (R1 & R2 & R3 & R4 & _).
    destruct (exec (Monitor B P) (m, w)) as [m1 w1]. cbn [fst snd] in *.
    destruct (Monitor_after_rate B P delays m1 w1) as (H1 & H2).
    split; [apply Hdiv; lia | lia].
Qed.

(** ** The headroom cache *)

Lemma Monitor_source_absent (B : Build) (P : Platform) (m : ADPFManager) (w : World) :
  headroom_source_present B P m = false ->
  let s' := exec (Monitor B P) (m, w) in
  thermal_headroom_ (fst s') = thermal_headroom_ m
  /\ app_ (fst s') = app_ m
  /\ get_thermal_headroom_ (fst s') = get_thermal_headroom_ m
  /\ trace (snd s') = trace w
  /\ exception_pending (snd s') = exception_pending w.
Proof.
  unfold headroom_source_present. intros H. cbv zeta.
  apply orb_false_iff in H. destruct H as [H1 H2].
  apply negb_false_iff in H2.
  unfold exec, Monitor, UpdateThermalStatusHeadRoom,
    bind, now, this, assign, ghost_refresh, call_float, invoke_float; cbn.
  due_or_not; cbn; [|repeat split].
  rewrite H1. cbn. rewrite H2. cbn. repeat split.
Qed.

Lemma Monitor_after_source_absent (B : Build) (P : Platform) (delays : list N) :
  forall (m : ADPFManager) (w : World),
    headroom_source_present B P m = false ->
    let s' := exec (Monitor_after B P delays) (m, w) in
    thermal_headroom_ (fst s') = thermal_headroom_ m
    /\ trace (snd s') = trace w
    /\ exception_pending (snd s') = exception_pending w.
Proof.
  induction delays as [|d rest IH]; intros m w H; cbv zeta.
  - cbn. repeat split.
  - cbn [Monitor_after]. rewrite exec_bind, exec_elapse, exec_bind.
    destruct (Monitor_source_absent B P m (later d w) H) as (A1 & A2 & A3 & A4 & A5).
    destruct (exec (Monitor B P) (m, later d w)) as [m1 w1]. cbn [fst snd] in *.
    destruct (IH m1 w1) as (I1 & I2 & I3).
    { unfold headroom_source_present in *. now rewrite A2, A3. }
    rewrite I1, I2, I3, A1, A4, A5. repeat split.
Qed.

Lemma Monitor_burst_source_absent (B : Build) (P : Platform) (delays : list N)
    (m : ADPFManager) (w : World) :
  headroom_source_present B P m = false ->
  let s' := exec (Monitor_burst B P delays) (m, w) in
  thermal_headroom_ (fst s') = thermal_headroom_ m
  /\ trace (snd s') = trace w.
Proof.
  intros H. cbv zeta. unfold Monitor_burst. rewrite exec_bind.
  destruct (Monitor_source_absent B P m w H) as (A1 & A2 & A3 & A4 & _).
  destruct (exec (Monitor B P) (m, w)) as [m1 w1]. cbn [fst snd] in *.
  destruct (Monitor_after_source_absent B P delays m1 w1) as (I1 & I2 & _).
  { unfold headroom_source_present in *. now rewrite A2, A3. }
  split; [now rewrite I1 | now rewrite I2].
Qed.

(** X4. Without a headroom source (on the JNI path: no application, or
    [getThermalHeadroom] unresolved) no run of [Monitor] calls, however
    long, queries the platform or changes the cached headroom, and
    [UpdateThermalStatusHeadRoom] itself returns [0.f] whatever the cache
    holds. *)
Theorem Monitor_without_source (B : Build) (P : Platform) (delays : list N)
    (m : ADPFManager) (w : World) :
  headroom_source_present B P m = false ->
  let s' := exec (Monitor_burst B P delays) (m, w) in
  GetThermalHeadroom (fst s') = GetThermalHeadroom m
  /\ trace (snd s') = trace w
  /\ fst (UpdateThermalStatusHeadRoom B P (m, w)) = float_zero.
Proof.
  intros H. cbv zeta. unfold GetThermalHeadroom.
  destruct (Monitor_burst_source_absent B P delays m w H) as (I1 & I2).
  split; [exact I1|]. split; [exact I2|].
  unfold headroom_source_present in H.
  apply orb_false_iff in H. destruct H as [H1 H2]. apply negb_false_iff in H2.
  unfold UpdateThermalStatusHeadRoom, bind, this, ghost_refresh; cbn.
  rewrite H1; cbn. rewrite H2. reflexivity.
Qed.

Lemma Monitor_without_source_witness :
  let B := ndk_build 30 in
  let P := answering_platform 30 in
  let m := set_thermal_headroom_ 1062836634 (ADPFManager_new None (quiet_world 0)) in
  let w := later 5000000000 (quiet_world 0) in
  let s' := exec (Monitor_burst B P [2000000000%N; 2000000000%N]) (m, w) in
  GetThermalHeadroom (fst s') = GetThermalHeadroom m
  /\ trace (snd s') = trace w
  /\ fst (UpdateThermalStatusHeadRoom B P (m, w)) = float_zero.
Proof.
  cbv zeta.
  apply (Monitor_without_source (ndk_build 30) (answering_platform 30)
           [2000000000%N; 2000000000%N]
           (set_thermal_headroom_ 1062836634 (ADPFManager_new None (quiet_world 0)))
           (later 5000000000 (quiet_world 0))).
  reflexivity.
Defined.

(** X3. A due [Monitor] call with a headroom source sends exactly one query,
    the one of the build's path, and caches what the platform answers:
    [GetThermalHeadroom] then returns that answer, and [last_clock_] is the
    clock of the call. *)
Theorem Monitor_caches_answer (B : Build) (P : Platform)
    (m : ADPFManager) (w : World) :
  nanoseconds_of_seconds kThermalHeadroomUpdateThreshold
  <= steady_clock w - last_clock_ m ->
  headroom_source_present B P m = true ->
  let s' := exec (Monitor B P) (m, w) in
  trace (snd s') = trace w ++ [headroom_query B P m]
  /\ GetThermalHeadroom (fst s') = returns_float P (trace (snd s'))
  /\ last_clock_ (fst s') = steady_clock w
  /\ fst (UpdateThermalStatusHeadRoom B P (m, w)) = GetThermalHeadroom (fst s').
Proof.
  intros Hd Hs. cbv zeta.
  unfold headroom_source_present, headroom_query, GetThermalHeadroom in *.
  unfold exec, Monitor, UpdateThermalStatusHeadRoom,
    bind, now, this, assign, ghost_refresh, call_float, invoke_float; cbn.
  due_or_not; [| threshold_lia].
  destruct ((31 <=? __ANDROID_API__ B) && (31 <=? android_get_device_api_level P));
    cbn in *.
  - repeat split.
  - apply negb_true_iff, orb_false_iff in Hs. destruct Hs as [H1 H2].
    rewrite H1; cbn. rewrite H2; cbn. repeat split.
Qed.

Lemma Monitor_caches_answer_witness :
  let B := ndk_build 30 in
  let P := answering_platform 30 in
  let m := started_object B P 0 in
  let w := later 1000000000 (started_world B P 0) in
  let s' := exec (Monitor B P) (m, w) in
  trace (snd s') = trace w ++ [headroom_query B P m]
  /\ GetThermalHeadroom (fst s') = returns_float P (trace (snd s'))
  /\ last_clock_ (fst s') = steady_clock w
  /\ fst (UpdateThermalStatusHeadRoom B P (m, w)) = GetThermalHeadroom (fst s').
Proof.
  cbv zeta.
  apply (Monitor_caches_answer (ndk_build 30) (answering_platform 30)
           (started_object (ndk_build 30) (answering_platform 30) 0)
           (later 1000000000 (started_world (ndk_build 30) (answering_platform 30) 0))).
  - vm_compute. discriminate.
  - vm_compute. reflexivity.
Defined.

(** ** Running a member function one call at a time *)

Section Stepping.

Variable P : Platform.
Context {A : Type}.

Lemma run_assoc {X Y} (f : M X) (g : X -> M Y) (k : Y -> M A) (s : ADPFManager * World) :
  bind (bind f g) k s = bind f (fun x => bind (g x) k) s.
Proof. unfold bind. destruct (f s). reflexivity. Qed.

Lemma run_ret {X} (x : X) (k : X -> M A) (s : ADPFManager * World) :
  bind (ret x) k s = k x s.
Proof. reflexivity. Qed.

Lemma run_this (k : ADPFManager -> M A) (m : ADPFManager) (w : World) :
  bind this k (m, w) = k m (m, w).
Proof. reflexivity. Qed.

Lemma run_assign (f : ADPFManager -> ADPFManager) (k : unit -> M A)
    (m : ADPFManager) (w : World) :
  bind (assign f) k (m, w) = k tt (f m, w).
Proof. reflexivity. Qed.

Lemma run_call (c : Call) (k : unit -> M A) (m : ADPFManager) (w : World) :
  bind (call c) k (m, w) = k tt (m, record c w).
Proof. reflexivity. Qed.

Lemma run_call_ptr (c : Call) (k : ptr -> M A) (m : ADPFManager) (w : World) :
  bind (call_ptr P c) k (m, w)
  = k (returns_ptr P (trace w ++ [c])) (m, record c w).
Proof. reflexivity. Qed.

Lemma run_invoke_ptr (c : Call) (k : ptr -> M A) (m : ADPFManager) (w : World) :
  bind (invoke_ptr P c) k (m, w)
  = k (returns_ptr P (trace w ++ [c])) (m, raise_if_thrown P (record c w)).
Proof. reflexivity. Qed.

Lemma run_invoke_long (c : Call) (k : Z -> M A) (m : ADPFManager) (w : World) :
  bind (invoke_long P c) k (m, w)
  = k (returns_long P (trace w ++ [c])) (m, raise_if_thrown P (record c w)).
Proof. reflexivity. Qed.

End Stepping.

Lemma trace_raise_if_thrown (P : Platform) (w : World) :
  trace (raise_if_thrown P w) = trace w.
Proof. reflexivity. Qed.

(** One step of a member function applied to a state; the platform's
    answer becomes a variable, so that terms stay small. *)
Ltac step :=
  cbv beta;
  match goal with
  | |- context [bind (bind ?f ?g) ?k (?m, ?w)] =>
      rewrite (run_assoc f g k (m, w))
  | |- context [bind (ret ?x) ?k (?m, ?w)] =>
      rewrite (run_ret x k (m, w))
  | |- context [bind this ?k (?m, ?w)] =>
      rewrite (run_this k m w)
  | |- context [bind (assign ?f) ?k (?m, ?w)] =>
      rewrite (run_assign f k m w)
  | |- context [bind (call ?c) ?k (?m, ?w)] =>
      rewrite (run_call c k m w)
  | |- context [bind (call_ptr ?P ?c) ?k (?m, ?w)] =>
      rewrite (run_call_ptr P c k m w);
      let a := fresh "a" in
      generalize (returns_ptr P (trace w ++ [c])); intro a
  | |- context [bind (invoke_ptr ?P ?c) ?k (?m, ?w)] =>
      rewrite (run_invoke_ptr P c k m w);
      let a := fresh "a" in
      generalize (returns_ptr P (trace w ++ [c])); intro a
  | |- context [bind (invoke_long ?P ?c) ?k (?m, ?w)] =>
      rewrite (run_invoke_long P c k m w);
      let a := fresh "n" in
      generalize (returns_long P (trace w ++ [c])); intro a
  end.

(** The same step for a call whose answer is needed later: the answer is
    named and its definition kept. *)
Ltac step_named :=
  cbv beta;
  match goal with
  | |- context [bind (call_ptr ?P ?c) ?k (?m, ?w)] =>
      rewrite (run_call_ptr P c k m w);
      let a := fresh "a" in
      let E := fresh "E" in
      remember (returns_ptr P (trace w ++ [c])) as a eqn:E
  | |- context [bind (invoke_ptr ?P ?c) ?k (?m, ?w)] =>
      rewrite (run_invoke_ptr P c k m w);
      let a := fresh "a" in
      let E := fresh "E" in
      remember (returns_ptr P (trace w ++ [c])) as a eqn:E
  end.

(** ** Initialisation *)

Lemma exec_SetApplication (B : Build) (P : Platform) (app : option android_app)
    (m : ADPFManager) (w : World) :
  exec (SetApplication B P app) (m, w)
  = exec (InitializePerformanceHintManager B P)
      (exec (InitializePowerManager B P) (set_app_ app m, w)).
Proof.
  unfold SetApplication. rewrite exec_assign_then, exec_bind, exec_bind.
  destruct (exec (InitializePerformanceHintManager B P) _); reflexivity.
Qed.

Ltac run_init :=
  unfold bind, this, when, assign, call, call_ptr, invoke, invoke_ptr, invoke_long,
    raise_if_thrown, set_exception_pending, record, ret; cbn.

Lemma headroom_queries_record (c : Call) (w : World) :
  is_headroom_query c = false ->
  headroom_queries (trace (record c w)) = headroom_queries (trace w).
Proof.
  intros H. change (trace (record c w)) with (trace w ++ [c]).
  rewrite headroom_queries_app. unfold headroom_queries at 2. cbn. rewrite H.
  cbn. lia.
Qed.

Ltac no_query :=
  repeat first
    [ rewrite trace_raise_if_thrown
    | rewrite headroom_queries_record by reflexivity ];
  reflexivity.

(** Initialising the performance-hint side leaves the thermal side alone
    and sends no headroom query. *)
Lemma InitializePerformanceHintManager_thermal_side (B : Build) (P : Platform)
    (m : ADPFManager) (w : World) :
  let s' := exec (InitializePerformanceHintManager B P) (m, w) in
  thermal_side (fst s') = thermal_side m
  /\ headroom_queries (trace (snd s')) = headroom_queries (trace w).
Proof.
  cbv zeta. unfold exec, InitializePerformanceHintManager.
  destruct (33 <=? __ANDROID_API__ B).
  - unfold when. step.
    destruct (is_null (hint_manager_ m)).
    + repeat step.
      match goal with |- context [if ?c then _ else _] => destruct c end.
      * repeat step. cbn [ret fst snd]. split; [reflexivity | no_query].
      * repeat step. cbn [ret fst snd]. split; [reflexivity | no_query].
    + repeat step.
      match goal with |- context [if ?c then _ else _] => destruct c end.
      * repeat step. cbn [ret fst snd]. split; [reflexivity | no_query].
      * repeat step. cbn [ret fst snd]. split; [reflexivity | no_query].
  - repeat step.
    match goal with |- context [if is_null ?a then _ else _] => destruct a end;
      cbn [is_null]; repeat step;
      (match goal with |- context [if ?c then _ else _] => destruct c end);
      cbn [ret fst snd]; (split; [reflexivity | no_query]).
Qed.

Lemma InitializePowerManager_ndk (B : Build) (P : Platform)
    (m : ADPFManager) (w : World) :
  (30 <=? __ANDROID_API__ B) && (31 <=? android_get_device_api_level P) = true ->
  exec (InitializePowerManager B P) (m, w)
  = (set_thermal_manager_ (returns_ptr P (trace w ++ [AThermal_acquireManager])) m,
     record AThermal_acquireManager w).
Proof.
  intros H. unfold exec, InitializePowerManager. rewrite H. reflexivity.
Qed.

Lemma InitializePowerManager_jni (B : Build) (P : Platform)
    (m : ADPFManager) (w : World) :
  (30 <=? __ANDROID_API__ B) && (31 <=? android_get_device_api_level P) = false ->
  let r := InitializePowerManager B P (m, w) in
  let s' := snd r in
  thermal_manager_ (fst s') = thermal_manager_ m
  /\ thermal_headroom_ (fst s') = thermal_headroom_ m
  /\ app_ (fst s') = app_ m
  /\ headroom_queries (trace (snd s')) = headroom_queries (trace w)
  /\ fst r = negb (is_null (get_thermal_headroom_ (fst s')))
  /\ exists history cls,
       get_thermal_headroom_ (fst s')
       = returns_ptr P (history ++ [GetMethodID cls "getThermalHeadroom" "(I)F"]).
Proof.
  intros H. cbv zeta. unfold InitializePowerManager. rewrite H.
  repeat (lazymatch goal with
          | |- context [bind (call_ptr _ (GetMethodID _ "getThermalHeadroom" _)) _
                          (_, _)] => fail
          | _ => step
          end).
  step_named. repeat step.
  cbn [get_thermal_headroom_ set_get_thermal_headroom_].
  match goal with E : ?x = returns_ptr _ _ |- _ => destruct x as [mid|] end;
    cbn [is_null ret fst snd negb
    thermal_manager_ thermal_headroom_ app_ get_thermal_headroom_
    set_get_thermal_headroom_ set_obj_power_service_];
    (split; [reflexivity|]); (split; [reflexivity|]); (split; [reflexivity|]);
    (split; [no_query|]); (split; [reflexivity|]);
    eexists; eexists; eassumption.
Qed.

(** X5. A build for API 30 on a device of API 31 or later acquires the NDK
    thermal manager at [SetApplication] and resolves no Java method, while
    [UpdateThermalStatusHeadRoom] is compiled to use the NDK only from API
    31: the object has no headroom source, and no run of [Monitor] calls
    ever queries the platform; [GetThermalHeadroom] stays at 0. *)
Theorem api30_build_never_refreshes (B : Build) (P : Platform)
    (app : option android_app) (t : Z) (delays : list N) :
  __ANDROID_API__ B = 30 ->
  31 <= android_get_device_api_level P ->
  let s0 := exec (SetApplication B P app) (fresh t) in
  let s' := exec (Monitor_burst B P delays) s0 in
  thermal_manager_ (fst s0) = returns_ptr P [AThermal_acquireManager]
  /\ headroom_queries (trace (snd s')) = 0%nat
  /\ GetThermalHeadroom (fst s') = float_zero.
Proof.
  intros Ha Hl. cbv zeta. unfold fresh. rewrite exec_SetApplication.
  assert (Hn : (30 <=? __ANDROID_API__ B) && (31 <=? android_get_device_api_level P)
               = true).
  { rewrite Ha. apply andb_true_iff. split; [reflexivity | now apply Z.leb_le]. }
  rewrite (InitializePowerManager_ndk B P _ _ Hn).
  set (m1 := set_thermal_manager_ _ _). set (w1 := record _ _).
  destruct (InitializePerformanceHintManager_thermal_side B P m1 w1) as (F1 & F2).
  destruct (exec (InitializePerformanceHintManager B P) (m1, w1)) as [m2 w2].
  cbn [fst snd] in *. unfold thermal_side in F1.
  injection F1 as E1 _ E3 _ E5 _ E7 _.
  assert (Habs : headroom_source_present B P m2 = false).
  { unfold headroom_source_present. rewrite Ha, E7. subst m1. cbn.
    now rewrite orb_true_r. }
  destruct (Monitor_burst_source_absent B P delays m2 w2 Habs) as (M1 & M2).
  split; [rewrite E1; reflexivity|].
  split; [rewrite M2, F2; reflexivity|].
  unfold GetThermalHeadroom. rewrite M1, E3. reflexivity.
Qed.

Lemma api30_build_never_refreshes_witness :
  let B := ndk_build 30 in
  let P := answering_platform 33 in
  let s0 := exec (SetApplication B P the_app) (fresh 0) in
  let s' := exec (Monitor_burst B P [2000000000%N; 2000000000%N]) s0 in
  thermal_manager_ (fst s0) = returns_ptr P [AThermal_acquireManager]
  /\ headroom_queries (trace (snd s')) = 0%nat
  /\ GetThermalHeadroom (fst s') = float_zero.
Proof.
  cbv zeta.
  apply (api30_build_never_refreshes (ndk_build 30) (answering_platform 33)
           the_app 0 [2000000000%N; 2000000000%N]).
  - reflexivity.
  - vm_compute. discriminate.
Defined.

(** X6. When [getThermalHeadroom] cannot be resolved on the JNI path,
    [InitializePowerManager] returns [false]; [SetApplication] goes on
    regardless, and afterwards no run of [Monitor] calls queries the
    platform: [GetThermalHeadroom] stays at 0. *)
Theorem unresolved_headroom_stays_zero (B : Build) (P : Platform)
    (app : option android_app) (t : Z) (delays : list N) :
  (30 <=? __ANDROID_API__ B) && (31 <=? android_get_device_api_level P) = false ->
  (forall history cls,
     returns_ptr P (history ++ [GetMethodID cls "getThermalHeadroom" "(I)F"]) = None) ->
  let s0 := exec (SetApplication B P app) (fresh t) in
  let s' := exec (Monitor_burst B P delays) s0 in
  fst (InitializePowerManager B P (set_app_ app (fst (fresh t)), snd (fresh t))) = false
  /\ headroom_queries (trace (snd s')) = 0%nat
  /\ GetThermalHeadroom (fst s') = float_zero.
Proof.
  intros Hj Hp. cbv zeta. unfold fresh. rewrite exec_SetApplication. cbn [fst snd].
  set (m0 := set_app_ app (ADPFManager_new None (quiet_world t))).
  destruct (InitializePowerManager_jni B P m0 (quiet_world t) Hj)
    as (J1 & J2 & J3 & J4 & J5 & history & cls & J6).
  rewrite Hp in J6.
  change (exec (InitializePowerManager B P) (m0, quiet_world t))
    with (snd (InitializePowerManager B P (m0, quiet_world t))).
  destruct (InitializePowerManager B P (m0, quiet_world t)) as [r [m1 w1]].
  cbn [fst snd] in *. rewrite J6 in J5. cbn in J5.
  destruct (InitializePerformanceHintManager_thermal_side B P m1 w1) as (F1 & F2).
  destruct (exec (InitializePerformanceHintManager B P) (m1, w1)) as [m2 w2].
  cbn [fst snd] in *. unfold thermal_side in F1.
  injection F1 as _ _ E3 _ E5 _ E7 _.
  assert (Habs : headroom_source_present B P m2 = false).
  { unfold headroom_source_present. rewrite E7, J6. cbn.
    rewrite orb_true_r. cbn. rewrite orb_false_r.
    apply andb_false_iff in Hj. apply andb_false_iff.
    destruct Hj as [Hj|Hj]; [left | now right].
    apply Z.leb_gt in Hj. apply Z.leb_gt. lia. }
  destruct (Monitor_burst_source_absent B P delays m2 w2 Habs) as (M1 & M2).
  split; [exact J5|].
  split; [rewrite M2, F2, J4; reflexivity|].
  unfold GetThermalHeadroom. rewrite M1, E3, J2. reflexivity.
Qed.

Lemma unresolved_headroom_stays_zero_witness :
  let B := ndk_build 33 in
  let P := platform_without_headroom 30 in
  let s0 := exec (SetApplication B P the_app) (fresh 0) in
  let s' := exec (Monitor_burst B P [2000000000%N; 2000000000%N]) s0 in
  fst (InitializePowerManager B P (set_app_ the_app (fst (fresh 0)), snd (fresh 0)))
  = false
  /\ headroom_queries (trace (snd s')) = 0%nat
  /\ GetThermalHeadroom (fst s') = float_zero.
Proof.
  cbv zeta.
  apply (unresolved_headroom_stays_zero (ndk_build 33) (platform_without_headroom 30)
           the_app 0 [2000000000%N; 2000000000%N]).
  - reflexivity.
  - intros history cls. cbn. rewrite last_last. reflexivity.
Defined.

Lemma InitializePowerManager_hint_side (B : Build) (P : Platform)
    (m : ADPFManager) (w : World) :
  hint_side (fst (exec (InitializePowerManager B P) (m, w))) = hint_side m.
Proof.
  unfold exec, InitializePowerManager.
  destruct ((30 <=? __ANDROID_API__ B) && (31 <=? android_get_device_api_level P)).
  - reflexivity.
  - repeat step.
    match goal with |- context [if ?c then _ else _] => destruct c end; reflexivity.
Qed.

Lemma SetApplication_thermal_manager (B : Build) (P : Platform)
    (app : option android_app) (t : Z) :
  thermal_manager_ (fst (exec (SetApplication B P app) (fresh t)))
  = if (30 <=? __ANDROID_API__ B) && (31 <=? android_get_device_api_level P)
    then returns_ptr P [AThermal_acquireManager]
    else None.
Proof.
  unfold fresh. rewrite exec_SetApplication.
  set (m0 := set_app_ app (ADPFManager_new None (quiet_world t))).
  destruct ((30 <=? __ANDROID_API__ B) && (31 <=? android_get_device_api_level P))
    eqn:E.
  - rewrite (InitializePowerManager_ndk B P _ _ E).
    set (m1 := set_thermal_manager_ _ _). set (w1 := record _ _).
    destruct (InitializePerformanceHintManager_thermal_side B P m1 w1) as (F1 & _).
    unfold thermal_side in F1. injection F1 as E1 _ _ _ _ _ _ _.
    rewrite E1. reflexivity.
  - destruct (InitializePowerManager_jni B P m0 (quiet_world t) E) as (J1 & _).
    change (exec (InitializePowerManager B P) (m0, quiet_world t))
      with (snd (InitializePowerManager B P (m0, quiet_world t))).
    destruct (InitializePowerManager B P (m0, quiet_world t)) as [r [m1 w1]].
    cbn [fst snd] in *.
    destruct (InitializePerformanceHintManager_thermal_side B P m1 w1) as (F1 & _).
    unfold thermal_side in F1. injection F1 as E1 _ _ _ _ _ _ _.
    rewrite E1, J1. reflexivity.
Qed.

(** X7. After [SetApplication], registering the NDK thermal callback makes one
    call, on the manager acquired, exactly when the build is for API 30 or
    later, the device is of API 31 or later and the platform returned a
    manager; in every other case both registration and unregistration are
    no-ops.  Unregistration always names the manager registration named. *)
Theorem thermal_callback_registration (B : Build) (P : Platform)
    (app : option android_app) (t : Z) :
  let m := fst (exec (SetApplication B P app) (fresh t)) in
  let acquired :=
    if (30 <=? __ANDROID_API__ B) && (31 <=? android_get_device_api_level P)
    then returns_ptr P [AThermal_acquireManager] else None in
  nativeRegisterThermalStatusListener B m
  = (if is_null acquired then [] else [AThermal_registerThermalStatusListener acquired])
  /\ nativeUnregisterThermalStatusListener B m
     = (if is_null acquired then []
        else [AThermal_unregisterThermalStatusListener acquired]).
Proof.
  cbv zeta.
  unfold nativeRegisterThermalStatusListener, nativeUnregisterThermalStatusListener,
    GetThermalManager.
  rewrite SetApplication_thermal_manager.
  destruct (30 <=? __ANDROID_API__ B); cbn; [|split; reflexivity].
  destruct (31 <=? android_get_device_api_level P); cbn; [|split; reflexivity].
  destruct (returns_ptr P [AThermal_acquireManager]); split; reflexivity.
Qed.

(** ** Initialising the session on the direct tier *)

(** X8. On the direct tier, from an object without manager and session:
    the manager is asked for; when the platform has none, nothing else
    happens (no session, no thread listed); otherwise the calling thread is
    appended to the thread ids and one session is created on the manager
    with that thread alone and [last_target_]. The function returns [true]
    in both cases. *)
Theorem InitializePerformanceHintManager_direct (B : Build) (P : Platform)
    (m : ADPFManager) (w : World) :
  33 <= __ANDROID_API__ B ->
  hint_manager_ m = None ->
  hint_session_ m = None ->
  let r := InitializePerformanceHintManager B P (m, w) in
  let s' := snd r in
  let manager := returns_ptr P (trace w ++ [APerformanceHint_getManager]) in
  fst r = true
  /\ hint_manager_ (fst s') = manager
  /\ trace (snd s')
     = trace w ++ APerformanceHint_getManager
                  :: (if is_null manager then []
                      else [APerformanceHint_createSession manager [gettid P]
                              (last_target_ m)])
  /\ thread_ids_ (fst s')
     = thread_ids_ m ++ (if is_null manager then [] else [gettid P])
  /\ hint_session_ (fst s')
     = (if is_null manager then None else returns_ptr P (trace (snd s'))).
Proof.
  intros Ha Hm Hs. cbv zeta. unfold InitializePerformanceHintManager.
  destruct (Z.leb_spec 33 (__ANDROID_API__ B)); [|lia].
  run_init. rewrite Hm. cbn. rewrite Hs. cbn.
  destruct (returns_ptr P (trace w ++ [APerformanceHint_getManager])); cbn.
  - rewrite <- app_assoc. repeat split.
  - rewrite app_nil_r. repeat split. exact Hs.
Qed.

Lemma InitializePerformanceHintManager_direct_witness :
  let B := ndk_build 33 in
  let P := answering_platform 33 in
  let m := ADPFManager_new None (quiet_world 0) in
  let w := quiet_world 0 in
  let r := InitializePerformanceHintManager B P (m, w) in
  let s' := snd r in
  let manager := returns_ptr P (trace w ++ [APerformanceHint_getManager]) in
  fst r = true
  /\ hint_manager_ (fst s') = manager
  /\ trace (snd s')
     = trace w ++ APerformanceHint_getManager
                  :: (if is_null manager then []
                      else [APerformanceHint_createSession manager [gettid P]
                              (last_target_ m)])
  /\ thread_ids_ (fst s')
     = thread_ids_ m ++ (if is_null manager then [] else [gettid P])
  /\ hint_session_ (fst s')
     = (if is_null manager then None else returns_ptr P (trace (snd s'))).
Proof.
  cbv zeta.
  apply (InitializePerformanceHintManager_direct (ndk_build 33)
           (answering_platform 33) (ADPFManager_new None (quiet_world 0))
           (quiet_world 0)).
  - vm_compute. discriminate.
  - reflexivity.
  - reflexivity.
Defined.

Lemma InitializePerformanceHintManager_live (B : Build) (P : Platform)
    (m : ADPFManager) (w : World) :
  33 <= __ANDROID_API__ B ->
  hint_manager_ m <> None ->
  hint_session_ m <> None ->
  InitializePerformanceHintManager B P (m, w) = (true, (m, w)).
Proof.
  intros Ha Hm Hs. unfold InitializePerformanceHintManager.
  destruct (Z.leb_spec 33 (__ANDROID_API__ B)); [|lia].
  destruct (hint_manager_ m) eqn:Em; [|congruence].
  destruct (hint_session_ m) eqn:Es; [|congruence].
  run_init. rewrite Em. cbn. rewrite Es. reflexivity.
Qed.

(** X9. On the direct tier a second [SetApplication], made while the object
    holds a manager and a session, leaves the whole performance-hint side
    as it is (no second session, the thread not listed twice) and makes
    only the calls of [InitializePowerManager]. *)
Theorem SetApplication_again_keeps_session (B : Build) (P : Platform)
    (app : option android_app) (m : ADPFManager) (w : World) :
  33 <= __ANDROID_API__ B ->
  hint_manager_ m <> None ->
  hint_session_ m <> None ->
  let s' := exec (SetApplication B P app) (m, w) in
  hint_side (fst s') = hint_side m
  /\ s' = exec (InitializePowerManager B P) (set_app_ app m, w).
Proof.
  intros Ha Hm Hs. cbv zeta. rewrite exec_SetApplication.
  pose proof (InitializePowerManager_hint_side B P (set_app_ app m) w) as Hside.
  change (hint_side (set_app_ app m)) with (hint_side m) in Hside.
  destruct (exec (InitializePowerManager B P) (set_app_ app m, w)) as [m1 w1].
  cbn [fst] in Hside.
  assert (E3 : hint_manager_ m1 = hint_manager_ m)
    by (unfold hint_side in Hside; now injection Hside).
  assert (E4 : hint_session_ m1 = hint_session_ m)
    by (unfold hint_side in Hside; now injection Hside).
  unfold exec.
  rewrite (InitializePerformanceHintManager_live B P m1 w1 Ha);
    [| now rewrite E3 | now rewrite E4].
  cbn [snd fst]. split; [exact Hside | reflexivity].
Qed.

Lemma SetApplication_again_keeps_session_witness :
  let B := ndk_build 33 in
  let P := answering_platform 33 in
  let m := started_object B P 0 in
  let w := started_world B P 0 in
  let s' := exec (SetApplication B P the_app) (m, w) in
  hint_side (fst s') = hint_side m
  /\ s' = exec (InitializePowerManager B P) (set_app_ the_app m, w).
Proof.
  cbv zeta.
  apply (SetApplication_again_keeps_session (ndk_build 33) (answering_platform 33)
           the_app (started_object (ndk_build 33) (answering_platform 33) 0)
           (started_world (ndk_build 33) (answering_platform 33) 0)).
  - vm_compute. discriminate.
  - vm_compute. discriminate.
  - vm_compute. discriminate.
Defined.

(** ** The reflective tier *)

Lemma last_synced_record (c : Call) (w : World) :
  last_synced (trace (record c w))
  = match synced_tids c with Some l => Some l | None => last_synced (trace w) end.
Proof.
  change (trace (record c w)) with (trace w ++ [c]).
  unfold last_synced. rewrite fold_left_app. reflexivity.
Qed.

Ltac latest_sync :=
  repeat first
    [ rewrite trace_raise_if_thrown
    | rewrite last_synced_record; cbn [synced_tids first_int_array] ];
  reflexivity.

Lemma InitializePerformanceHintManager_reflective (B : Build) (P : Platform)
    (m : ADPFManager) (w : World) :
  __ANDROID_API__ B < 33 ->
  let s' := exec (InitializePerformanceHintManager B P) (m, w) in
  thread_ids_ (fst s') = thread_ids_ m
  /\ last_synced (trace (snd s')) = Some [gettid P].
Proof.
  intros Ha. cbv zeta. unfold exec, InitializePerformanceHintManager.
  destruct (Z.leb_spec 33 (__ANDROID_API__ B)); [lia|].
  repeat step.
  match goal with |- context [if is_null ?a then _ else _] => destruct a end;
    cbn [is_null]; repeat step;
    (match goal with |- context [if ?c then _ else _] => destruct c end);
    cbn [ret fst snd]; (split; [reflexivity | latest_sync]).
Qed.

(** X10. On the reflective tier [SetApplication] asks for a session on the
    calling thread but does not list that thread in [thread_ids_]: the list
    stays empty, and the first [AddThreadIdToHintSession] hands the
    platform the added thread alone. *)
Theorem reflective_init_lists_no_thread (B : Build) (P : Platform)
    (app : option android_app) (t tid : Z) :
  __ANDROID_API__ B < 33 ->
  let s0 := exec (SetApplication B P app) (fresh t) in
  let s1 := exec (AddThreadIdToHintSession B P tid) s0 in
  thread_ids_ (fst s0) = []
  /\ last_synced (trace (snd s0)) = Some [gettid P]
  /\ thread_ids_ (fst s1) = [tid]
  /\ last_synced (trace (snd s1)) = Some [tid].
Proof.
  intros Ha. cbv zeta. unfold fresh. rewrite exec_SetApplication.
  set (m0 := set_app_ app (ADPFManager_new None (quiet_world t))).
  pose proof (InitializePowerManager_hint_side B P m0 (quiet_world t)) as Hs.
  destruct (exec (InitializePowerManager B P) (m0, quiet_world t)) as [m1 w1].
  cbn [fst] in Hs.
  assert (E1 : thread_ids_ m1 = [])
    by (unfold hint_side in Hs; now injection Hs).
  destruct (InitializePerformanceHintManager_reflective B P m1 w1 Ha) as (R1 & R2).
  destruct (exec (InitializePerformanceHintManager B P) (m1, w1)) as [m2 w2].
  cbn [fst snd] in *.
  destruct (AddThreadIdToHintSession_syncs B P tid m2 w2) as (A1 & calls & A2 & A3).
  rewrite R1, E1 in *. cbn [Datatypes.app] in *.
  split; [reflexivity|]. split; [exact R2|]. split; [exact A1|].
  rewrite A2. now apply last_synced_app.
Qed.

Lemma reflective_init_lists_no_thread_witness :
  let B := ndk_build 30 in
  let P := answering_platform 30 in
  let s0 := exec (SetApplication B P the_app) (fresh 0) in
  let s1 := exec (AddThreadIdToHintSession B P 200) s0 in
  thread_ids_ (fst s0) = []
  /\ last_synced (trace (snd s0)) = Some [gettid P]
  /\ thread_ids_ (fst s1) = [200]
  /\ last_synced (trace (snd s1)) = Some [200].
Proof.
  cbv zeta.
  apply (reflective_init_lists_no_thread (ndk_build 30) (answering_platform 30)
           the_app 0 200).
  reflexivity.
Defined.

Lemma Begin_End_without_session (B : Build) (P : Platform) (d : N) (target : Z)
    (m : ADPFManager) (w : World) :
  __ANDROID_API__ B < 33 ->
  obj_perfhint_session_ m = None ->
  trace (snd (exec (BeginPerfHintSession ;; elapse d ;; EndPerfHintSession B P target)
                (m, w)))
  = trace w.
Proof.
  intros Ha Hs.
  rewrite exec_bind, BeginPerfHintSession_step, exec_bind, exec_elapse.
  unfold exec. rewrite EndPerfHintSession_reflective_no_session; [reflexivity| exact Ha |].
  exact Hs.
Qed.

(** X11. On the reflective tier, when the platform refuses to create a session
    ([createHintSession] returns null), [InitializePerformanceHintManager]
    returns [false] and leaves the object without a session, and every
    [BeginPerfHintSession] / [EndPerfHintSession] pair that follows makes no
    call at all. *)
Theorem refused_session_degrades (B : Build) (P : Platform)
    (m : ADPFManager) (w : World) :
  __ANDROID_API__ B < 33 ->
  (forall history obj mid array tids target,
     returns_ptr P (history ++ [CallObjectMethod obj mid
                                  [JIntArray array tids; JLong target]]) = None) ->
  obj_perfhint_session_ m = None ->
  report_actual_work_duration_ m = None ->
  let r := InitializePerformanceHintManager B P (m, w) in
  fst r = false
  /\ obj_perfhint_session_ (fst (snd r)) = None
  /\ forall d target,
       trace (snd (exec (BeginPerfHintSession ;; elapse d ;;
                         EndPerfHintSession B P target) (snd r)))
       = trace (snd (snd r)).
Proof.
  intros Ha Hp Hs Hr. cbv zeta.
  assert (H12 : fst (InitializePerformanceHintManager B P (m, w)) = false
                /\ obj_perfhint_session_
                     (fst (snd (InitializePerformanceHintManager B P (m, w)))) = None).
  { unfold InitializePerformanceHintManager.
    destruct (Z.leb_spec 33 (__ANDROID_API__ B)); [lia|].
    repeat (lazymatch goal with
            | |- context [bind (invoke_ptr _ (CallObjectMethod _ _
                                                [JIntArray _ _; JLong _])) _ (_, _)] =>
                fail
            | _ => step
            end).
    step_named.
    match goal with E : _ = returns_ptr _ _ |- _ => rewrite Hp in E; subst end.
    cbn [is_null]. repeat step.
    cbn. rewrite Hr. cbn. split; [reflexivity | exact Hs]. }
  destruct H12 as [H1 H2]. split; [exact H1|]. split; [exact H2|].
  intros d target.
  destruct (InitializePerformanceHintManager B P (m, w)) as [r [m1 w1]].
  cbn [fst snd] in *. now apply Begin_End_without_session.
Qed.

Lemma refused_session_degrades_witness :
  let B := ndk_build 30 in
  let P := platform_refusing_sessions 30 in
  let m := ADPFManager_new None (quiet_world 0) in
  let w := quiet_world 0 in
  let r := InitializePerformanceHintManager B P (m, w) in
  fst r = false
  /\ obj_perfhint_session_ (fst (snd r)) = None
  /\ forall d target,
       trace (snd (exec (BeginPerfHintSession ;; elapse d ;;
                         EndPerfHintSession B P target) (snd r)))
       = trace (snd (snd r)).
Proof.
  cbv zeta.
  apply (refused_session_degrades (ndk_build 30) (platform_refusing_sessions 30)
           (ADPFManager_new None (quiet_world 0)) (quiet_world 0)).
  - reflexivity.
  - intros. cbn. rewrite last_last. reflexivity.
  - reflexivity.
  - reflexivity.
Defined.

(** X12. On the reflective tier without a resolved [setThreads], adding or
    removing a thread marshals the updated list, deletes the reference to
    the old session if one is held, asks [createHintSession] for a session
    with that list and 16666666, and keeps a global reference to the
    answer.  No exception check follows: when [createHintSession] raises,
    the exception is still pending when the member function returns. *)
Theorem reflective_recreation_unchecked (B : Build) (P : Platform) (op : ThreadOp)
    (m : ADPFManager) (w : World) :
  __ANDROID_API__ B < 33 ->
  set_threads_ m = None ->
  let tids := apply_thread_op (thread_ids_ m) op in
  let n := Z.of_nat (List.length tids) in
  let array := returns_ptr P (trace w ++ [NewIntArray n]) in
  let created :=
    trace w
    ++ [NewIntArray n; SetIntArrayRegion array 0 n tids]
    ++ (if is_null (obj_perfhint_session_ m) then []
        else [DeleteGlobalRef (obj_perfhint_session_ m)])
    ++ [CallObjectMethod (obj_perfhint_service_ m) (create_hint_session_ m)
          [JIntArray array tids; JLong 16666666]] in
  let s' := exec (thread_op B P op) (m, w) in
  trace (snd s') = created ++ [NewGlobalRef (returns_ptr P created)]
  /\ obj_perfhint_session_ (fst s') = returns_ptr P (trace (snd s'))
  /\ exception_pending (snd s') = exception_pending w || throws P created.
Proof.
  intros Ha Hs. cbv zeta.
  assert (Hreg : forall m0, set_threads_ m0 = None ->
    let n := Z.of_nat (List.length (thread_ids_ m0)) in
    let array := returns_ptr P (trace w ++ [NewIntArray n]) in
    let created :=
      trace w
      ++ [NewIntArray n; SetIntArrayRegion array 0 n (thread_ids_ m0)]
      ++ (if is_null (obj_perfhint_session_ m0) then []
          else [DeleteGlobalRef (obj_perfhint_session_ m0)])
      ++ [CallObjectMethod (obj_perfhint_service_ m0) (create_hint_session_ m0)
            [JIntArray array (thread_ids_ m0); JLong 16666666]] in
    let s' := exec (RegisterThreadIdsToHintSession B P) (m0, w) in
    trace (snd s') = created ++ [NewGlobalRef (returns_ptr P created)]
    /\ obj_perfhint_session_ (fst s') = returns_ptr P (trace (snd s'))
    /\ exception_pending (snd s') = exception_pending w || throws P created).
  { intros m0 H0. cbv zeta. unfold exec, RegisterThreadIdsToHintSession.
    tier B. run_init. rewrite H0. cbn.
    destruct (obj_perfhint_session_ m0); cbn;
      repeat rewrite <- app_assoc; cbn [app]; repeat split. }
  destruct op as [tid|tid]; cbn [thread_op apply_thread_op].
  - unfold AddThreadIdToHintSession. rewrite exec_assign_then.
    exact (Hreg (set_thread_ids_ (thread_ids_ m ++ [tid]) m) Hs).
  - unfold RemoveThreadIdFromHintSession. rewrite exec_assign_then.
    exact (Hreg (set_thread_ids_ (erase_remove tid (thread_ids_ m)) m) Hs).
Qed.

Lemma reflective_recreation_unchecked_witness :
  let B := ndk_build 30 in
  let P := platform_without_setThreads 30 in
  let m := started_object B P 0 in
  let w := set_exception_pending false (started_world B P 0) in
  let created :=
    trace w
    ++ [NewIntArray 1;
        SetIntArrayRegion (returns_ptr P (trace w ++ [NewIntArray 1])) 0 1 [200]]
    ++ [DeleteGlobalRef (obj_perfhint_session_ m)]
    ++ [CallObjectMethod (obj_perfhint_service_ m) (create_hint_session_ m)
          [JIntArray (returns_ptr P (trace w ++ [NewIntArray 1])) [200];
           JLong 16666666]] in
  let s' := exec (thread_op B P (AddThread 200)) (m, w) in
  trace (snd s') = created ++ [NewGlobalRef (returns_ptr P created)]
  /\ exception_pending (snd s') = true.
Proof.
  cbv zeta.
  destruct (reflective_recreation_unchecked (ndk_build 30)
              (platform_without_setThreads 30) (AddThread 200)
              (started_object (ndk_build 30) (platform_without_setThreads 30) 0)
              (set_exception_pending false
                 (started_world (ndk_build 30) (platform_without_setThreads 30) 0)))
    as (H1 & _ & H3).
  - reflexivity.
  - vm_compute. reflexivity.
  - split; [exact H1 | exact H3].
Defined.

(** ** Sequences of thread-set operations *)

Lemma synced_lists_app (t u : list Call) :
  synced_lists (t ++ u) = synced_lists t ++ synced_lists u.
Proof.
  induction t as [|c t IH]; cbn; [reflexivity|].
  destruct (synced_tids c); cbn; now rewrite IH.
Qed.

Lemma count_calls_app (p : Call -> bool) (t u : list Call) :
  count_calls p (t ++ u) = (count_calls p t + count_calls p u)%nat.
Proof. unfold count_calls. now rewrite filter_app, length_app. Qed.

Lemma count_calls_snoc (p : Call -> bool) (t : list Call) (c : Call) :
  count_calls p (t ++ [c]) = (count_calls p t + (if p c then 1 else 0))%nat.
Proof.
  rewrite count_calls_app. unfold count_calls at 2. cbn.
  destruct (p c); reflexivity.
Qed.

Ltac run_register :=
  unfold bind, this, when, assign, call, call_ptr, invoke, invoke_ptr,
    env_ExceptionCheck, env_ExceptionDescribe, env_ExceptionClear, call,
    raise_if_thrown, set_exception_pending, record, ret; cbn.

(** One synchronisation hands the list over exactly once, on every tier. *)
Lemma RegisterThreadIdsToHintSession_once (B : Build) (P : Platform)
    (m : ADPFManager) (w : World) :
  let s' := exec (RegisterThreadIdsToHintSession B P) (m, w) in
  thread_ids_ (fst s') = thread_ids_ m
  /\ thermal_side (fst s') = thermal_side m
  /\ exists calls, trace (snd s') = trace w ++ calls
                   /\ synced_lists calls = [thread_ids_ m]
                   /\ forallb (fun c => negb (is_headroom_query c)) calls = true.
Proof.
  cbv zeta. unfold exec, RegisterThreadIdsToHintSession.
  tier B; run_register.
  - split; [reflexivity|]. split; [reflexivity|].
    eexists; split; [reflexivity|]. split; reflexivity.
  - destruct (hint_session_ m); cbn; (split; [reflexivity|]); (split; [reflexivity|]);
      repeat rewrite <- app_assoc; cbn [app];
      eexists; (split; [reflexivity|]); split; reflexivity.
  - destruct (set_threads_ m); cbn.
    + match goal with |- context [if ?c then _ else _] => destruct c end; cbn;
        (split; [reflexivity|]); (split; [reflexivity|]);
        repeat rewrite <- app_assoc; cbn [app];
        eexists; (split; [reflexivity|]); split; reflexivity.
    + destruct (obj_perfhint_session_ m); cbn;
        (split; [reflexivity|]); (split; [reflexivity|]);
        repeat rewrite <- app_assoc; cbn [app];
        eexists; (split; [reflexivity|]); split; reflexivity.
Qed.

Lemma thread_op_once (B : Build) (P : Platform) (op : ThreadOp)
    (m : ADPFManager) (w : World) :
  let s' := exec (thread_op B P op) (m, w) in
  thread_ids_ (fst s') = apply_thread_op (thread_ids_ m) op
  /\ thermal_side (fst s') = thermal_side m
  /\ exists calls, trace (snd s') = trace w ++ calls
                   /\ synced_lists calls = [apply_thread_op (thread_ids_ m) op]
                   /\ forallb (fun c => negb (is_headroom_query c)) calls = true.
Proof.
  cbv zeta. destruct op as [tid|tid]; cbn [thread_op apply_thread_op].
  - unfold AddThreadIdToHintSession. rewrite exec_assign_then.
    exact (RegisterThreadIdsToHintSession_once B P
             (set_thread_ids_ (thread_ids_ m ++ [tid]) m) w).
  - unfold RemoveThreadIdFromHintSession. rewrite exec_assign_then.
    exact (RegisterThreadIdsToHintSession_once B P
             (set_thread_ids_ (erase_remove tid (thread_ids_ m)) m) w).
Qed.

(** X13. Whatever the tier and whatever the platform answers, a sequence of
    additions and removals leaves [thread_ids_] as the same operations
    leave a plain list, and hands the platform the whole list once after
    each operation, in order, and no other list. *)
Theorem thread_ops_keep_platform_in_step (B : Build) (P : Platform)
    (ops : list ThreadOp) (m : ADPFManager) (w : World) :
  let s' := exec (thread_ops B P ops) (m, w) in
  thread_ids_ (fst s') = fold_left apply_thread_op ops (thread_ids_ m)
  /\ exists calls, trace (snd s') = trace w ++ calls
                   /\ synced_lists calls = lists_after (thread_ids_ m) ops.
Proof.
  cbv zeta. revert m w. induction ops as [|op rest IH]; intros m w.
  - cbn. split; [reflexivity|]. exists []. now rewrite app_nil_r.
  - cbn [thread_ops fold_left lists_after]. rewrite exec_bind.
    destruct (thread_op_once B P op m w) as (O1 & _ & c1 & O2 & O3 & _).
    destruct (exec (thread_op B P op) (m, w)) as [m1 w1]. cbn [fst snd] in *.
    destruct (IH m1 w1) as (I1 & c2 & I2 & I3).
    rewrite O1 in I1, I3. split; [exact I1|].
    exists (c1 ++ c2). split.
    + now rewrite I2, O2, app_assoc.
    + now rewrite synced_lists_app, O3, I3.
Qed.

(** X14. From API 34 on, a sequence of additions and removals never changes the
    session: each operation makes exactly one [APerformanceHint_setThreads]
    call, on the session held at the start (null included), with the whole
    list after that operation. *)
Theorem setThreads_keeps_session (B : Build) (P : Platform)
    (ops : list ThreadOp) (m : ADPFManager) (w : World) :
  34 <= __ANDROID_API__ B ->
  let s' := exec (thread_ops B P ops) (m, w) in
  hint_session_ (fst s') = hint_session_ m
  /\ trace (snd s')
     = trace w ++ map (APerformanceHint_setThreads (hint_session_ m))
                      (lists_after (thread_ids_ m) ops).
Proof.
  intros Ha. cbv zeta. revert m w. induction ops as [|op rest IH]; intros m w.
  - cbn. split; [reflexivity | now rewrite app_nil_r].
  - cbn [thread_ops lists_after map]. rewrite exec_bind.
    assert (Hop : exec (thread_op B P op) (m, w)
                  = (set_thread_ids_ (apply_thread_op (thread_ids_ m) op) m,
                     record (APerformanceHint_setThreads (hint_session_ m)
                               (apply_thread_op (thread_ids_ m) op)) w)).
    { destruct op as [tid|tid]; cbn [thread_op apply_thread_op];
        unfold AddThreadIdToHintSession, RemoveThreadIdFromHintSession;
        rewrite exec_assign_then; unfold exec, RegisterThreadIdsToHintSession;
        (destruct (Z.leb_spec 34 (__ANDROID_API__ B)); [reflexivity | lia]). }
    rewrite Hop.
    destruct (IH (set_thread_ids_ (apply_thread_op (thread_ids_ m) op) m)
                (record (APerformanceHint_setThreads (hint_session_ m)
                           (apply_thread_op (thread_ids_ m) op)) w)) as (I1 & I2).
    cbn [hint_session_ thread_ids_ set_thread_ids_] in I1, I2.
    split; [exact I1|]. rewrite I2. cbn. now rewrite <- app_assoc.
Qed.

Lemma setThreads_keeps_session_witness :
  let B := ndk_build 34 in
  let P := answering_platform 34 in
  let m := started_object B P 0 in
  let w := started_world B P 0 in
  let ops := [AddThread 200; AddThread 300; RemoveThread 100] in
  let s' := exec (thread_ops B P ops) (m, w) in
  hint_session_ (fst s') = hint_session_ m
  /\ trace (snd s')
     = trace w ++ map (APerformanceHint_setThreads (hint_session_ m))
                      (lists_after (thread_ids_ m) ops).
Proof.
  cbv zeta.
  apply (setThreads_keeps_session (ndk_build 34) (answering_platform 34)
           [AddThread 200; AddThread 300; RemoveThread 100]
           (started_object (ndk_build 34) (answering_platform 34) 0)
           (started_world (ndk_build 34) (answering_platform 34) 0)).
  vm_compute. discriminate.
Defined.

(** X15. On the reflective tier every addition or removal creates one Java
    [int[]] and deletes no local reference: after a sequence of operations
    there are as many arrays more as operations, and as many
    [DeleteLocalRef] calls as before. *)
Theorem reflective_sync_keeps_arrays (B : Build) (P : Platform)
    (ops : list ThreadOp) (m : ADPFManager) (w : World) :
  __ANDROID_API__ B < 33 ->
  let s' := exec (thread_ops B P ops) (m, w) in
  count_calls is_NewIntArray (trace (snd s'))
  = (count_calls is_NewIntArray (trace w) + List.length ops)%nat
  /\ count_calls is_DeleteLocalRef (trace (snd s'))
     = count_calls is_DeleteLocalRef (trace w).
Proof.
  intros Ha. cbv zeta. revert m w. induction ops as [|op rest IH]; intros m w.
  - cbn. split; [lia | reflexivity].
  - cbn [thread_ops List.length]. rewrite exec_bind.
    assert (Hreg : forall m0,
      let s' := exec (RegisterThreadIdsToHintSession B P) (m0, w) in
      count_calls is_NewIntArray (trace (snd s'))
      = (count_calls is_NewIntArray (trace w) + 1)%nat
      /\ count_calls is_DeleteLocalRef (trace (snd s'))
         = count_calls is_DeleteLocalRef (trace w)).
    { intros m0. cbv zeta. unfold exec, RegisterThreadIdsToHintSession.
      tier B. run_register.
      destruct (set_threads_ m0); cbn.
      - match goal with |- context [if ?c then _ else _] => destruct c end; cbn;
          rewrite !count_calls_snoc; cbn [is_NewIntArray is_DeleteLocalRef]; split; lia.
      - destruct (obj_perfhint_session_ m0); cbn;
          rewrite !count_calls_snoc; cbn [is_NewIntArray is_DeleteLocalRef]; split; lia. }
    assert (Hop : let s' := exec (thread_op B P op) (m, w) in
      count_calls is_NewIntArray (trace (snd s'))
      = (count_calls is_NewIntArray (trace w) + 1)%nat
      /\ count_calls is_DeleteLocalRef (trace (snd s'))
         = count_calls is_DeleteLocalRef (trace w)).
    { destruct op as [tid|tid]; cbn [thread_op];
        unfold AddThreadIdToHintSession, RemoveThreadIdFromHintSession;
        rewrite exec_assign_then; apply Hreg. }
    cbv zeta in Hop. destruct Hop as [H1 H2].
    destruct (exec (thread_op B P op) (m, w)) as [m1 w1]. cbn [fst snd] in *.
    destruct (IH m1 w1) as (I1 & I2). rewrite I1, I2, H1, H2. split; lia.
Qed.

Lemma reflective_sync_keeps_arrays_witness :
  let B := ndk_build 30 in
  let P := answering_platform 30 in
  let m := started_object B P 0 in
  let w := started_world B P 0 in
  let ops := [AddThread 200; AddThread 300; RemoveThread 200] in
  let s' := exec (thread_ops B P ops) (m, w) in
  count_calls is_NewIntArray (trace (snd s'))
  = (count_calls is_NewIntArray (trace w) + List.length ops)%nat
  /\ count_calls is_DeleteLocalRef (trace (snd s'))
     = count_calls is_DeleteLocalRef (trace w).
Proof.
  cbv zeta.
  apply (reflective_sync_keeps_arrays (ndk_build 30) (answering_platform 30)
           [AddThread 200; AddThread 300; RemoveThread 200]
           (started_object (ndk_build 30) (answering_platform 30) 0)
           (started_world (ndk_build 30) (answering_platform 30) 0)).
  reflexivity.
Defined.

(** X16. [RemoveThreadIdFromHintSession] removes the id however often it was
    listed, and removes nothing else: afterwards the id is in neither the
    list nor the list handed to the platform, and every other id is listed
    exactly when it was before. *)
Theorem RemoveThreadIdFromHintSession_removes_only (B : Build) (P : Platform)
    (tid : Z) (m : ADPFManager) (w : World) :
  let s' := exec (RemoveThreadIdFromHintSession B P tid) (m, w) in
  ~ In tid (thread_ids_ (fst s'))
  /\ (forall x, x <> tid -> (In x (thread_ids_ (fst s')) <-> In x (thread_ids_ m)))
  /\ last_synced (trace (snd s')) = Some (thread_ids_ (fst s')).
Proof.
  cbv zeta.
  destruct (RemoveThreadIdFromHintSession_syncs B P tid m w) as (H1 & calls & H2 & H3).
  rewrite H1. split; [apply erase_remove_gone|]. split.
  - intros x Hx. unfold erase_remove. rewrite filter_In.
    destruct (Z.eqb_spec x tid); [contradiction|]. cbn. tauto.
  - rewrite H2. now apply last_synced_app.
Qed.

(** ** Pairing of Begin and End *)

Lemma EndPerfHintSession_reports (B : Build) (P : Platform) (target : Z)
    (m : ADPFManager) (w : World) :
  session_of B m <> None ->
  let s' := exec (EndPerfHintSession B P target) (m, w) in
  fst s' = m
  /\ steady_clock (snd s') = steady_clock w
  /\ trace (snd s')
     = trace w ++ [report_actual B m (steady_clock w - perf_start_ m);
                   update_target B m target].
Proof.
  intros Hlive. cbv zeta. unfold session_of, report_actual, update_target in *.
  destruct (Z.leb_spec 33 (__ANDROID_API__ B)) as [Hd|Hr].
  - rewrite (EndPerfHintSession_direct B P target m w Hd). cbn.
    rewrite <- app_assoc. repeat split.
  - destruct (EndPerfHintSession_reflective B P target m w Hr Hlive) as (Ht & Hm & Hc).
    repeat split; assumption.
Qed.

(** X17. [BeginPerfHintSession] overwrites the start timestamp and
    [EndPerfHintSession] does not reset it nor anything else in the object.
    So of two Begins before an End only the later one counts, and a second
    End without a Begin of its own measures from the same Begin as the
    first. *)
Theorem Begin_End_pairing (B : Build) (P : Platform) (d1 d2 : N) (t1 t2 : Z)
    (m : ADPFManager) (w : World) :
  session_of B m <> None ->
  let nested := exec (BeginPerfHintSession ;; elapse d1 ;; BeginPerfHintSession ;;
                      elapse d2 ;; EndPerfHintSession B P t1) (m, w) in
  let twice := exec (BeginPerfHintSession ;; elapse d1 ;; EndPerfHintSession B P t1 ;;
                     elapse d2 ;; EndPerfHintSession B P t2) (m, w) in
  trace (snd nested)
  = trace w ++ [report_actual B m (Z.of_N d2); update_target B m t1]
  /\ trace (snd twice)
     = trace w ++ [report_actual B m (Z.of_N d1); update_target B m t1;
                   report_actual B m (Z.of_N d1 + Z.of_N d2); update_target B m t2]
  /\ fst twice = set_perf_start_ (steady_clock w) m.
Proof.
  intros Hlive. cbv zeta.
  assert (Hl : forall c, session_of B (set_perf_start_ c m) <> None).
  { intros c. unfold session_of in *.
    destruct (33 <=? __ANDROID_API__ B); exact Hlive. }
  assert (Hr : forall c ns, report_actual B (set_perf_start_ c m) ns = report_actual B m ns)
    by (intros; unfold report_actual; destruct (33 <=? __ANDROID_API__ B); reflexivity).
  assert (Hu : forall c ns, update_target B (set_perf_start_ c m) ns = update_target B m ns)
    by (intros; unfold update_target; destruct (33 <=? __ANDROID_API__ B); reflexivity).
  split; [|split].
  - rewrite exec_bind, BeginPerfHintSession_step, exec_bind, exec_elapse,
      exec_bind, BeginPerfHintSession_step, exec_bind, exec_elapse. cbn [fst snd].
    set (m2 := set_perf_start_ _ _).
    assert (Hl2 : session_of B m2 <> None).
    { subst m2. unfold session_of in *.
      destruct (33 <=? __ANDROID_API__ B); exact Hlive. }
    destruct (EndPerfHintSession_reports B P t1 m2 (later d2 (later d1 w)) Hl2)
      as (_ & _ & E3).
    rewrite E3. subst m2. cbn [trace later steady_clock perf_start_ set_perf_start_].
    replace (steady_clock w + Z.of_N d1 + Z.of_N d2 - (steady_clock w + Z.of_N d1))
      with (Z.of_N d2) by lia.
    unfold report_actual, update_target.
    destruct (33 <=? __ANDROID_API__ B); reflexivity.
  - rewrite exec_bind, BeginPerfHintSession_step, exec_bind, exec_elapse,
      exec_bind. cbn [fst snd].
    set (m1 := set_perf_start_ (steady_clock w) m).
    destruct (EndPerfHintSession_reports B P t1 m1 (later d1 w) (Hl _))
      as (E1 & E2 & E3).
    destruct (exec (EndPerfHintSession B P t1) (m1, later d1 w)) as [ma wa].
    cbn [fst snd] in *. subst ma.
    rewrite exec_bind, exec_elapse.
    destruct (EndPerfHintSession_reports B P t2 m1 (later d2 wa) (Hl _))
      as (_ & _ & F3).
    rewrite F3. cbn [trace later steady_clock]. rewrite E3, E2.
    subst m1. rewrite !Hr, !Hu.
    cbn [trace later steady_clock perf_start_ set_perf_start_].
    rewrite <- app_assoc. cbn [app].
    replace (steady_clock w + Z.of_N d1 - steady_clock w) with (Z.of_N d1) by lia.
    replace (steady_clock w + Z.of_N d1 + Z.of_N d2 - steady_clock w)
      with (Z.of_N d1 + Z.of_N d2) by lia.
    reflexivity.
  - rewrite exec_bind, BeginPerfHintSession_step, exec_bind, exec_elapse,
      exec_bind. cbn [fst snd].
    set (m1 := set_perf_start_ (steady_clock w) m).
    destruct (EndPerfHintSession_reports B P t1 m1 (later d1 w) (Hl _))
      as (E1 & _ & _).
    destruct (exec (EndPerfHintSession B P t1) (m1, later d1 w)) as [ma wa].
    cbn [fst snd] in *. subst ma.
    rewrite exec_bind, exec_elapse.
    destruct (EndPerfHintSession_reports B P t2 m1 (later d2 wa) (Hl _))
      as (F1 & _ & _).
    exact F1.
Qed.

Lemma Begin_End_pairing_witness :
  let B := ndk_build 30 in
  let P := answering_platform 30 in
  let m := started_object B P 0 in
  let w := started_world B P 0 in
  let nested := exec (BeginPerfHintSession ;; elapse 5000000 ;; BeginPerfHintSession ;;
                      elapse 7000000 ;; EndPerfHintSession B P 8333333) (m, w) in
  let twice := exec (BeginPerfHintSession ;; elapse 5000000 ;;
                     EndPerfHintSession B P 8333333 ;;
                     elapse 7000000 ;; EndPerfHintSession B P 16666666) (m, w) in
  trace (snd nested)
  = trace w ++ [report_actual B m (Z.of_N 7000000); update_target B m 8333333]
  /\ trace (snd twice)
     = trace w ++ [report_actual B m (Z.of_N 5000000); update_target B m 8333333;
                   report_actual B m (Z.of_N 5000000 + Z.of_N 7000000);
                   update_target B m 16666666]
  /\ fst twice = set_perf_start_ (steady_clock w) m.
Proof.
  cbv zeta.
  apply (Begin_End_pairing (ndk_build 30) (answering_platform 30)
           5000000%N 7000000%N 8333333 16666666
           (started_object (ndk_build 30) (answering_platform 30) 0)
           (started_world (ndk_build 30) (answering_platform 30) 0)).
  vm_compute. discriminate.
Defined.

(** ** Sessions over the life of the object *)

Lemma session_history (P : Platform) (t : list Call) :
  forall st, fst (fold_left (session_step P) t st) = fst st ++ t.
Proof.
  induction t as [|c t IH]; intros st; cbn [fold_left].
  - now rewrite app_nil_r.
  - rewrite IH. cbn. now rewrite <- app_assoc.
Qed.

Lemma sessions_open_snoc (P : Platform) (t : list Call) (c : Call) :
  sessions_open P (t ++ [c]) = snd (session_step P (t, sessions_open P t) c).
Proof.
  unfold sessions_open. rewrite fold_left_app. cbn [fold_left].
  pose proof (session_history P t ([], [])) as H. cbn in H.
  destruct (fold_left (session_step P) t ([], [])) as [h o].
  cbn in H. subst h. reflexivity.
Qed.

Lemma sessions_open_other (P : Platform) (t : list Call) (c : Call) :
  is_session_call c = false ->
  sessions_open P (t ++ [c]) = sessions_open P t.
Proof.
  intros H. rewrite sessions_open_snoc.
  destruct c; try discriminate H; reflexivity.
Qed.

Ltac no_session :=
  repeat first
    [ rewrite trace_raise_if_thrown
    | rewrite trace_record
    | rewrite sessions_open_other by reflexivity ].

Lemma InitializePowerManager_sessions (B : Build) (P : Platform)
    (m : ADPFManager) (w : World) :
  let s' := exec (InitializePowerManager B P) (m, w) in
  sessions_open P (trace (snd s')) = sessions_open P (trace w)
  /\ app_ (fst s') = app_ m.
Proof.
  cbv zeta. unfold exec, InitializePowerManager.
  destruct ((30 <=? __ANDROID_API__ B) && (31 <=? android_get_device_api_level P)).
  - repeat step. cbn [ret fst snd]. no_session. split; reflexivity.
  - repeat step.
    match goal with |- context [if ?c then _ else _] => destruct c end;
      cbn [ret fst snd]; no_session; split; reflexivity.
Qed.

Lemma InitializePerformanceHintManager_sessions (B : Build) (P : Platform)
    (m : ADPFManager) (w : World) :
  33 <= __ANDROID_API__ B ->
  hint_manager_ m = None ->
  hint_session_ m = None ->
  sessions_open P (trace w) = [] ->
  let s' := exec (InitializePerformanceHintManager B P) (m, w) in
  sessions_open P (trace (snd s')) = held (hint_session_ (fst s')).
Proof.
  intros Ha Hm Hs Ho. cbv zeta. unfold exec, InitializePerformanceHintManager.
  destruct (Z.leb_spec 33 (__ANDROID_API__ B)); [|lia].
  run_init. rewrite Hm. cbn. rewrite Hs. cbn.
  destruct (returns_ptr P (trace w ++ [APerformanceHint_getManager])) as [mgr|] eqn:E;
    cbn.
  - rewrite sessions_open_snoc, sessions_open_other by reflexivity.
    rewrite Ho. cbn.
    destruct (returns_ptr P _); reflexivity.
  - rewrite sessions_open_other by reflexivity. rewrite Ho, Hs. reflexivity.
Qed.

(** On the direct tier every addition or removal keeps the object and the
    platform agreed on the open sessions. *)
Lemma thread_op_sessions (B : Build) (P : Platform) (op : ThreadOp)
    (m : ADPFManager) (w : World) :
  33 <= __ANDROID_API__ B ->
  sessions_open P (trace w) = held (hint_session_ m) ->
  let s' := exec (thread_op B P op) (m, w) in
  sessions_open P (trace (snd s')) = held (hint_session_ (fst s'))
  /\ app_ (fst s') = app_ m.
Proof.
  intros Ha Ho. cbv zeta.
  assert (Hreg : forall m0, hint_session_ m0 = hint_session_ m ->
    let s' := exec (RegisterThreadIdsToHintSession B P) (m0, w) in
    sessions_open P (trace (snd s')) = held (hint_session_ (fst s'))
    /\ app_ (fst s') = app_ m0).
  { intros m0 H0. cbv zeta. unfold exec, RegisterThreadIdsToHintSession.
    destruct (Z.leb_spec 34 (__ANDROID_API__ B));
      [| destruct (Z.leb_spec 33 (__ANDROID_API__ B)); [|lia]]; run_register.
    - rewrite sessions_open_other by reflexivity. now rewrite Ho, H0.
    - rewrite H0. destruct (hint_session_ m) as [s|]; cbn.
      + rewrite sessions_open_snoc, sessions_open_snoc, Ho. cbn.
        rewrite Pos.eqb_refl.
        destruct (returns_ptr P _); split; reflexivity.
      + rewrite sessions_open_snoc, Ho. cbn.
        destruct (returns_ptr P _); split; reflexivity. }
  destruct op as [tid|tid]; cbn [thread_op].
  - unfold AddThreadIdToHintSession. rewrite exec_assign_then.
    exact (Hreg (set_thread_ids_ (thread_ids_ m ++ [tid]) m) eq_refl).
  - unfold RemoveThreadIdFromHintSession. rewrite exec_assign_then.
    exact (Hreg (set_thread_ids_ (erase_remove tid (thread_ids_ m)) m) eq_refl).
Qed.

Lemma thread_ops_sessions (B : Build) (P : Platform) (ops : list ThreadOp) :
  forall (m : ADPFManager) (w : World),
    33 <= __ANDROID_API__ B ->
    sessions_open P (trace w) = held (hint_session_ m) ->
    let s' := exec (thread_ops B P ops) (m, w) in
    sessions_open P (trace (snd s')) = held (hint_session_ (fst s'))
    /\ app_ (fst s') = app_ m.
Proof.
  induction ops as [|op rest IH]; intros m w Ha Ho; cbv zeta.
  - cbn. split; [exact Ho | reflexivity].
  - cbn [thread_ops]. rewrite exec_bind.
    destruct (thread_op_sessions B P op m w Ha Ho) as (H1 & H2).
    destruct (exec (thread_op B P op) (m, w)) as [m1 w1]. cbn [fst snd] in *.
    destruct (IH m1 w1 Ha H1) as (I1 & I2).
    split; [exact I1 | now rewrite I2].
Qed.

Lemma ADPFManager_delete_sessions (B : Build) (P : Platform)
    (m : ADPFManager) (w : World) :
  33 <= __ANDROID_API__ B ->
  app_ m <> None ->
  sessions_open P (trace w) = held (hint_session_ m) ->
  sessions_open P (trace (snd (exec (ADPFManager_delete B) (m, w)))) = [].
Proof.
  intros Ha Happ Ho. unfold exec, ADPFManager_delete.
  destruct (Z.leb_spec 33 (__ANDROID_API__ B)); [|lia].
  unfold bind, this, when, call, record, ret; cbn.
  destruct (app_ m); [|congruence]. cbn.
  destruct (obj_power_service_ m); cbn;
    destruct (30 <=? __ANDROID_API B); cbn;
    destruct (thermal_manager_ m); cbn;
    destruct (hint_session_ m); cbn;
    repeat first
      [ rewrite sessions_open_other by reflexivity
      | rewrite sessions_open_snoc ];
    rewrite ?Ho; cbn; rewrite ?Pos.eqb_refl; reflexivity.
Qed.

(** X18. On the direct tier, over the whole life of the object (construction,
    [SetApplication] with an application, any additions and removals of
    threads, destruction) the sessions open on the platform are at every
    stage exactly the one the object holds, and at the end every session
    the platform created has been closed: none is left open. *)
Theorem lifecycle_closes_every_session (B : Build) (P : Platform)
    (app : option android_app) (t : Z) (ops : list ThreadOp) :
  33 <= __ANDROID_API__ B ->
  app <> None ->
  let s1 := exec (SetApplication B P app) (fresh t) in
  let s2 := exec (thread_ops B P ops) s1 in
  let s3 := exec (ADPFManager_delete B) s2 in
  sessions_open P (trace (snd s1)) = held (hint_session_ (fst s1))
  /\ sessions_open P (trace (snd s2)) = held (hint_session_ (fst s2))
  /\ sessions_open P (trace (snd s3)) = [].
Proof.
  intros Ha Happ. cbv zeta. unfold fresh. rewrite exec_SetApplication.
  set (m0 := set_app_ app (ADPFManager_new None (quiet_world t))).
  destruct (InitializePowerManager_sessions B P m0 (quiet_world t)) as (P1 & P2).
  pose proof (InitializePowerManager_hint_side B P m0 (quiet_world t)) as Hside.
  destruct (exec (InitializePowerManager B P) (m0, quiet_world t)) as [m1 w1].
  cbn [fst snd] in *.
  assert (E3 : hint_manager_ m1 = None)
    by (unfold hint_side in Hside; now injection Hside).
  assert (E4 : hint_session_ m1 = None)
    by (unfold hint_side in Hside; now injection Hside).
  pose proof (InitializePerformanceHintManager_sessions B P m1 w1 Ha E3 E4 P1) as I1.
  destruct (InitializePerformanceHintManager_thermal_side B P m1 w1) as (T1 & _).
  cbv zeta in I1.
  destruct (exec (InitializePerformanceHintManager B P) (m1, w1)) as [m2 w2].
  cbn [fst snd] in *.
  assert (A2 : app_ m2 = app)
    by (unfold thermal_side in T1; injection T1 as _ _ _ _ E _ _ _;
        now rewrite E, P2).
  destruct (thread_ops_sessions B P ops m2 w2 Ha I1) as (O1 & O2).
  destruct (exec (thread_ops B P ops) (m2, w2)) as [m3 w3]. cbn [fst snd] in *.
  split; [exact I1|]. split; [exact O1|].
  apply ADPFManager_delete_sessions; [exact Ha | | exact O1].
  now rewrite O2, A2.
Qed.

Lemma lifecycle_closes_every_session_witness :
  let B := ndk_build 33 in
  let P := answering_platform 33 in
  let ops := [AddThread 200; AddThread 300; RemoveThread 200] in
  let s1 := exec (SetApplication B P the_app) (fresh 0) in
  let s2 := exec (thread_ops B P ops) s1 in
  let s3 := exec (ADPFManager_delete B) s2 in
  sessions_open P (trace (snd s1)) = held (hint_session_ (fst s1))
  /\ sessions_open P (trace (snd s2)) = held (hint_session_ (fst s2))
  /\ sessions_open P (trace (snd s3)) = [].
Proof.
  cbv zeta.
  apply (lifecycle_closes_every_session (ndk_build 33) (answering_platform 33)
           the_app 0 [AddThread 200; AddThread 300; RemoveThread 200]).
  - vm_compute. discriminate.
  - discriminate.
Defined.

Example lifecycle_evaluated :
  let B := ndk_build 33 in
  let P := answering_platform 33 in
  let s2 := exec (thread_ops B P [AddThread 200; RemoveThread 200])
              (exec (SetApplication B P the_app) (fresh 0)) in
  sessions_open P (trace (snd s2)) = [7%positive]
  /\ hint_session_ (fst s2) = Some 7%positive
  /\ skipn 3 (trace (snd s2))
     = [APerformanceHint_closeSession (Some 3%positive);
        APerformanceHint_createSession (Some 2%positive) [100; 200] 16666666;
        APerformanceHint_closeSession (Some 5%positive);
        APerformanceHint_createSession (Some 2%positive) [100] 16666666].
Proof. vm_compute. repeat split. Qed.

(** ** Destruction *)

(** X19. The destructor skips what is missing: it never releases, closes or
    deletes a null handle, it does nothing at all without an application,
    and it leaves the members as they are. *)
Theorem ADPFManager_delete_skips_missing (B : Build) (m : ADPFManager) (w : World) :
  let s' := exec (ADPFManager_delete B) (m, w) in
  fst s' = m
  /\ exists calls,
       trace (snd s') = trace w ++ calls
       /\ forallb (fun c => negb (releases_null c)) calls = true
       /\ (app_ m = None -> calls = []).
Proof.
  cbv zeta. unfold exec, ADPFManager_delete, bind, this, when, call, record, ret; cbn.
  destruct (app_ m); cbn;
    [| split; [reflexivity|]; exists []; rewrite app_nil_r; repeat split].
  destruct (obj_power_service_ m); cbn;
    destruct (30 <=? __ANDROID_API B); cbn;
    destruct (thermal_manager_ m); cbn;
    destruct (33 <=? __ANDROID_API__ B); cbn;
    destruct (hint_session_ m); cbn;
    destruct (obj_perfhint_service_ m); cbn;
    destruct (obj_perfhint_session_ m); cbn;
    (split; [reflexivity|]);
    repeat rewrite <- app_assoc; cbn [Datatypes.app];
    first
      [ exists []; rewrite app_nil_r;
        split; [reflexivity|]; split; [reflexivity | intros H; discriminate H]
      | eexists; split; [reflexivity|];
        split; [reflexivity | intros H; discriminate H] ].
Qed.

(** ** The two sides do not interfere *)

Lemma Monitor_hint_side (B : Build) (P : Platform) (m : ADPFManager) (w : World) :
  hint_side (fst (exec (Monitor B P) (m, w))) = hint_side m.
Proof.
  unfold exec, Monitor, UpdateThermalStatusHeadRoom,
    bind, now, this, assign, ghost_refresh, call_float, invoke_float; cbn.
  due_or_not; cbn; [|reflexivity].
  destruct ((31 <=? __ANDROID_API__ B) && (31 <=? android_get_device_api_level P));
    cbn; [reflexivity|].
  destruct (app_ m); cbn; [|reflexivity].
  destruct (get_thermal_headroom_ m); reflexivity.
Qed.

Lemma Monitor_after_hint_side (B : Build) (P : Platform) (delays : list N) :
  forall (m : ADPFManager) (w : World),
    hint_side (fst (exec (Monitor_after B P delays) (m, w))) = hint_side m.
Proof.
  induction delays as [|d rest IH]; intros m w; [reflexivity|].
  cbn [Monitor_after]. rewrite exec_bind, exec_elapse, exec_bind.
  pose proof (Monitor_hint_side B P m (later d w)) as H.
  destruct (exec (Monitor B P) (m, later d w)) as [m1 w1]. cbn [fst] in H.
  now rewrite IH.
Qed.

Lemma SetThermalStatus_each_hint_side (levels : list Z) :
  forall (m : ADPFManager) (w : World),
    hint_side (fst (exec (SetThermalStatus_each levels) (m, w))) = hint_side m.
Proof.
  induction levels as [|i rest IH]; intros m w; [reflexivity|].
  cbn [SetThermalStatus_each]. rewrite exec_bind, SetThermalStatus_step.
  now rewrite IH.
Qed.

Lemma thread_ops_thermal_side (B : Build) (P : Platform) (ops : list ThreadOp) :
  forall (m : ADPFManager) (w : World),
    let s' := exec (thread_ops B P ops) (m, w) in
    thermal_side (fst s') = thermal_side m
    /\ headroom_queries (trace (snd s')) = headroom_queries (trace w)
    /\ headroom_refreshes (snd s') = headroom_refreshes w.
Proof.
  induction ops as [|op rest IH]; intros m w; cbv zeta; [repeat split|].
  cbn [thread_ops]. rewrite exec_bind.
  destruct (thread_op_once B P op m w) as (_ & T1 & calls & T2 & _ & T3).
  assert (T4 : headroom_refreshes (snd (exec (thread_op B P op) (m, w)))
               = headroom_refreshes w).
  { destruct op as [tid|tid]; cbn [thread_op];
      unfold AddThreadIdToHintSession, RemoveThreadIdFromHintSession;
      rewrite exec_assign_then; unfold exec, RegisterThreadIdsToHintSession;
      tier B; run_register.
    - reflexivity.
    - destruct (hint_session_ m); reflexivity.
    - destruct (set_threads_ m); cbn;
        [match goal with |- context [if ?c then _ else _] => destruct c end
        | destruct (obj_perfhint_session_ m)]; reflexivity.
    - reflexivity.
    - destruct (hint_session_ m); reflexivity.
    - destruct (set_threads_ m); cbn;
        [match goal with |- context [if ?c then _ else _] => destruct c end
        | destruct (obj_perfhint_session_ m)]; reflexivity. }
  destruct (exec (thread_op B P op) (m, w)) as [m1 w1]. cbn [fst snd] in *.
  destruct (IH m1 w1) as (I1 & I2 & I3).
  split; [now rewrite I1|]. split; [|now rewrite I3].
  rewrite I2, T2, headroom_queries_app.
  assert (Hz : headroom_queries calls = 0%nat).
  { clear - T3. unfold headroom_queries.
    induction calls as [|c calls IHc]; [reflexivity|].
    cbn in T3 |- *. apply andb_true_iff in T3. destruct T3 as [Hc Hr].
    apply negb_true_iff in Hc. rewrite Hc. now apply IHc. }
  rewrite Hz. lia.
Qed.

(** X20. The thermal side and the performance-hint side never interfere.  No
    sequence of thread additions and removals changes a thermal member,
    queries the headroom or counts as a refresh; no run of [Monitor] calls
    and no sequence of status updates changes a performance-hint member;
    and [EndPerfHintSession] changes no member at all. *)
Theorem sides_do_not_interfere (B : Build) (P : Platform) (ops : list ThreadOp)
    (delays : list N) (levels : list Z) (target : Z) (m : ADPFManager) (w : World) :
  let after_ops := exec (thread_ops B P ops) (m, w) in
  thermal_side (fst after_ops) = thermal_side m
  /\ headroom_queries (trace (snd after_ops)) = headroom_queries (trace w)
  /\ hint_side (fst (exec (Monitor_burst B P delays) (m, w))) = hint_side m
  /\ hint_side (fst (exec (SetThermalStatus_each levels) (m, w))) = hint_side m
  /\ fst (exec (EndPerfHintSession B P target) (m, w)) = m.
Proof.
  cbv zeta.
  destruct (thread_ops_thermal_side B P ops m w) as (H1 & H2 & _).
  split; [exact H1|]. split; [exact H2|]. split; [|split].
  - unfold Monitor_burst. rewrite exec_bind.
    pose proof (Monitor_hint_side B P m w) as H.
    destruct (exec (Monitor B P) (m, w)) as [m1 w1]. cbn [fst] in H.
    now rewrite Monitor_after_hint_side.
  - apply SetThermalStatus_each_hint_side.
  - destruct (Z.leb_spec 33 (__ANDROID_API__ B)) as [Hd|Hr].
    + now rewrite EndPerfHintSession_direct.
    + destruct (obj_perfhint_session_ m) as [s|] eqn:E.
      * destruct (EndPerfHintSession_reflective B P target m w Hr) as (_ & H & _);
          [congruence | exact H].
      * unfold exec. now rewrite EndPerfHintSession_reflective_no_session.
Qed.

(** ** Global references over the life of the object *)

Lemma global_ref_history (P : Platform) (t : list Call) :
  forall st, fst (fold_left (global_ref_step P) t st) = fst st ++ t.
Proof.
  induction t as [|c t IH]; intros st; cbn [fold_left].
  - now rewrite app_nil_r.
  - rewrite IH. cbn. now rewrite <- app_assoc.
Qed.

Lemma global_refs_open_snoc (P : Platform) (t : list Call) (c : Call) :
  global_refs_open P (t ++ [c])
  = snd (global_ref_step P (t, global_refs_open P t) c).
Proof.
  unfold global_refs_open. rewrite fold_left_app. cbn [fold_left].
  pose proof (global_ref_history P t ([], [])) as H. cbn in H.
  destruct (fold_left (global_ref_step P) t ([], [])) as [h o].
  cbn in H. subst h. reflexivity.
Qed.

Lemma global_refs_open_other (P : Platform) (t : list Call) (c : Call) :
  is_global_ref_call c = false ->
  global_refs_open P (t ++ [c]) = global_refs_open P t.
Proof.
  intros H. rewrite global_refs_open_snoc.
  destruct c; try discriminate H; reflexivity.
Qed.

Lemma global_refs_open_new (P : Platform) (t : list Call) (obj g : ptr) :
  g = returns_ptr P (t ++ [NewGlobalRef obj]) ->
  global_refs_open P (t ++ [NewGlobalRef obj]) = held g ++ global_refs_open P t.
Proof.
  intros E. rewrite global_refs_open_snoc. cbn. rewrite <- E.
  destruct g; reflexivity.
Qed.

(** A step that keeps the definition of what [NewGlobalRef] returns. *)
Ltac step_refs :=
  first
    [ lazymatch goal with
      | |- context [bind (call_ptr _ (NewGlobalRef _)) _ (_, _)] => step_named
      end
    | step ].

Ltac count_refs :=
  repeat first
    [ rewrite trace_raise_if_thrown
    | rewrite trace_record
    | rewrite global_refs_open_other by reflexivity
    | erewrite global_refs_open_new by eassumption ].

Lemma InitializePowerManager_refs (B : Build) (P : Platform)
    (m : ADPFManager) (w : World) :
  obj_power_service_ m = None ->
  let s' := exec (InitializePowerManager B P) (m, w) in
  global_refs_open P (trace (snd s'))
  = held (obj_power_service_ (fst s')) ++ global_refs_open P (trace w).
Proof.
  intros Hp. cbv zeta. unfold exec, InitializePowerManager.
  destruct ((30 <=? __ANDROID_API__ B) && (31 <=? android_get_device_api_level P)).
  - repeat step. cbn [ret fst snd obj_power_service_ set_thermal_manager_].
    rewrite Hp. count_refs. reflexivity.
  - repeat step_refs.
    match goal with |- context [if ?c then _ else _] => destruct c end;
      cbn [ret fst snd obj_power_service_ set_get_thermal_headroom_
           set_obj_power_service_];
      repeat match goal with
             | E : _ = returns_ptr _ _ |- _ =>
                 rewrite ?trace_raise_if_thrown, ?trace_record in E
             end;
      count_refs; reflexivity.
Qed.

Lemma InitializePerformanceHintManager_refs (B : Build) (P : Platform)
    (m : ADPFManager) (w : World) :
  obj_perfhint_service_ m = None ->
  obj_perfhint_session_ m = None ->
  let s' := exec (InitializePerformanceHintManager B P) (m, w) in
  global_refs_open P (trace (snd s'))
  = held (obj_perfhint_session_ (fst s')) ++ held (obj_perfhint_service_ (fst s'))
    ++ global_refs_open P (trace w)
  /\ (33 <= __ANDROID_API__ B ->
      obj_perfhint_service_ (fst s') = None /\ obj_perfhint_session_ (fst s') = None).
Proof.
  intros Hv Hs. cbv zeta. unfold exec, InitializePerformanceHintManager.
  destruct (Z.leb_spec 33 (__ANDROID_API__ B)).
  - unfold when. step.
    destruct (is_null (hint_manager_ m)); repeat step;
      (match goal with |- context [if ?c then _ else _] => destruct c end);
      repeat step; cbn [ret fst snd]; cbn; rewrite Hv, Hs; count_refs;
      (split; [reflexivity | intros _; split; reflexivity]).
  - repeat step_refs.
    match goal with |- context [if is_null ?a then _ else _] => destruct a end;
      cbn [is_null]; repeat step_refs;
      (match goal with |- context [if ?c then _ else _] => destruct c end);
      cbn [ret fst snd]; cbn;
      repeat match goal with
             | E : _ = returns_ptr _ _ |- _ =>
                 rewrite ?trace_raise_if_thrown, ?trace_record in E
             end;
      rewrite ?Hs; count_refs;
      (split; [rewrite <- ?app_assoc; reflexivity | intros; lia]).
Qed.

(** Additions and removals keep the object and the platform agreed on the
    global reference to the session. *)
Lemma thread_op_refs (B : Build) (P : Platform) (op : ThreadOp)
    (m : ADPFManager) (w : World) (rest : list handle) :
  global_refs_open P (trace w) = held (obj_perfhint_session_ m) ++ rest ->
  let s' := exec (thread_op B P op) (m, w) in
  global_refs_open P (trace (snd s')) = held (obj_perfhint_session_ (fst s')) ++ rest
  /\ obj_perfhint_service_ (fst s') = obj_perfhint_service_ m
  /\ (33 <= __ANDROID_API__ B ->
      obj_perfhint_session_ (fst s') = obj_perfhint_session_ m).
Proof.
  intros Ho. cbv zeta.
  assert (Hreg : forall m0,
    obj_perfhint_session_ m0 = obj_perfhint_session_ m ->
    let s' := exec (RegisterThreadIdsToHintSession B P) (m0, w) in
    global_refs_open P (trace (snd s'))
    = held (obj_perfhint_session_ (fst s')) ++ rest
    /\ obj_perfhint_service_ (fst s') = obj_perfhint_service_ m0
    /\ (33 <= __ANDROID_API__ B ->
        obj_perfhint_session_ (fst s') = obj_perfhint_session_ m0)).
  { intros m0 H0. cbv zeta. unfold exec, RegisterThreadIdsToHintSession.
    tier B; run_register.
    - rewrite global_refs_open_other by reflexivity.
      rewrite Ho, H0. repeat split.
    - destruct (hint_session_ m0); cbn;
        repeat rewrite global_refs_open_other by reflexivity;
        rewrite Ho, H0; repeat split.
    - destruct (set_threads_ m0); cbn.
      + match goal with |- context [if ?c then _ else _] => destruct c end; cbn;
          repeat rewrite global_refs_open_other by reflexivity;
          rewrite Ho, H0; (split; [reflexivity|]); (split; [reflexivity|]);
          intros; lia.
      + rewrite H0. destruct (obj_perfhint_session_ m) as [s|]; cbn.
        * erewrite global_refs_open_new by reflexivity.
          rewrite global_refs_open_other by reflexivity.
          rewrite global_refs_open_snoc.
          repeat rewrite global_refs_open_other by reflexivity.
          rewrite Ho. cbn. rewrite Pos.eqb_refl.
          split; [reflexivity|]. split; [reflexivity|]. intros; lia.
        * erewrite global_refs_open_new by reflexivity.
          repeat rewrite global_refs_open_other by reflexivity.
          rewrite Ho. cbn.
          split; [reflexivity|]. split; [reflexivity|]. intros; lia. }
  destruct op as [tid|tid]; cbn [thread_op].
  - unfold AddThreadIdToHintSession. rewrite exec_assign_then.
    exact (Hreg (set_thread_ids_ (thread_ids_ m ++ [tid]) m) eq_refl).
  - unfold RemoveThreadIdFromHintSession. rewrite exec_assign_then.
    exact (Hreg (set_thread_ids_ (erase_remove tid (thread_ids_ m)) m) eq_refl).
Qed.

Lemma thread_ops_refs (B : Build) (P : Platform) (ops : list ThreadOp)
    (rest : list handle) :
  forall (m : ADPFManager) (w : World),
    global_refs_open P (trace w) = held (obj_perfhint_session_ m) ++ rest ->
    let s' := exec (thread_ops B P ops) (m, w) in
    global_refs_open P (trace (snd s'))
    = held (obj_perfhint_session_ (fst s')) ++ rest
    /\ obj_perfhint_service_ (fst s') = obj_perfhint_service_ m
    /\ (33 <= __ANDROID_API__ B ->
        obj_perfhint_session_ (fst s') = obj_perfhint_session_ m).
Proof.
  induction ops as [|op tail IH]; intros m w Ho; cbv zeta.
  - cbn. repeat split. exact Ho.
  - cbn [thread_ops]. rewrite exec_bind.
    destruct (thread_op_refs B P op m w rest Ho) as (H1 & H2 & H3).
    destruct (exec (thread_op B P op) (m, w)) as [m1 w1]. cbn [fst snd] in *.
    destruct (IH m1 w1 H1) as (I1 & I2 & I3).
    split; [exact I1|]. split; [now rewrite I2|].
    intros Ha. now rewrite I3, H3.
Qed.

Ltac same_or_not :=
  repeat (cbn [remove_one];
          match goal with
          | |- context [Pos.eqb ?x ?y] => destruct (Pos.eqb_spec x y); subst
          end);
  try reflexivity; try congruence.

Lemma ADPFManager_delete_refs (B : Build) (P : Platform)
    (m : ADPFManager) (w : World) :
  app_ m <> None ->
  global_refs_open P (trace w) = refs_held m ->
  (33 <= __ANDROID_API__ B ->
   obj_perfhint_service_ m = None /\ obj_perfhint_session_ m = None) ->
  global_refs_open P (trace (snd (exec (ADPFManager_delete B) (m, w)))) = [].
Proof.
  intros Happ Ho Hd. unfold refs_held in Ho.
  unfold exec, ADPFManager_delete.
  unfold bind, this, when, call, record, ret; cbn.
  destruct (app_ m); [|congruence]. cbn.
  destruct (Z.leb_spec 33 (__ANDROID_API__ B)) as [Ha|Ha].
  - destruct (Hd Ha) as [Hv Hs]. rewrite Hv, Hs in Ho. cbn in Ho.
    destruct (obj_power_service_ m); cbn;
      destruct (30 <=? __ANDROID_API B); cbn;
      destruct (thermal_manager_ m); cbn;
      destruct (hint_session_ m); cbn;
      repeat first
        [ rewrite global_refs_open_other by reflexivity
        | rewrite global_refs_open_snoc ];
      rewrite ?Ho; cbn; rewrite ?Pos.eqb_refl; reflexivity.
  - destruct (obj_power_service_ m); cbn;
      destruct (30 <=? __ANDROID_API B); cbn;
      destruct (thermal_manager_ m); cbn;
      destruct (obj_perfhint_service_ m); cbn;
      destruct (obj_perfhint_session_ m); cbn;
      repeat first
        [ rewrite global_refs_open_other by reflexivity
        | rewrite global_refs_open_snoc; cbn [global_ref_step fst snd] ];
      rewrite ?Ho; cbn [held Datatypes.app]; same_or_not.
Qed.

(** X21. Over the whole life of the object, on every tier and whatever the
    platform answers (construction, [SetApplication] with an application,
    any additions and removals of threads, destruction), the JNI global
    references in existence are, until destruction, exactly those the
    object holds, and destruction deletes every one of them. *)
Theorem lifecycle_deletes_every_global_ref (B : Build) (P : Platform)
    (app : option android_app) (t : Z) (ops : list ThreadOp) :
  app <> None ->
  let s1 := exec (SetApplication B P app) (fresh t) in
  let s2 := exec (thread_ops B P ops) s1 in
  let s3 := exec (ADPFManager_delete B) s2 in
  global_refs_open P (trace (snd s2)) = refs_held (fst s2)
  /\ global_refs_open P (trace (snd s3)) = [].
Proof.
  intros Happ. cbv zeta. unfold fresh. rewrite exec_SetApplication.
  set (m0 := set_app_ app (ADPFManager_new None (quiet_world t))).
  pose proof (InitializePowerManager_refs B P m0 (quiet_world t) eq_refl) as R1.
  destruct (InitializePowerManager_sessions B P m0 (quiet_world t)) as (_ & A1).
  pose proof (InitializePowerManager_hint_side B P m0 (quiet_world t)) as Hside.
  cbv zeta in R1.
  destruct (exec (InitializePowerManager B P) (m0, quiet_world t)) as [m1 w1].
  cbn [fst snd] in *.
  change (global_refs_open P (trace (quiet_world t))) with (@nil handle) in R1.
  rewrite app_nil_r in R1.
  assert (V1 : obj_perfhint_service_ m1 = None)
    by (unfold hint_side in Hside; now injection Hside).
  assert (S1 : obj_perfhint_session_ m1 = None)
    by (unfold hint_side in Hside; now injection Hside).
  destruct (InitializePerformanceHintManager_refs B P m1 w1 V1 S1) as (R2 & D2).
  destruct (InitializePerformanceHintManager_thermal_side B P m1 w1) as (T2 & _).
  destruct (exec (InitializePerformanceHintManager B P) (m1, w1)) as [m2 w2].
  cbn [fst snd] in *.
  assert (A2 : app_ m2 = app_ m1 /\ obj_power_service_ m2 = obj_power_service_ m1)
    by (unfold thermal_side in T2; injection T2 as _ _ _ _ Ea Ep _ _; now split).
  destruct A2 as [A2 P2]. rewrite R1 in R2.
  destruct (thread_ops_refs B P ops
              (held (obj_perfhint_service_ m2) ++ held (obj_power_service_ m1))
              m2 w2 R2) as (R3 & V3 & D3).
  destruct (thread_ops_thermal_side B P ops m2 w2) as (T3 & _).
  destruct (exec (thread_ops B P ops) (m2, w2)) as [m3 w3]. cbn [fst snd] in *.
  assert (A3 : app_ m3 = app_ m2 /\ obj_power_service_ m3 = obj_power_service_ m2)
    by (unfold thermal_side in T3; injection T3 as _ _ _ _ Ea Ep _ _; now split).
  destruct A3 as [A3 P3].
  assert (Hinv : global_refs_open P (trace w3) = refs_held m3).
  { unfold refs_held. now rewrite R3, V3, P3, P2. }
  split; [exact Hinv|].
  apply ADPFManager_delete_refs; [| exact Hinv |].
  - rewrite A3, A2, A1. exact Happ.
  - intros Ha. destruct (D2 Ha) as [Dv Ds]. split; [now rewrite V3|].
    now rewrite (D3 Ha).
Qed.

Lemma lifecycle_deletes_every_global_ref_witness :
  let B := ndk_build 30 in
  let P := platform_without_setThreads 30 in
  let ops := [AddThread 200; AddThread 300; RemoveThread 200] in
  let s1 := exec (SetApplication B P the_app) (fresh 0) in
  let s2 := exec (thread_ops B P ops) s1 in
  let s3 := exec (ADPFManager_delete B) s2 in
  global_refs_open P (trace (snd s2)) = refs_held (fst s2)
  /\ global_refs_open P (trace (snd s3)) = [].
Proof.
  cbv zeta.
  apply (lifecycle_deletes_every_global_ref (ndk_build 30)
           (platform_without_setThreads 30) the_app 0
           [AddThread 200; AddThread 300; RemoveThread 200]).
  discriminate.
Defined.

Example global_refs_evaluated :
  let B := ndk_build 30 in
  let P := platform_without_setThreads 30 in
  let s2 := exec (thread_ops B P [AddThread 200; RemoveThread 200])
              (exec (SetApplication B P the_app) (fresh 0)) in
  global_refs_open P (trace (snd s2)) = refs_held (fst s2)
  /\ List.length (refs_held (fst s2)) = 3%nat
  /\ count_calls (fun c => match c with NewGlobalRef _ => true | _ => false end)
       (trace (snd s2)) = 5%nat
  /\ global_refs_open P (trace (snd (exec (ADPFManager_delete B) s2))) = [].
Proof. vm_compute. repeat split. Qed.
